(** * SSH Control: confirmation-gated remote command execution

    A shallow embedding of [src/ssh_control_mcp/server.py] (the command
    classifier, the [SSHConnection] session object, the [ssh_execute]
    branch of [call_tool]) and of [src/ssh_control_mcp/http_wrapper.py]
    (the [/api/execute] handler), with the properties the specification
    states about them.

    Conventions of the embedding.
    - Python [str] values are Rocq [string]s; the development is about
      ASCII text, on which [str.lower], [str.strip], [\s], [\w] and [.]
      are the functions given in module [Py] and [Re].
    - The dictionary [SSH_HOSTS] is a [gmap string HostConfig].
    - The paramiko client is an external collaborator.  Every call made
      on it is appended to a call log, and what the call answers
      (success, an exception, the remote output) is read from a
      [Transport] oracle, so the theorems hold for every behaviour of the
      remote side.
    - Python exceptions are the [Raise] outcome of the monad [M]; an
      exception is represented by its message, [str(e)]. *)

From Stdlib Require Import Ascii ZArith Bool Lia.
From stdpp Require Import gmap strings pretty.

Local Open Scope bool_scope.

(** ** Python string primitives *)

Module Py.

(** [str.isspace] on one ASCII character: TAB, LF, VT, FF, CR, the four
    separators FS GS RS US, and the space. *)
Definition isspace (c : ascii) : bool :=
  let n := nat_of_ascii c in
  ((9 <=? n) && (n <=? 13)) || ((28 <=? n) && (n <=? 32)).

Definition isupper (c : ascii) : bool :=
  let n := nat_of_ascii c in (65 <=? n) && (n <=? 90).

Definition islower (c : ascii) : bool :=
  let n := nat_of_ascii c in (97 <=? n) && (n <=? 122).

Definition isdigit (c : ascii) : bool :=
  let n := nat_of_ascii c in (48 <=? n) && (n <=? 57).

(** [str.lower] and [str.upper] on one ASCII character: the letters [A]
    to [Z] and [a] to [z] are the only ones that change. *)
Definition lower_char (c : ascii) : ascii :=
  if isupper c then ascii_of_nat (nat_of_ascii c + 32) else c.

Definition upper_char (c : ascii) : ascii :=
  if islower c then ascii_of_nat (nat_of_ascii c - 32) else c.

(** [s.lower()] *)
Fixpoint lower (s : string) : string :=
  match s with
  | EmptyString => EmptyString
  | String c s' => String (lower_char c) (lower s')
  end.

(** [s.upper()] *)
Fixpoint upper (s : string) : string :=
  match s with
  | EmptyString => EmptyString
  | String c s' => String (upper_char c) (upper s')
  end.

(** [s.lstrip()] *)
Fixpoint lstrip (s : string) : string :=
  match s with
  | EmptyString => EmptyString
  | String c s' => if isspace c then lstrip s' else s
  end.

(** [s.rstrip()] *)
Fixpoint rstrip (s : string) : string :=
  match s with
  | EmptyString => EmptyString
  | String c s' =>
      match rstrip s' with
      | EmptyString => if isspace c then EmptyString else String c EmptyString
      | t => String c t
      end
  end.

(** [s.strip()] *)
Definition strip (s : string) : string := rstrip (lstrip s).

(** [s.startswith(p)] *)
Fixpoint startswith (s p : string) : bool :=
  match p, s with
  | EmptyString, _ => true
  | String _ _, EmptyString => false
  | String b p', String a s' => Ascii.eqb a b && startswith s' p'
  end.

(** [p in s] on strings: [p] occurs as a contiguous slice of [s]. *)
Fixpoint contains (s p : string) : bool :=
  startswith s p ||
  match s with
  | EmptyString => false
  | String _ s' => contains s' p
  end.

(** [s.split(sep)] for a one-character separator [sep]. *)
Fixpoint split (sep : ascii) (s : string) : list string :=
  match s with
  | EmptyString => [EmptyString]
  | String c s' =>
      if Ascii.eqb c sep then EmptyString :: split sep s'
      else match split sep s' with
           | [] => [String c EmptyString]
           | w :: ws => String c w :: ws
           end
  end.

(** [sep.join(parts)] *)
Fixpoint join (sep : string) (parts : list string) : string :=
  match parts with
  | [] => EmptyString
  | [w] => w
  | w :: ws => w +:+ sep +:+ join sep ws
  end.

(** Truthiness of an [Optional[str]]: [None] and [''] are falsy. *)
Definition truthy (o : option string) : bool :=
  match o with
  | Some (String _ _) => true
  | _ => false
  end.

(** [a or b] on [Optional[str]] values. *)
Definition or_else (a b : option string) : option string :=
  if truthy a then a else b.

(** [f"{o}"] of an [Optional[str]]. *)
Definition format (o : option string) : string :=
  match o with
  | Some s => s
  | None => "None"
  end.

(** The line feed, ['\n']. *)
Definition LF : ascii := ascii_of_nat 10.
Definition nl : string := String LF EmptyString.

(** [s.isascii()]: every character of [s] is below U+0080. *)
Fixpoint isascii (s : string) : bool :=
  match s with
  | EmptyString => true
  | String c s' => (nat_of_ascii c <? 128) && isascii s'
  end.

End Py.

(** ** The fragment of Python's [re] used by the pattern catalogue *)

Module Re.

Inductive regex : Type :=
| REps                                (* the empty pattern *)
| RChar (c : ascii)                   (* a literal character *)
| RAny                                (* [.] *)
| RSpace                              (* [\s] *)
| RSet (cs : list ascii)              (* [[...]] *)
| RWordB                              (* [\b] *)
| RSeq (r1 r2 : regex)
| RAlt (r1 r2 : regex)                (* [r1|r2] *)
| RStar (r : regex).                  (* [r*] *)

(** [r+] *)
Definition RPlus (r : regex) : regex := RSeq r (RStar r).

(** *** Compiling a pattern string

    A recursive-descent reader for the syntax that occurs in the
    catalogue: literals, [\b], [\s], escaped punctuation, [.], a
    bracketed set of plain characters, groups with alternatives, and
    the postfix operators [*] and [+].  Anything else is not compiled
    ([None]). *)

Fixpoint parse_set (s : string) (acc : list ascii)
  : option (list ascii * string) :=
  match s with
  | EmptyString => None
  | String c s' =>
      if Ascii.eqb c "]" then Some (rev acc, s')
      else if Ascii.eqb c "\" || Ascii.eqb c "-" || Ascii.eqb c "^"
           || Ascii.eqb c "[" then None
      else parse_set s' (c :: acc)
  end.

Fixpoint parse_postfix (r : regex) (s : string) : regex * string :=
  match s with
  | String c s' =>
      if Ascii.eqb c "*" then parse_postfix (RStar r) s'
      else if Ascii.eqb c "+" then parse_postfix (RPlus r) s'
      else (r, s)
  | EmptyString => (r, s)
  end.

Definition is_meta (c : ascii) : bool :=
  existsb (Ascii.eqb c)
    ["?"; "{"; "}"; "^"; "$"; "*"; "+"; "]"]%char.

Fixpoint parse_alt (fuel : nat) (s : string) : option (regex * string) :=
  match fuel with
  | O => None
  | S fuel' =>
      match parse_seq fuel' s with
      | Some (r1, String c s') =>
          if Ascii.eqb c "|" then
            match parse_alt fuel' s' with
            | Some (r2, rest) => Some (RAlt r1 r2, rest)
            | None => None
            end
          else Some (r1, String c s')
      | other => other
      end
  end
with parse_seq (fuel : nat) (s : string) : option (regex * string) :=
  match fuel with
  | O => None
  | S fuel' =>
      match s with
      | EmptyString => Some (REps, s)
      | String c _ =>
          if Ascii.eqb c "|" || Ascii.eqb c ")" then Some (REps, s)
          else
            match parse_atom fuel' s with
            | Some (a, rest) =>
                let '(item, rest') := parse_postfix a rest in
                match parse_seq fuel' rest' with
                | Some (REps, rest'') => Some (item, rest'')
                | Some (r, rest'') => Some (RSeq item r, rest'')
                | None => None
                end
            | None => None
            end
      end
  end
with parse_atom (fuel : nat) (s : string) : option (regex * string) :=
  match fuel with
  | O => None
  | S fuel' =>
      match s with
      | EmptyString => None
      | String c s' =>
          if Ascii.eqb c "\" then
            match s' with
            | String e s'' =>
                if Ascii.eqb e "b" then Some (RWordB, s'')
                else if Ascii.eqb e "s" then Some (RSpace, s'')
                else if Py.islower e || Py.isupper e || Py.isdigit e
                then None
                else Some (RChar e, s'')
            | EmptyString => None
            end
          else if Ascii.eqb c "." then Some (RAny, s')
          else if Ascii.eqb c "[" then
            match parse_set s' [] with
            | Some (cs, rest) => Some (RSet cs, rest)
            | None => None
            end
          else if Ascii.eqb c "(" then
            match parse_alt fuel' s' with
            | Some (r, String d rest) =>
                if Ascii.eqb d ")" then Some (r, rest) else None
            | _ => None
            end
          else if is_meta c then None
          else Some (RChar c, s')
      end
  end.

(** [re.compile(pattern)] *)
Definition compile (pattern : string) : option regex :=
  match parse_alt (3 * String.length pattern + 3) pattern with
  | Some (r, EmptyString) => Some r
  | _ => None
  end.

(** *** Matching *)

(** [\w] on ASCII text. *)
Definition is_word (c : ascii) : bool :=
  Py.islower c || Py.isupper c || Py.isdigit c || Ascii.eqb c "_".

Definition word_before (prev : option ascii) : bool :=
  match prev with
  | Some c => is_word c
  | None => false
  end.

Definition word_after (s : string) : bool :=
  match s with
  | String c _ => is_word c
  | EmptyString => false
  end.

(** [\b] holds between a word character and a non-word character, the
    two ends of the text counting as non-word. *)
Definition at_boundary (prev : option ascii) (s : string) : bool :=
  xorb (word_before prev) (word_after s).

(** One character of the text against a one-character pattern. *)
Definition step (ok : ascii -> bool) (s : string)
    (k : option ascii -> string -> bool) : bool :=
  match s with
  | String a s' => ok a && k (Some a) s'
  | EmptyString => false
  end.

(** The iteration behind [r*]: stop here, or let the body [m] match once,
    consuming text, and iterate on what it leaves; [n] bounds the number
    of rounds. *)
Fixpoint star_loop
    (m : option ascii -> string -> (option ascii -> string -> bool) -> bool)
    (k : option ascii -> string -> bool)
    (n : nat) (p : option ascii) (t : string) : bool :=
  k p t ||
  match n with
  | O => false
  | S n' =>
      m p t (fun p' t' =>
               (String.length t' <? String.length t)
               && star_loop m k n' p' t')
  end.

(** [rmatch r prev s k]: some way of matching [r] at the front of [s]
    (with [prev] the character just before) leaves a rest accepted by
    the continuation [k].  Each round of a repetition consumes text, so
    the length of [s] bounds their number. *)
Fixpoint rmatch (r : regex) (prev : option ascii) (s : string)
    (k : option ascii -> string -> bool) {struct r} : bool :=
  match r with
  | REps => k prev s
  | RChar c => step (Ascii.eqb c) s k
  | RAny => step (fun a => negb (Ascii.eqb a Py.LF)) s k
  | RSpace => step Py.isspace s k
  | RSet cs => step (fun a => existsb (Ascii.eqb a) cs) s k
  | RWordB => at_boundary prev s && k prev s
  | RSeq r1 r2 => rmatch r1 prev s (fun p t => rmatch r2 p t k)
  | RAlt r1 r2 => rmatch r1 prev s k || rmatch r2 prev s k
  | RStar r1 => star_loop (rmatch r1) k (String.length s) prev s
  end.

Definition accept : option ascii -> string -> bool := fun _ _ => true.

(** A match starting at the current position or at any later one. *)
Fixpoint search_from (r : regex) (prev : option ascii) (s : string) : bool :=
  rmatch r prev s accept ||
  match s with
  | String a s' => search_from r (Some a) s'
  | EmptyString => false
  end.

(** [bool(re.search(pattern, text))]; a pattern outside the supported
    syntax finds nothing. *)
Definition search (pattern text : string) : bool :=
  match compile pattern with
  | Some r => search_from r None text
  | None => false
  end.

(** *** What a pattern denotes

    [denotes r prev s prev' s']: the pattern [r] matches the front of
    [s], the character before it being [prev], and leaves [s'], the
    character before [s'] being [prev'].  Each round of a repetition
    consumes at least one character. *)
Inductive denotes : regex -> option ascii -> string -> option ascii -> string
                    -> Prop :=
| D_eps prev s : denotes REps prev s prev s
| D_char c prev s : denotes (RChar c) prev (String c s) (Some c) s
| D_any a prev s :
    a <> Py.LF -> denotes RAny prev (String a s) (Some a) s
| D_space a prev s :
    Py.isspace a = true -> denotes RSpace prev (String a s) (Some a) s
| D_set cs a prev s :
    In a cs -> denotes (RSet cs) prev (String a s) (Some a) s
| D_wordb prev s :
    at_boundary prev s = true -> denotes RWordB prev s prev s
| D_seq r1 r2 p0 s0 p1 s1 p2 s2 :
    denotes r1 p0 s0 p1 s1 -> denotes r2 p1 s1 p2 s2 ->
    denotes (RSeq r1 r2) p0 s0 p2 s2
| D_alt_l r1 r2 p0 s0 p1 s1 :
    denotes r1 p0 s0 p1 s1 -> denotes (RAlt r1 r2) p0 s0 p1 s1
| D_alt_r r1 r2 p0 s0 p1 s1 :
    denotes r2 p0 s0 p1 s1 -> denotes (RAlt r1 r2) p0 s0 p1 s1
| D_star_stop r prev s : denotes (RStar r) prev s prev s
| D_star_round r p0 s0 p1 s1 p2 s2 :
    denotes r p0 s0 p1 s1 ->
    String.length s1 < String.length s0 ->
    denotes (RStar r) p1 s1 p2 s2 ->
    denotes (RStar r) p0 s0 p2 s2.

(** The character before the text that follows [pre], when [prev] is the
    character before [pre]. *)
Fixpoint last_char (prev : option ascii) (pre : string) : option ascii :=
  match pre with
  | EmptyString => prev
  | String a pre' => last_char (Some a) pre'
  end.

(** [found r text]: [r] matches somewhere in [text]. *)
Definition found (r : regex) (text : string) : Prop :=
  exists pre rest prev' rest',
    text = pre +:+ rest /\ denotes r (last_char None pre) rest prev' rest'.

(** *** Auxiliary notions for reasoning about patterns *)

(** [avoids c s]: the character [c] does not occur in [s]. *)
Fixpoint avoids (c : ascii) (s : string) : bool :=
  match s with
  | EmptyString => true
  | String a s' => negb (Ascii.eqb c a) && avoids c s'
  end.

(** [requires c r]: every text matched by [r] contains the literal
    character [c]. *)
Fixpoint requires (c : ascii) (r : regex) : bool :=
  match r with
  | RChar c' => Ascii.eqb c c'
  | RSeq r1 r2 => requires c r1 || requires c r2
  | RAlt r1 r2 => requires c r1 && requires c r2
  | _ => false
  end.

(** The letters [A] to [Z]. *)
Definition upper_case_letters : list ascii :=
  map ascii_of_nat (seq 65 26).

(** The pattern demands some upper-case letter. *)
Definition requires_upper (pattern : string) : bool :=
  match compile pattern with
  | Some r => existsb (fun c => requires c r) upper_case_letters
  | None => false
  end.

(** The literal characters every match of [r] begins with: the
    characters at the front of the pattern, [\b] skipped. *)
Fixpoint leading_literal (r : regex) : string :=
  match r with
  | RChar c => String c EmptyString
  | RSeq RWordB r2 => leading_literal r2
  | RSeq (RChar c) r2 => String c (leading_literal r2)
  | _ => EmptyString
  end.

End Re.

(** ** The command classifier ([server.py], lines 26-92) *)

(** Destructive command patterns - these require confirmation. *)
Definition DESTRUCTIVE_PATTERNS : list string :=
  [ "\brm\b.*-[rf]+";
    "\brm\b.*/";
    "\bdd\b";
    "\bmkfs\b";
    "\bformat\b";
    "\bfdisk\b";
    "\bparted\b";
    "\bcryptsetup\b.*luksFormat";
    "\b:>\s*/";
    "\bshred\b";
    "\bwipefs\b";
    "\b>\s*/dev/";
    "\bchmod\b.*777";
    "\bchown\b";
    "\bkill\b.*-9";
    "\bkillall\b";
    "\bpkill\b";
    "\bsystemctl\b.*(stop|disable|mask|restart)";
    "\bservice\b.*(stop|disable|restart)";
    "\bapt-get\b.*(remove|purge|autoremove)";
    "\bapt\b.*(remove|purge|autoremove)";
    "\byum\b.*(remove|erase)";
    "\bdnf\b.*(remove|erase)";
    "\bpacman\b.*-R";
    "\bsnap\b.*remove";
    "\bdocker\b.*(rm|rmi|system prune)";
    "\biptables\b.*-F";
    "\bufw\b.*disable";
    "\binit\b.*0";
    "\bshutdown\b";
    "\breboot\b";
    "\bhalt\b";
    "\bpoweroff\b";
    "\buserdel\b";
    "\busermod\b";
    "\bgroupdel\b";
    "\bmv\b.*/";
    "\btruncate\b";
    "\bcrontab\b.*-r" ].

(** Check if a command is potentially destructive. *)
Definition is_destructive_command (command : string) : bool :=
  let command_lower := Py.strip (Py.lower command) in
  existsb (fun pattern => Re.search pattern command_lower)
          DESTRUCTIVE_PATTERNS.

(** The commands the specification names as clearly benign. *)
Definition benign_examples : list string :=
  [ "ls -la"; "df -h"; "uptime"; "echo hi" ].

(** The literal each pattern of the catalogue begins with. *)
Definition signature_keywords : list string :=
  map (fun pattern =>
         match Re.compile pattern with
         | Some r => Re.leading_literal r
         | None => EmptyString
         end)
      DESTRUCTIVE_PATTERNS.

(** [mentions_keyword command]: one of them occurs in the lower-cased
    command, as a word or inside one. *)
Definition mentions_keyword (command : string) : bool :=
  existsb (Py.contains (Py.lower command)) signature_keywords.

(** ** Host profiles and the session object *)

(** One entry of [SSH_HOSTS], as the code reads it: [config['hostname']]
    is required, the other keys are read with [config.get]. *)
Record HostConfig : Type := {
  cfg_hostname : string;
  cfg_port : option Z;
  cfg_username : option string;
  cfg_password : option string;
  cfg_description : option string
}.

(** A paramiko client object, identified by the order of its creation. *)
Definition handle : Type := nat.

(** [SSHConnection]: the three attributes set by [__init__]. *)
Record SSHConnection : Type := {
  client : option handle;
  hostname : option string;
  host_alias : option string
}.

(** [SSHConnection()] *)
Definition SSHConnection_init : SSHConnection :=
  {| client := None; hostname := None; host_alias := None |}.

(** ** The transport seen from the program *)

(** The calls the program makes on paramiko objects. *)
Inductive Call : Type :=
| SSHClient_new (h : handle)
| set_missing_host_key_policy (h : handle)
| client_connect (h : handle) (hostname : string) (port : Z)
                 (username password : string)
| exec_command (h : handle) (command : string) (get_pty : bool)
| stdin_write (h : handle) (data : string)
| channel_wait (h : handle)
| client_close (h : handle).

(** What the remote side answers.  Each answer may depend on the whole
    history of calls, the last of which is the call being answered.
    - [connect_fails]: [Some msg] when [client.connect] raises;
    - [exec_fails]: [Some msg] when [client.exec_command] raises;
    - [stdin_fails]: [Some msg] when writing to the channel's input, or
      flushing it, raises;
    - [channel_result]: the outcome of waiting for the exit status and
      reading both streams (decoded with [errors='replace']): an
      exception message, or the exit status with the texts of stdout and
      stderr. *)
Record Transport : Type := {
  connect_fails : list Call -> option string;
  exec_fails : list Call -> option string;
  stdin_fails : list Call -> option string;
  channel_result : list Call -> string + (Z * string * string)
}.

(** The state of the process: the global [ssh_conn], the log of transport
    calls, the next client identity, and the clients whose connection was
    established and not closed since. *)
Record World : Type := {
  ssh_conn : SSHConnection;
  calls : list Call;
  next_handle : handle;
  established : gset handle
}.

Definition World_init : World :=
  {| ssh_conn := SSHConnection_init; calls := [];
     next_handle := 0; established := ∅ |}.

(** The world with another call log. *)
Definition with_calls (w : World) (l : list Call) : World :=
  {| ssh_conn := ssh_conn w; calls := l;
     next_handle := next_handle w; established := established w |}.

(** ** Computations that mutate the world and may raise *)

Inductive Outcome (A : Type) : Type :=
| Return (a : A)
| Raise (msg : string).
Arguments Return {A} a.
Arguments Raise {A} msg.

Definition M (A : Type) : Type := World -> Outcome A * World.

Definition ret {A} (a : A) : M A := fun w => (Return a, w).

Definition raise {A} (msg : string) : M A := fun w => (Raise msg, w).

Definition bind {A B} (m : M A) (k : A -> M B) : M B :=
  fun w =>
    match m w with
    | (Return a, w') => k a w'
    | (Raise msg, w') => (Raise msg, w')
    end.

(** [try: body  except Exception as e: handler(str(e))]; what [body]
    changed before raising stays changed. *)
Definition try_except {A} (body : M A) (handler : string -> M A) : M A :=
  fun w =>
    match body w with
    | (Return a, w') => (Return a, w')
    | (Raise msg, w') => handler msg w'
    end.

Declare Scope py_scope.
Delimit Scope py_scope with py.
Notation "x <- c1 ;; c2" := (bind c1 (fun x => c2))
  (at level 100, c1 at next level, right associativity) : py_scope.
Notation "c1 ;; c2" := (bind c1 (fun _ => c2))
  (at level 100, right associativity) : py_scope.
Local Open Scope py_scope.

Definition get_conn : M SSHConnection := fun w => (Return (ssh_conn w), w).

Definition put_conn (s : SSHConnection) : M unit :=
  fun w => (Return tt,
            {| ssh_conn := s; calls := calls w;
               next_handle := next_handle w; established := established w |}).

(** [self.client = v], [self.hostname = v], [self.host_alias = v] *)
Definition set_client (v : option handle) : M unit :=
  s <- get_conn ;;
  put_conn {| client := v; hostname := hostname s; host_alias := host_alias s |}.

Definition set_hostname (v : option string) : M unit :=
  s <- get_conn ;;
  put_conn {| client := client s; hostname := v; host_alias := host_alias s |}.

Definition set_host_alias (v : option string) : M unit :=
  s <- get_conn ;;
  put_conn {| client := client s; hostname := hostname s; host_alias := v |}.

(** Appending a call to the log. *)
Definition log (c : Call) : M unit :=
  fun w => (Return tt,
            {| ssh_conn := ssh_conn w; calls := calls w ++ [c];
               next_handle := next_handle w; established := established w |}).

Definition set_established (f : gset handle -> gset handle) : M unit :=
  fun w => (Return tt,
            {| ssh_conn := ssh_conn w; calls := calls w;
               next_handle := next_handle w;
               established := f (established w) |}).

Definition get_calls : M (list Call) := fun w => (Return (calls w), w).

Section Paramiko.

Variable net : Transport.

(** [paramiko.SSHClient()] *)
Definition SSHClient : M handle :=
  fun w =>
    let h := next_handle w in
    (Return h,
     {| ssh_conn := ssh_conn w; calls := calls w ++ [SSHClient_new h];
        next_handle := S h; established := established w |}).

(** [client.set_missing_host_key_policy(paramiko.AutoAddPolicy())] *)
Definition SSHClient_set_policy (h : handle) : M unit :=
  log (set_missing_host_key_policy h).

(** [client.connect(hostname=, port=, username=, password=, timeout=10,
    look_for_keys=False, allow_agent=False)] *)
Definition SSHClient_connect (h : handle) (hostname : string) (port : Z)
    (username password : string) : M unit :=
  log (client_connect h hostname port username password) ;;
  history <- get_calls ;;
  match connect_fails net history with
  | Some msg => raise msg
  | None => set_established (fun e => {[h]} ∪ e)
  end.

(** [client.exec_command(command, timeout=30, get_pty=get_pty)] *)
Definition SSHClient_exec_command (h : handle) (command : string)
    (get_pty : bool) : M unit :=
  log (exec_command h command get_pty) ;;
  history <- get_calls ;;
  match exec_fails net history with
  | Some msg => raise msg
  | None => ret tt
  end.

(** [stdin.write(data)] and [stdin.flush()] *)
Definition stdin_put (h : handle) (data : string) : M unit :=
  log (stdin_write h data) ;;
  history <- get_calls ;;
  match stdin_fails net history with
  | Some msg => raise msg
  | None => ret tt
  end.

(** [stdout.channel.recv_exit_status()], [stdout.read().decode(...)],
    [stderr.read().decode(...)] *)
Definition channel_collect (h : handle) : M (Z * string * string) :=
  log (channel_wait h) ;;
  history <- get_calls ;;
  match channel_result net history with
  | inl msg => raise msg
  | inr out => ret out
  end.

(** [client.close()] *)
Definition SSHClient_close (h : handle) : M unit :=
  log (client_close h) ;;
  set_established (fun e => e ∖ {[h]}).

End Paramiko.

(** ** [server.py]: the session manager and the [ssh_execute] tool *)

(** The dictionary returned by [SSHConnection.execute_command]. *)
Record ExecutionResult : Type := {
  res_hostname : option string;
  res_command : string;
  res_exit_code : Z;
  res_stdout : string;
  res_stderr : string;
  res_success : bool;
  res_used_sudo : bool
}.

(** The locals bound by the two branches at the top of [connect]. *)
Record Target : Type := {
  t_hostname : string;
  t_port : Z;
  t_username : string;
  t_password : option string;
  t_description : string
}.

Module Server.
Section WithEnvironment.

Variable SSH_HOSTS : gmap string HostConfig.
Variable net : Transport.

(** [SSHConnection.connect]: establish SSH connection to a host using
    config file or direct hostname. *)
Definition connect (host : string) : M string :=
  try_except
    (target <-
       match SSH_HOSTS !! host with
       | Some config =>
           (* host is an alias in config *)
           set_host_alias (Some host) ;;
           ret {| t_hostname := cfg_hostname config;
                  t_port := default 22%Z (cfg_port config);
                  t_username := default "root" (cfg_username config);
                  t_password := cfg_password config;
                  t_description := default "" (cfg_description config) |}
       | None =>
           (* treat as direct hostname *)
           set_host_alias None ;;
           ret {| t_hostname := host; t_port := 22%Z;
                  t_username := "root"; t_password := None;
                  t_description := "" |}
       end ;;
     h <- SSHClient ;;
     set_client (Some h) ;;
     SSHClient_set_policy h ;;
     (if Py.truthy (t_password target) then ret tt
      else raise ("No password found for host '" +:+ host
                  +:+ "' in config")) ;;
     SSHClient_connect net h (t_hostname target) (t_port target)
       (t_username target) (default "" (t_password target)) ;;
     set_hostname (Some (t_hostname target)) ;;
     let msg := "Successfully connected to " +:+ host in
     let msg := if Py.truthy (Some (t_description target))
                then msg +:+ " (" +:+ t_description target +:+ ")"
                else msg in
     ret msg)
    (fun e => raise ("SSH connection failed: " +:+ e)).

(** The command line handed to the channel. *)
Definition exec_line (command : string) (use_sudo : bool) : string :=
  if use_sudo then
    if Py.startswith (Py.strip command) "sudo" then command
    else "sudo -S " +:+ command
  else command.

(** Remove password prompt from output if present. *)
Definition strip_prompt (use_sudo : bool) (stdout_text : string) : string :=
  if use_sudo && Py.contains stdout_text "[sudo]" then
    Py.join Py.nl
      (filter (fun line => Py.contains line "[sudo]" = false)
              (Py.split Py.LF stdout_text))
  else stdout_text.

(** [SSHConnection.execute_command]: execute a command on the remote
    host. *)
Definition execute_command (command : string) (use_sudo : bool)
    (sudo_password : option string) : M ExecutionResult :=
  self <- get_conn ;;
  match client self with
  | Some h =>
      if Py.truthy (hostname self) then
        try_except
          (SSHClient_exec_command net h (exec_line command use_sudo)
             use_sudo ;;
           (if use_sudo && Py.truthy sudo_password
            then stdin_put net h (default "" sudo_password +:+ Py.nl)
            else ret tt) ;;
           out <- channel_collect net h ;;
           let '(exit_code, stdout_text, stderr_text) := out in
           ret {| res_hostname := hostname self;
                  res_command := command;
                  res_exit_code := exit_code;
                  res_stdout := strip_prompt use_sudo stdout_text;
                  res_stderr := stderr_text;
                  res_success := (exit_code =? 0)%Z;
                  res_used_sudo := use_sudo |})
          (fun e => raise ("Failed to execute command: " +:+ e))
      else raise "Not connected to any host. Please connect first."
  | None => raise "Not connected to any host. Please connect first."
  end.

(** [SSHConnection.disconnect]: close the SSH connection. *)
Definition disconnect : M string :=
  self <- get_conn ;;
  match client self with
  | Some h =>
      let hostname := Py.or_else (host_alias self) (hostname self) in
      SSHClient_close h ;;
      set_client None ;;
      set_hostname None ;;
      set_host_alias None ;;
      ret ("Disconnected from " +:+ Py.format hostname)
  | None => ret "No active connection"
  end.

(** [SSHConnection.is_connected] *)
Definition is_connected (self : SSHConnection) : bool :=
  match client self, hostname self with
  | Some _, Some _ => true
  | _, _ => false
  end.

(** Auto-detect sudo in command. *)
Definition detect_sudo (command : string) (use_sudo : bool) : bool :=
  if Py.startswith (Py.strip command) "sudo" then true else use_sudo.

(** Get sudo password if needed. *)
Definition resolve_sudo_password (self : SSHConnection) (use_sudo : bool)
  : option string :=
  if use_sudo && Py.truthy (host_alias self) then
    alias ← host_alias self;
    config ← SSH_HOSTS !! alias;
    cfg_password config
  else None.

(** The text built when an unconfirmed destructive command is refused. *)
Definition destructive_warning (command : string) : string :=
  "⚠️  WARNING: DESTRUCTIVE COMMAND DETECTED" +:+ Py.nl +:+ Py.nl
  +:+ "Command: " +:+ command +:+ Py.nl +:+ Py.nl
  +:+ "This command could:" +:+ Py.nl
  +:+ "• Delete files or directories" +:+ Py.nl
  +:+ "• Modify system configuration" +:+ Py.nl
  +:+ "• Stop or restart services" +:+ Py.nl
  +:+ "• Reboot/shutdown the system" +:+ Py.nl
  +:+ "• Remove packages or users" +:+ Py.nl
  +:+ "• Change permissions or ownership" +:+ Py.nl +:+ Py.nl
  +:+ "❌ CONFIRMATION REQUIRED" +:+ Py.nl +:+ Py.nl
  +:+ "To execute this command, you MUST confirm by:" +:+ Py.nl
  +:+ "Setting 'confirmed: true' in the tool parameters" +:+ Py.nl
  +:+ Py.nl
  +:+ "⚠️  Please review the command carefully before confirming!".

(** Format the response. *)
Definition format_result (result : ExecutionResult) : string :=
  let output := "Command: " +:+ res_command result +:+ Py.nl in
  let output := output +:+ "Host: " +:+ Py.format (res_hostname result)
                +:+ Py.nl in
  let output := if res_used_sudo result
                then output +:+ "Executed with: sudo" +:+ Py.nl
                else output in
  let output := output +:+ "Exit Code: " +:+ pretty (res_exit_code result)
                +:+ Py.nl +:+ Py.nl in
  let output := if Py.truthy (Some (res_stdout result))
                then output +:+ "STDOUT:" +:+ Py.nl +:+ res_stdout result
                     +:+ Py.nl
                else output in
  let output := if Py.truthy (Some (res_stderr result))
                then output +:+ Py.nl +:+ "STDERR:" +:+ Py.nl
                     +:+ res_stderr result +:+ Py.nl
                else output in
  if res_success result then output
  else output +:+ Py.nl +:+ "⚠️  Command failed with exit code "
       +:+ pretty (res_exit_code result).

(** The [ssh_execute] branch of [call_tool], inside its [try]. *)
Definition ssh_execute (command : option string) (confirmed use_sudo : bool)
  : M string :=
  if negb (Py.truthy command) then ret "Error: No command provided"
  else
    let command := default "" command in
    let use_sudo := detect_sudo command use_sudo in
    if is_destructive_command command && negb confirmed then
      ret (destructive_warning command)
    else
      self <- get_conn ;;
      let sudo_password := resolve_sudo_password self use_sudo in
      result <- execute_command command use_sudo sudo_password ;;
      ret (format_result result).

(** [call_tool("ssh_execute", arguments)]: the text of the single
    [TextContent] returned; the handler catches every exception. *)
Definition call_tool_ssh_execute (command : option string)
    (confirmed use_sudo : bool) (w : World) : string * World :=
  match ssh_execute command confirmed use_sudo w with
  | (Return text, w') => (text, w')
  | (Raise e, w') => ("Error: " +:+ e, w')
  end.

End WithEnvironment.
End Server.

(** ** [http_wrapper.py]: the [/api/execute] route *)

(** The three shapes of JSON object the route answers with. *)
Inductive HttpResponse : Type :=
| JsonError (error : string)
| JsonRefusal (error warning : string)
| JsonResult (success : bool) (command : string) (hostname : option string)
             (exit_code : Z) (stdout stderr : string) (used_sudo : bool).

Module Http.
Section WithEnvironment.

Variable SSH_HOSTS : gmap string HostConfig.
Variable net : Transport.

Definition destructive_warning (command : string) : string :=
  "⚠️  WARNING: DESTRUCTIVE COMMAND DETECTED" +:+ Py.nl +:+ Py.nl
  +:+ "Command: " +:+ command +:+ Py.nl +:+ Py.nl
  +:+ "This command could:" +:+ Py.nl
  +:+ "• Delete files or directories" +:+ Py.nl
  +:+ "• Modify system configuration" +:+ Py.nl
  +:+ "• Stop or restart services" +:+ Py.nl
  +:+ "• Reboot/shutdown the system" +:+ Py.nl +:+ Py.nl
  +:+ "Set 'confirmed: true' to proceed.".

(** The body of [execute], inside its [try]. *)
Definition execute_body (command : option string)
    (confirmed use_sudo : bool) : M HttpResponse :=
  if negb (Py.truthy command) then ret (JsonError "No command provided")
  else
    let command := default "" command in
    (* Auto-detect sudo *)
    let use_sudo :=
      if Py.startswith (Py.strip command) "sudo" then true else use_sudo in
    (* Check for destructive commands *)
    if is_destructive_command command && negb confirmed then
      ret (JsonRefusal "Destructive command requires confirmation"
                       (destructive_warning command))
    else
      self <- get_conn ;;
      (* Get sudo password if needed *)
      let sudo_password :=
        if use_sudo && Py.truthy (host_alias self) then
          alias ← host_alias self;
          config ← SSH_HOSTS !! alias;
          cfg_password config
        else None in
      (* Execute command *)
      result <- Server.execute_command net command use_sudo sudo_password ;;
      ret (JsonResult (res_success result) (res_command result)
             (res_hostname result) (res_exit_code result)
             (res_stdout result) (res_stderr result)
             (res_used_sudo result)).

(** [execute()]: every exception becomes an error object. *)
Definition execute (command : option string) (confirmed use_sudo : bool)
    (w : World) : HttpResponse * World :=
  match execute_body command confirmed use_sudo w with
  | (Return response, w') => (response, w')
  | (Raise e, w') => (JsonError e, w')
  end.

End WithEnvironment.
End Http.

(** ** Properties of a session and of a call log *)

(** The data-model invariant of the specification: the connection handle
    and the hostname are both present or both absent. *)
Definition session_consistent (self : SSHConnection) : bool :=
  match client self, hostname self with
  | Some _, Some _ => true
  | None, None => true
  | _, _ => false
  end.

Definition is_client_close (c : Call) : bool :=
  match c with
  | client_close _ => true
  | _ => false
  end.

Definition is_client_connect (c : Call) : bool :=
  match c with
  | client_connect _ _ _ _ _ => true
  | _ => false
  end.

(** The connection parameters [connect] settles on for [host]: those of
    the profile when [host] is an alias, the fallback otherwise. *)
Definition target_of (SSH_HOSTS : gmap string HostConfig) (host : string)
  : Target :=
  match SSH_HOSTS !! host with
  | Some config =>
      {| t_hostname := cfg_hostname config;
         t_port := default 22%Z (cfg_port config);
         t_username := default "root" (cfg_username config);
         t_password := cfg_password config;
         t_description := default "" (cfg_description config) |}
  | None =>
      {| t_hostname := host; t_port := 22%Z; t_username := "root";
         t_password := None; t_description := "" |}
  end.

(** The alias [connect] records for [host]. *)
Definition alias_of (SSH_HOSTS : gmap string HostConfig) (host : string)
  : option string :=
  match SSH_HOSTS !! host with
  | Some _ => Some host
  | None => None
  end.

(** The input a channel is expected to receive: the secret and a line
    feed when escalation is in effect and a secret was resolved, nothing
    otherwise. *)
Definition secret_input (h : handle) (use_sudo : bool)
    (sudo_password : option string) : list Call :=
  if use_sudo && Py.truthy sudo_password
  then [stdin_write h (default "" sudo_password +:+ Py.nl)]
  else [].

(** ** A concrete environment: the end-to-end example of the specification *)

Definition vm1 : HostConfig :=
  {| cfg_hostname := "10.0.0.5"; cfg_port := None;
     cfg_username := Some "admin"; cfg_password := Some "s3cret";
     cfg_description := None |}.

Definition vm2 : HostConfig :=
  {| cfg_hostname := "10.0.0.6"; cfg_port := Some 2222%Z;
     cfg_username := None; cfg_password := Some "hunter2";
     cfg_description := Some "staging" |}.

(** A profile without a stored password. *)
Definition vm3 : HostConfig :=
  {| cfg_hostname := "10.0.0.7"; cfg_port := None;
     cfg_username := None; cfg_password := None;
     cfg_description := None |}.

Definition example_hosts : gmap string HostConfig :=
  <["vm1" := vm1]> (<["vm2" := vm2]> (<["vm3" := vm3]> ∅)).

(** A remote side on which every connection is accepted and every command
    exits with status 0 and no output. *)
Definition quiet_net : Transport :=
  {| connect_fails := fun _ => None;
     exec_fails := fun _ => None;
     stdin_fails := fun _ => None;
     channel_result := fun _ => inr (0%Z, "", "") |}.

(** A remote side that refuses every connection. *)
Definition refusing_net : Transport :=
  {| connect_fails := fun _ => Some "Authentication failed.";
     exec_fails := fun _ => Some "SSH session not active";
     stdin_fails := fun _ => Some "Socket is closed";
     channel_result := fun _ => inl "SSH session not active" |}.

(** The world after [connect("vm1")] succeeded from the initial state. *)
Definition world_vm1 : World :=
  (Server.connect example_hosts quiet_net "vm1" World_init).2.

(** The world after a further [connect("vm3")], which fails for want of a
    password: the alias is now [vm3], the hostname still that of [vm1]. *)
Definition world_vm3_failed : World :=
  (Server.connect example_hosts quiet_net "vm3" world_vm1).2.

(** ** [server.py]: the other tools of [call_tool] *)

(** The [arguments] object of a tool call, with the keys the handlers
    read; [confirmed] and [use_sudo] default to [False]. *)
Record Arguments : Type := {
  arg_host : option string;
  arg_command : option string;
  arg_confirmed : bool;
  arg_use_sudo : bool
}.

Module CallTool.
Section WithEnvironment.

(** [SSH_HOSTS.items()]: the configured hosts in the order of the
    configuration file; the dictionary itself is [list_to_map] of it. *)
Variable SSH_HOSTS_items : list (string * HostConfig).
Variable net : Transport.

(** The lines [ssh_list_hosts] adds for one host. *)
Definition host_lines (item : string * HostConfig) : string :=
  let '(alias, config) := item in
  "  " +:+ alias +:+ ":" +:+ Py.nl
  +:+ "    Hostname: " +:+ cfg_hostname config +:+ Py.nl
  +:+ "    Username: " +:+ default "root" (cfg_username config) +:+ Py.nl
  +:+ "    Port: " +:+ pretty (default 22%Z (cfg_port config)) +:+ Py.nl
  +:+ (if Py.truthy (cfg_description config)
       then "    Description: " +:+ default "" (cfg_description config)
            +:+ Py.nl
       else "")
  +:+ Py.nl.

(** The [ssh_list_hosts] branch. *)
Definition ssh_list_hosts : string :=
  match SSH_HOSTS_items with
  | [] => "No hosts configured in config.yaml"
  | _ =>
      fold_left (fun output item => output +:+ host_lines item)
        SSH_HOSTS_items ("Configured SSH Hosts:" +:+ Py.nl +:+ Py.nl)
  end.

(** The [ssh_connect] branch, inside the [try] of [call_tool]. *)
Definition ssh_connect (host : option string) : M string :=
  if negb (Py.truthy host) then ret "Error: No host specified"
  else Server.connect (list_to_map SSH_HOSTS_items) net (default "" host).

(** The [ssh_status] branch. *)
Definition ssh_status (self : SSHConnection) : string :=
  if Server.is_connected self then
    let host_info := Py.or_else (host_alias self) (hostname self) in
    let status := "Connected to: " +:+ Py.format host_info in
    if Py.truthy (host_alias self) && Py.truthy (hostname self)
    then status +:+ " (" +:+ Py.format (hostname self) +:+ ")"
    else status
  else "Not connected to any host".

(** The body of [call_tool], inside its [try]. *)
Definition call_tool_body (name : string) (arguments : Arguments)
  : M string :=
  if String.eqb name "ssh_list_hosts" then ret ssh_list_hosts
  else if String.eqb name "ssh_connect" then ssh_connect (arg_host arguments)
  else if String.eqb name "ssh_execute" then
    Server.ssh_execute (list_to_map SSH_HOSTS_items) net
      (arg_command arguments) (arg_confirmed arguments)
      (arg_use_sudo arguments)
  else if String.eqb name "ssh_disconnect" then Server.disconnect
  else if String.eqb name "ssh_status" then
    self <- get_conn ;; ret (ssh_status self)
  else ret ("Unknown tool: " +:+ name).

(** [call_tool(name, arguments)]: the text of the single [TextContent]
    returned; every exception becomes an [Error: ...] text. *)
Definition call_tool (name : string) (arguments : Arguments) (w : World)
  : string * World :=
  match call_tool_body name arguments w with
  | (Return text, w') => (text, w')
  | (Raise e, w') => ("Error: " +:+ e, w')
  end.

End WithEnvironment.
End CallTool.

(** ** [http_wrapper.py]: the other routes *)

(** One element of the ["hosts"] array of [/api/hosts]. *)
Record HostEntry : Type := {
  entry_alias : string;
  entry_hostname : string;
  entry_username : string;
  entry_port : Z;
  entry_description : string
}.

(** The JSON objects the routes other than [/api/execute] answer with:
    [{"success": False, "error": ...}],
    [{"success": True, "message": ...}],
    [{"success": True, "hosts": [...]}] and the two status objects,
    [{"success": True, "connected": ..., ...}], where [host], [hostname]
    are absent when [connected] is false. *)
Inductive HttpReply : Type :=
| ReplyError (error : string)
| ReplyMessage (message : string)
| ReplyHosts (hosts : list HostEntry)
| ReplyStatus (connected : bool) (host hostname : option string)
              (message : string).

Module Routes.
Section WithEnvironment.

Variable SSH_HOSTS_items : list (string * HostConfig).
Variable net : Transport.

(** [list_hosts()]: list all configured SSH hosts. *)
Definition list_hosts : HttpReply :=
  match SSH_HOSTS_items with
  | [] => ReplyError "No hosts configured"
  | _ =>
      ReplyHosts
        (map (fun '(alias, config) =>
                {| entry_alias := alias;
                   entry_hostname := cfg_hostname config;
                   entry_username := default "root" (cfg_username config);
                   entry_port := default 22%Z (cfg_port config);
                   entry_description :=
                     default "" (cfg_description config) |})
             SSH_HOSTS_items)
  end.

(** [connect()]: connect to a host. *)
Definition connect (host : option string) (w : World) : HttpReply * World :=
  if negb (Py.truthy host) then (ReplyError "No host specified", w)
  else
    match Server.connect (list_to_map SSH_HOSTS_items) net (default "" host) w
    with
    | (Return result, w') => (ReplyMessage result, w')
    | (Raise e, w') => (ReplyError e, w')
    end.

(** [disconnect()]: disconnect from current host. *)
Definition disconnect (w : World) : HttpReply * World :=
  match Server.disconnect w with
  | (Return result, w') => (ReplyMessage result, w')
  | (Raise e, w') => (ReplyError e, w')
  end.

(** [status()]: get connection status. *)
Definition status (w : World) : HttpReply * World :=
  let self := ssh_conn w in
  if Server.is_connected self then
    let host_info := Py.or_else (host_alias self) (hostname self) in
    let message := "Connected to: " +:+ Py.format host_info in
    let message :=
      if Py.truthy (host_alias self) && Py.truthy (hostname self)
      then message +:+ " (" +:+ Py.format (hostname self) +:+ ")"
      else message in
    (ReplyStatus true (host_alias self) (hostname self) message, w)
  else (ReplyStatus false None None "Not connected to any host", w).

End WithEnvironment.
End Routes.

(** ** [ssh_linux_control.py]: the OpenWebUI tool *)

(** How [requests] fails. *)
Inductive RequestError : Type :=
| ConnectionError
| OtherError (msg : string).

(** What happens to one HTTP request: it is answered; it raises before
    the server has seen it; or the server handles it and the call raises
    all the same (time-out, broken answer). *)
Inductive Delivery : Type :=
| Delivered
| NotSent (e : RequestError)
| AnswerLost (e : RequestError).

Module Tools.
Section WithEnvironment.

Variable SSH_HOSTS_items : list (string * HostConfig).
Variable net : Transport.

(** The ["error"] text [_make_request] builds from an exception. *)
Definition request_error (e : RequestError) : string :=
  match e with
  | ConnectionError =>
      "Cannot connect to SSH Control MCP server. Ensure the container is running."
  | OtherError msg => "Request error: " +:+ msg
  end.

(** [_make_request]: the JSON answer of the route, or the error object
    [{"success": False, "error": ...}], written [failure]. *)
Definition make_request {R : Type} (failure : string -> R) (d : Delivery)
    (route : World -> R * World) (w : World) : R * World :=
  match d with
  | Delivered => route w
  | NotSent e => (failure (request_error e), w)
  | AnswerLost e => (failure (request_error e), (route w).2)
  end.

(** The lines [ssh_list_hosts] adds for one element of ["hosts"]. *)
Definition host_lines (host : HostEntry) : string :=
  "  " +:+ entry_alias host +:+ ":" +:+ Py.nl
  +:+ "    Hostname: " +:+ entry_hostname host +:+ Py.nl
  +:+ "    Username: " +:+ entry_username host +:+ Py.nl
  +:+ "    Port: " +:+ pretty (entry_port host) +:+ Py.nl
  +:+ (if Py.truthy (Some (entry_description host))
       then "    Description: " +:+ entry_description host +:+ Py.nl
       else "")
  +:+ Py.nl.

(** The text [ssh_list_hosts] makes of the answer. *)
Definition render_hosts (result : HttpReply) : string :=
  match result with
  | ReplyError error => "Error: " +:+ error
  | ReplyHosts ((_ :: _) as hosts) =>
      fold_left (fun output host => output +:+ host_lines host)
        hosts ("Configured SSH Hosts:" +:+ Py.nl +:+ Py.nl)
  | _ => "No hosts configured in config.yaml"
  end.

(** [ssh_list_hosts] *)
Definition ssh_list_hosts (d : Delivery) (w : World) : string * World :=
  let '(result, w') :=
    make_request ReplyError d
      (fun w => (Routes.list_hosts SSH_HOSTS_items, w)) w in
  (render_hosts result, w').

(** The text [ssh_connect], [ssh_disconnect] and [ssh_status] make of the
    answer: [result.get("message", missing)] on success,
    [Error: ...] otherwise. *)
Definition render_message (missing : string) (result : HttpReply) : string :=
  match result with
  | ReplyError error => "Error: " +:+ error
  | ReplyMessage message => message
  | ReplyHosts _ => missing
  | ReplyStatus _ _ _ message => message
  end.

(** [ssh_connect] *)
Definition ssh_connect (d : Delivery) (host : string) (w : World)
  : string * World :=
  let '(result, w') :=
    make_request ReplyError d
      (Routes.connect SSH_HOSTS_items net (Some host)) w in
  (render_message "Connected successfully" result, w').

(** The text [ssh_execute] makes of the answer. *)
Definition render_execute (result : HttpResponse) : string :=
  match result with
  | JsonRefusal _ warning => warning
  | JsonError error => "Error: " +:+ error
  | JsonResult success command hostname exit_code stdout stderr used_sudo =>
      if negb success then "Error: Command failed"
      else
        let output := "Command: " +:+ command +:+ Py.nl in
        let output := output +:+ "Host: " +:+ Py.format hostname
                      +:+ Py.nl in
        let output := if used_sudo
                      then output +:+ "Executed with: sudo" +:+ Py.nl
                      else output in
        let output := output +:+ "Exit Code: " +:+ pretty exit_code
                      +:+ Py.nl +:+ Py.nl in
        let output := if Py.truthy (Some stdout)
                      then output +:+ "STDOUT:" +:+ Py.nl +:+ stdout
                           +:+ Py.nl
                      else output in
        let output := if Py.truthy (Some stderr)
                      then output +:+ Py.nl +:+ "STDERR:" +:+ Py.nl
                           +:+ stderr +:+ Py.nl
                      else output in
        if (exit_code =? 0)%Z then output
        else output +:+ Py.nl +:+ "⚠️  Command failed with exit code "
             +:+ pretty exit_code
  end.

(** [ssh_execute] *)
Definition ssh_execute (d : Delivery) (command : string)
    (confirmed use_sudo : bool) (w : World) : string * World :=
  let '(result, w') :=
    make_request JsonError d
      (Http.execute (list_to_map SSH_HOSTS_items) net (Some command)
         confirmed use_sudo) w in
  (render_execute result, w').

(** [ssh_disconnect] *)
Definition ssh_disconnect (d : Delivery) (w : World) : string * World :=
  let '(result, w') := make_request ReplyError d Routes.disconnect w in
  (render_message "Disconnected" result, w').

(** [ssh_status] *)
Definition ssh_status (d : Delivery) (w : World) : string * World :=
  let '(result, w') := make_request ReplyError d Routes.status w in
  (render_message "Unknown status" result, w').

(** [check_disk_space], [check_memory], [check_uptime], [list_services]:
    connect to a host and run [command]. *)
Definition connect_and_run (command : string) (d1 d2 : Delivery)
    (host : string) (w : World) : string * World :=
  let '(connect_result, w1) := ssh_connect d1 host w in
  if Py.contains connect_result "Successfully connected"
  then ssh_execute d2 command false false w1
  else (connect_result, w1).

Definition check_disk_space := connect_and_run "df -h".
Definition check_memory := connect_and_run "free -h".
Definition check_uptime := connect_and_run "uptime".
Definition list_services :=
  connect_and_run "systemctl list-units --type=service --state=running".

(** [update_system]: update system packages on a host (requires sudo). *)
Definition update_system (d1 d2 : Delivery) (host : string)
    (confirmed : bool) (w : World) : string * World :=
  if negb confirmed then
    ("⚠️  System update requires confirmation. Set confirmed=True to proceed.",
     w)
  else
    let '(connect_result, w1) := ssh_connect d1 host w in
    if Py.contains connect_result "Successfully connected"
    then ssh_execute d2 "apt update && apt upgrade -y" true true w1
    else (connect_result, w1).

End WithEnvironment.
End Tools.

(** ** Notions used by the further statements *)

(** The calls of a log that open a channel. *)
Definition is_exec_command (c : Call) : bool :=
  match c with
  | exec_command _ _ _ => true
  | _ => false
  end.

(** The signatures of the catalogue that consist of one whole word. *)
Definition whole_word_keywords : list string :=
  [ "dd"; "mkfs"; "format"; "fdisk"; "parted"; "shred"; "wipefs"; "chown";
    "killall"; "pkill"; "shutdown"; "reboot"; "halt"; "poweroff";
    "userdel"; "usermod"; "groupdel"; "truncate" ].

(** The hosts of the running example, as the configuration lists them. *)
Definition example_items : list (string * HostConfig) :=
  [ ("vm1", vm1); ("vm2", vm2); ("vm3", vm3) ].

(** [blank s]: every character of [s] is whitespace. *)
Fixpoint blank (s : string) : bool :=
  match s with
  | EmptyString => true
  | String c s' => Py.isspace c && blank s'
  end.

(** [lit_then kw tail]: the characters of [kw], one after the other, then
    [tail]; [word_regex kw] is what [\bkw\b] compiles to. *)
Fixpoint lit_then (kw : string) (tail : Re.regex) : Re.regex :=
  match kw with
  | EmptyString => tail
  | String c kw' => Re.RSeq (Re.RChar c) (lit_then kw' tail)
  end.

Definition word_regex (kw : string) : Re.regex :=
  Re.RSeq Re.RWordB (lit_then kw Re.RWordB).

(** [solid_word kw]: [kw] is not empty and made of lower-case letters. *)
Fixpoint lower_letters (s : string) : bool :=
  match s with
  | EmptyString => true
  | String c s' => Py.islower c && lower_letters s'
  end.

Definition solid_word (kw : string) : bool :=
  match kw with
  | EmptyString => false
  | String _ _ => lower_letters kw
  end.

(** The test [execute_command] makes before it touches the transport: a
    client, and a hostname that is not empty. *)
Definition ready (self : SSHConnection) : bool :=
  match client self with
  | Some _ => Py.truthy (hostname self)
  | None => false
  end.

(** The names [call_tool] dispatches on. *)
Definition tool_names : list string :=
  [ "ssh_list_hosts"; "ssh_connect"; "ssh_execute"; "ssh_disconnect";
    "ssh_status" ].

(** The number of channels a log has opened. *)
Definition channels_opened (log : list Call) : nat :=
  length (List.filter is_exec_command log).

(** The commands run by [check_disk_space], [check_memory],
    [check_uptime] and [list_services]. *)
Definition convenience_commands : list string :=
  [ "df -h"; "free -h"; "uptime";
    "systemctl list-units --type=service --state=running" ].

(** A remote side on which every command exits with status 2. *)
Definition failing_net : Transport :=
  {| connect_fails := fun _ => None;
     exec_fails := fun _ => None;
     stdin_fails := fun _ => None;
     channel_result :=
       fun _ => inr (2%Z, "", "ls: cannot access '/x': No such file") |}.

(** * Theorems *)

(** ** The matcher computes what patterns denote *)

Lemma step_true ok s k :
  Re.step ok s k = true <->
  exists a s', s = String a s' /\ ok a = true /\ k (Some a) s' = true.
Proof.
  destruct s as [|a s]; simpl.
  - split; [discriminate|]. now intros (a & s' & [=] & _).
  - rewrite andb_true_iff. split.
    + intros [Ha Hk]. now exists a, s.
    + now intros (a' & s' & [= <- <-] & Ha & Hk).
Qed.

(** Soundness: an accepted match is a denoted one. *)
Lemma rmatch_sound r : forall prev s k,
  Re.rmatch r prev s k = true ->
  exists prev' s', Re.denotes r prev s prev' s' /\ k prev' s' = true.
Proof.
  induction r as [| c | | | cs | | r1 IH1 r2 IH2 | r1 IH1 r2 IH2 | r1 IH1];
    intros prev s k; simpl.
  - intros Hk. exists prev, s. split; [constructor|assumption].
  - intros (a & s' & -> & Ha & Hk)%step_true.
    apply Ascii.eqb_eq in Ha as <-.
    eexists _, _. split; [constructor|assumption].
  - intros (a & s' & -> & Ha & Hk)%step_true.
    apply negb_true_iff, Ascii.eqb_neq in Ha.
    eexists _, _. split; [now constructor|assumption].
  - intros (a & s' & -> & Ha & Hk)%step_true.
    eexists _, _. split; [now constructor|assumption].
  - intros (a & s' & -> & Ha & Hk)%step_true.
    apply existsb_exists in Ha as (b & Hin & <-%Ascii.eqb_eq).
    eexists _, _. split; [now constructor|assumption].
  - intros [Hb Hk]%andb_prop.
    exists prev, s. split; [now constructor|assumption].
  - intros H. apply IH1 in H as (p1 & s1 & H1 & H).
    apply IH2 in H as (p2 & s2 & H2 & Hk).
    exists p2, s2. split; [econstructor; eassumption|assumption].
  - intros [H|H]%orb_prop.
    + apply IH1 in H as (p1 & s1 & H1 & Hk).
      exists p1, s1. split; [now apply Re.D_alt_l|assumption].
    + apply IH2 in H as (p1 & s1 & H1 & Hk).
      exists p1, s1. split; [now apply Re.D_alt_r|assumption].
  - generalize (String.length s) as n. intros n. revert prev s.
    induction n as [|n IHn]; intros prev s; simpl.
    + rewrite orb_false_r. intros Hk.
      exists prev, s. split; [constructor|assumption].
    + intros [Hk|H]%orb_prop.
      * exists prev, s. split; [constructor|assumption].
      * apply IH1 in H as (p1 & s1 & H1 & [Hlt H]%andb_prop).
        apply Nat.ltb_lt in Hlt.
        apply IHn in H as (p2 & s2 & H2 & Hk).
        exists p2, s2. split; [|assumption].
        eapply Re.D_star_round; eassumption.
Qed.

(** Completeness: a denoted match whose rest the continuation accepts is
    found, and a repetition finds it with any bound that is at least the
    length of the text. *)
Lemma rmatch_complete_fuel r p0 s0 p1 s1 :
  Re.denotes r p0 s0 p1 s1 ->
  forall k, k p1 s1 = true ->
  Re.rmatch r p0 s0 k = true
  /\ forall r1 n, r = Re.RStar r1 -> String.length s0 <= n ->
       Re.star_loop (Re.rmatch r1) k n p0 s0 = true.
Proof.
  induction 1 as
    [ prev s | c prev s | a prev s Ha | a prev s Ha | cs a prev s Ha
    | prev s Hb | r1 r2 p0 s0 p1 s1 p2 s2 H1 IH1 H2 IH2
    | r1 r2 p0 s0 p1 s1 H1 IH1 | r1 r2 p0 s0 p1 s1 H1 IH1
    | r prev s | r p0 s0 p1 s1 p2 s2 H1 IH1 Hlt H2 IH2 ];
    intros k Hk.
  - split; [assumption|discriminate].
  - split; [|discriminate]. simpl. now rewrite Ascii.eqb_refl.
  - split; [|discriminate]. simpl.
    apply Ascii.eqb_neq in Ha. now rewrite Ha.
  - split; [|discriminate]. simpl. now rewrite Ha.
  - split; [|discriminate]. simpl.
    assert (Hex : existsb (Ascii.eqb a) cs = true).
    { apply existsb_exists. exists a. split; [assumption|].
      apply Ascii.eqb_refl. }
    now rewrite Hex.
  - split; [|discriminate]. simpl. now rewrite Hb.
  - split; [|discriminate]. simpl. apply IH1. now apply IH2.
  - split; [|discriminate]. simpl. now rewrite (proj1 (IH1 k Hk)).
  - split; [|discriminate]. simpl.
    rewrite (proj1 (IH1 k Hk)). apply orb_true_r.
  - assert (Hgen : forall n, Re.star_loop (Re.rmatch r) k n prev s = true).
    { intros n. destruct n; simpl; now rewrite Hk. }
    split; [apply Hgen|]. intros r1 n [= <-] _. apply Hgen.
  - assert (Hgen : forall n, String.length s0 <= n ->
                Re.star_loop (Re.rmatch r) k n p0 s0 = true).
    { intros n Hn. destruct n as [|n]; [lia|]. simpl.
      apply orb_true_iff. right. apply IH1.
      rewrite (proj2 (Nat.ltb_lt _ _) Hlt). simpl.
      apply (proj2 (IH2 k Hk) r n eq_refl). lia. }
    split; [now apply Hgen|]. intros r1 n [= <-] Hn. now apply Hgen.
Qed.

(** The matcher decides the denotation. *)
Theorem rmatch_correct r prev s k :
  Re.rmatch r prev s k = true <->
  exists prev' s', Re.denotes r prev s prev' s' /\ k prev' s' = true.
Proof.
  split.
  - apply rmatch_sound.
  - intros (prev' & s' & Hd & Hk).
    now apply (rmatch_complete_fuel _ _ _ _ _ Hd).
Qed.

Lemma append_empty_l s : "" +:+ s = s.
Proof. reflexivity. Qed.

Lemma append_cons a s t : String a s +:+ t = String a (s +:+ t).
Proof. reflexivity. Qed.

(** [search_from] finds a match at some position of the text. *)
Lemma search_from_correct r : forall s prev,
  Re.search_from r prev s = true <->
  exists pre rest prev' rest',
    s = pre +:+ rest
    /\ Re.denotes r (Re.last_char prev pre) rest prev' rest'.
Proof.
  induction s as [|a s IH]; intros prev; simpl.
  - rewrite orb_false_r, rmatch_correct. split.
    + intros (p' & s' & Hd & _). now exists "", "", p', s'.
    + intros (pre & rest & p' & s' & Heq & Hd).
      destruct pre; [|discriminate].
      rewrite append_empty_l in Heq. subst rest.
      now exists p', s'.
  - rewrite orb_true_iff, rmatch_correct, IH. split.
    + intros [(p' & s' & Hd & _)|(pre & rest & p' & s' & -> & Hd)].
      * now exists "", (String a s), p', s'.
      * now exists (String a pre), rest, p', s'.
    + intros (pre & rest & p' & s' & Heq & Hd).
      destruct pre as [|b pre].
      * rewrite append_empty_l in Heq. subst rest.
        left. now exists p', s'.
      * rewrite append_cons in Heq. injection Heq as <- ->.
        right. now exists pre, rest, p', s'.
Qed.

(** [re.search] on a compiled pattern: a match somewhere in the text. *)
Theorem search_correct pattern text :
  Re.search pattern text = true <->
  exists r, Re.compile pattern = Some r /\ Re.found r text.
Proof.
  unfold Re.search, Re.found.
  destruct (Re.compile pattern) as [r|].
  - rewrite search_from_correct. split.
    + intros H. now exists r.
    + now intros (r' & [= <-] & H).
  - split; [discriminate|]. now intros (r & [=] & _).
Qed.

(** ** Slices of a text *)

Lemma startswith_app s t p :
  Py.startswith s p = true -> Py.startswith (s +:+ t) p = true.
Proof.
  revert s. induction p as [|b p IH]; intros s H.
  - now destruct (s +:+ t).
  - destruct s as [|a s]; [discriminate|].
    cbn [Py.startswith] in H. apply andb_true_iff in H as [Ha Hs].
    change (String a s +:+ t) with (String a (s +:+ t)).
    cbn [Py.startswith]. rewrite Ha. now apply IH.
Qed.

Lemma contains_app_l s t p :
  Py.contains s p = true -> Py.contains (s +:+ t) p = true.
Proof.
  induction s as [|a s IH]; intros H.
  - cbn [Py.contains] in H. rewrite orb_false_r in H.
    destruct p; [|discriminate].
    change ("" +:+ t) with t. now destruct t.
  - change (String a s +:+ t) with (String a (s +:+ t)).
    cbn [Py.contains] in *. apply orb_true_iff in H as [H|H].
    + pose proof (startswith_app (String a s) t p H) as H'.
      change (String a s +:+ t) with (String a (s +:+ t)) in H'.
      now rewrite H'.
    + rewrite (IH H). apply orb_true_r.
Qed.

Lemma contains_app_r s t p :
  Py.contains t p = true -> Py.contains (s +:+ t) p = true.
Proof.
  intros H. induction s as [|a s IH]; [exact H|].
  change (String a s +:+ t) with (String a (s +:+ t)).
  cbn [Py.contains]. rewrite IH. apply orb_true_r.
Qed.

(** ** The classifier *)

Ltac by_cases_on_char c :=
  destruct c as [[] [] [] [] [] [] [] []]; vm_compute; reflexivity.

Lemma lower_char_not_upper c : Py.isupper (Py.lower_char c) = false.
Proof. by_cases_on_char c. Qed.

Lemma lower_char_idem c : Py.lower_char (Py.lower_char c) = Py.lower_char c.
Proof. by_cases_on_char c. Qed.

Lemma lower_upper_char c : Py.lower_char (Py.upper_char c) = Py.lower_char c.
Proof. by_cases_on_char c. Qed.

Lemma lower_idem s : Py.lower (Py.lower s) = Py.lower s.
Proof.
  induction s as [|c s IH]; simpl; [reflexivity|].
  now rewrite lower_char_idem, IH.
Qed.

Lemma lower_upper s : Py.lower (Py.upper s) = Py.lower s.
Proof.
  induction s as [|c s IH]; simpl; [reflexivity|].
  now rewrite lower_upper_char, IH.
Qed.

(** The verdict depends on the command only through its lower-cased
    text. *)
Lemma classify_case_insensitive c1 c2 :
  Py.lower c1 = Py.lower c2 ->
  is_destructive_command c1 = is_destructive_command c2.
Proof. unfold is_destructive_command. now intros ->. Qed.

Lemma classify_upper command :
  is_destructive_command (Py.upper command) = is_destructive_command command.
Proof. apply classify_case_insensitive, lower_upper. Qed.

Lemma classify_lower command :
  is_destructive_command (Py.lower command) = is_destructive_command command.
Proof. apply classify_case_insensitive, lower_idem. Qed.

(** The classifier says destructive exactly when some signature of the
    catalogue matches somewhere in the lower-cased, trimmed command: any
    single match suffices, whatever its place in the catalogue. *)
Theorem classify_iff_some_signature_matches command :
  is_destructive_command command = true <->
  exists pattern r,
    In pattern DESTRUCTIVE_PATTERNS
    /\ Re.compile pattern = Some r
    /\ Re.found r (Py.strip (Py.lower command)).
Proof.
  unfold is_destructive_command. cbv zeta. rewrite existsb_exists. split.
  - intros (pattern & Hin & (r & Hc & Hf)%search_correct).
    now exists pattern, r.
  - intros (pattern & r & Hin & Hc & Hf).
    exists pattern. split; [assumption|].
    apply search_correct. now exists r.
Qed.

(** Every pattern of the catalogue is in the supported syntax. *)
Lemma catalogue_compiles :
  forallb (fun p => bool_decide (is_Some (Re.compile p))) DESTRUCTIVE_PATTERNS
  = true.
Proof. vm_compute. reflexivity. Qed.

(** *** Text without a given character *)

Lemma avoids_lower c s : Py.isupper c = true -> Re.avoids c (Py.lower s) = true.
Proof.
  intros Hc. induction s as [|a s IH]; simpl; [reflexivity|].
  rewrite IH, andb_true_r.
  destruct (Ascii.eqb_spec c (Py.lower_char a)) as [->|]; [|reflexivity].
  now rewrite lower_char_not_upper in Hc.
Qed.

Lemma avoids_lstrip c s : Re.avoids c s = true -> Re.avoids c (Py.lstrip s) = true.
Proof.
  induction s as [|a s IH]; simpl; [easy|].
  intros [Ha Hs]%andb_prop. destruct (Py.isspace a); [auto|].
  simpl. now rewrite Ha, Hs.
Qed.

Lemma avoids_rstrip c s : Re.avoids c s = true -> Re.avoids c (Py.rstrip s) = true.
Proof.
  induction s as [|a s IH]; simpl; [easy|].
  intros [Ha Hs]%andb_prop. specialize (IH Hs).
  destruct (Py.rstrip s) as [|b t].
  - destruct (Py.isspace a); simpl; [reflexivity|]. now rewrite Ha.
  - change (Re.avoids c (String a (String b t)))
      with (negb (Ascii.eqb c a) && Re.avoids c (String b t)).
    now rewrite Ha, IH.
Qed.

Lemma avoids_classified_text c command :
  Py.isupper c = true -> Re.avoids c (Py.strip (Py.lower command)) = true.
Proof.
  intros Hc. unfold Py.strip.
  now apply avoids_rstrip, avoids_lstrip, avoids_lower.
Qed.

(** *** Matching a pattern that demands an absent character *)

Lemma step_dead c ok s k :
  Re.avoids c s = true ->
  (forall p t, Re.avoids c t = true -> k p t = false) ->
  Re.step ok s k = false.
Proof.
  intros Hs Hk. destruct s as [|a s]; simpl; [reflexivity|].
  simpl in Hs. apply andb_prop in Hs as [_ Hs].
  now rewrite (Hk _ _ Hs), andb_false_r.
Qed.

(** If the continuation rejects every text without [c], so does the
    match. *)
Lemma rmatch_dead c r : forall prev s k,
  Re.avoids c s = true ->
  (forall p t, Re.avoids c t = true -> k p t = false) ->
  Re.rmatch r prev s k = false.
Proof.
  induction r as [| a | | | cs | | r1 IH1 r2 IH2 | r1 IH1 r2 IH2 | r1 IH1];
    intros prev s k Hs Hk; simpl;
    try (now apply (step_dead c)).
  - now apply Hk.
  - now rewrite (Hk _ _ Hs), andb_false_r.
  - apply IH1; [assumption|]. intros p t Ht. now apply IH2.
  - now rewrite IH1, IH2.
  - generalize (String.length s) as n. intros n. revert prev s Hs.
    induction n as [|n IHn]; intros prev s Hs; simpl.
    + now rewrite (Hk _ _ Hs).
    + rewrite (Hk _ _ Hs). simpl. apply IH1; [assumption|].
      intros p t Ht. now rewrite (IHn _ _ Ht), andb_false_r.
Qed.

Lemma rmatch_requires c r : forall prev s k,
  Re.requires c r = true -> Re.avoids c s = true ->
  Re.rmatch r prev s k = false.
Proof.
  induction r as [| a | | | cs | | r1 IH1 r2 IH2 | r1 IH1 r2 IH2 | r1 IH1];
    intros prev s k Hr Hs; simpl in Hr; try discriminate.
  - destruct s as [|b s]; simpl; [reflexivity|].
    simpl in Hs. apply andb_prop in Hs as [Hb _].
    apply Ascii.eqb_eq in Hr as <-.
    apply negb_true_iff in Hb. now rewrite Hb.
  - simpl. apply orb_prop in Hr as [Hr|Hr].
    + now apply IH1.
    + apply (rmatch_dead c); [assumption|].
      intros p t Ht. now apply IH2.
  - simpl. apply andb_prop in Hr as [H1 H2].
    now rewrite IH1, IH2.
Qed.

Lemma search_from_requires c r : forall s prev,
  Re.requires c r = true -> Re.avoids c s = true ->
  Re.search_from r prev s = false.
Proof.
  induction s as [|a s IH]; intros prev Hr Hs; simpl.
  - now rewrite (rmatch_requires c).
  - rewrite (rmatch_requires c) by assumption. simpl.
    simpl in Hs. apply andb_prop in Hs as [_ Hs]. now apply IH.
Qed.

(** A pattern that demands an upper-case letter finds nothing in the
    text the classifier looks at, whatever the command: that text has
    been lower-cased. *)
Lemma upper_case_pattern_never_matches pattern command :
  Re.requires_upper pattern = true ->
  Re.search pattern (Py.strip (Py.lower command)) = false.
Proof.
  unfold Re.requires_upper, Re.search.
  destruct (Re.compile pattern) as [r|]; [|discriminate].
  intros [c [Hin Hc]]%existsb_exists.
  apply (search_from_requires c); [assumption|].
  apply avoids_classified_text.
  unfold Re.upper_case_letters in Hin.
  repeat (destruct Hin as [<-|Hin]; [reflexivity|]). destruct Hin.
Qed.

(** The signatures of the catalogue that can never fire. *)
Lemma dead_signatures :
  List.filter Re.requires_upper DESTRUCTIVE_PATTERNS
  = [ "\bcryptsetup\b.*luksFormat"; "\bpacman\b.*-R"; "\biptables\b.*-F" ].
Proof. vm_compute. reflexivity. Qed.

Lemma luksformat_signature_never_matches command :
  Re.search "\bcryptsetup\b.*luksFormat" (Py.strip (Py.lower command)) = false.
Proof. apply upper_case_pattern_never_matches. vm_compute. reflexivity. Qed.

(** The examples the specification lists for the destructive categories. *)
Lemma listed_destructive_examples :
  forallb is_destructive_command
    [ "rm -rf /var/x"; "dd if=/dev/zero of=/dev/sda"; "shutdown now";
      "userdel bob"; "mv /etc/foo /tmp/" ] = true.
Proof. vm_compute. reflexivity. Qed.

(** C2.  The five listed examples are classified destructive, but the
    disk-encryption formatting command [cryptsetup luksFormat /dev/sdb1]
    is not: its signature spells [luksFormat] with a capital letter and is
    searched in the lower-cased command, where it cannot occur, and no
    other signature of the catalogue covers the command.  The same holds
    for its lower-case spelling. *)
Theorem C2_disk_encryption_format_not_flagged :
  forallb is_destructive_command
    [ "rm -rf /var/x"; "dd if=/dev/zero of=/dev/sda"; "shutdown now";
      "userdel bob"; "mv /etc/foo /tmp/" ] = true
  /\ Re.search "\bcryptsetup\b.*luksFormat"
       (Py.strip (Py.lower "cryptsetup luksFormat /dev/sdb1")) = false
  /\ is_destructive_command "cryptsetup luksFormat /dev/sdb1" = false
  /\ is_destructive_command "cryptsetup luksformat /dev/sdb1" = false.
Proof. repeat split; vm_compute; reflexivity. Qed.

(** The benign commands named by the specification, [ls -la], [df -h],
    [uptime] and [echo hi], are classified safe, in any spelling of their
    letters' case. *)
Lemma benign_examples_not_flagged (example command : string) :
  In example benign_examples ->
  Py.lower command = Py.lower example ->
  is_destructive_command command = false.
Proof.
  intros Hin Hcase. rewrite (classify_case_insensitive _ _ Hcase).
  unfold benign_examples in Hin.
  repeat (destruct Hin as [<-|Hin]; [vm_compute; reflexivity|]).
  destruct Hin.
Qed.

(** Other commands of the listed categories that the catalogue lets
    through: the two further signatures with a capital letter, and the
    two signatures that put [\b] in front of a punctuation character,
    which then demand a word character right before it. *)
Example other_missed_commands :
  map is_destructive_command
    [ "pacman -R vim"; "iptables -F"; "cat disk.img > /dev/sda";
      ":> /etc/passwd" ]
  = [ false; false; false; false ].
Proof. vm_compute. reflexivity. Qed.

(** ** Running the session manager *)

Ltac unfold_M :=
  unfold SSHClient, SSHClient_set_policy, SSHClient_connect,
    SSHClient_exec_command, stdin_put, channel_collect, SSHClient_close,
    set_client, set_hostname, set_host_alias;
  unfold log, get_calls, set_established, get_conn, put_conn;
  unfold bind, ret, raise, try_except.

Section ExecuteCommand.

Variable net : Transport.

(** Without a client or without a hostname nothing is sent. *)
Lemma execute_command_not_connected command use_sudo sudo_password w :
  client (ssh_conn w) = None \/ Py.truthy (hostname (ssh_conn w)) = false ->
  Server.execute_command net command use_sudo sudo_password w
  = (Raise "Not connected to any host. Please connect first.", w).
Proof.
  intros H. unfold Server.execute_command. unfold_M.
  destruct (client (ssh_conn w)) as [h|]; [|reflexivity].
  destruct H as [H|H]; [discriminate|]. now rewrite H.
Qed.

(** On a connected session: one [exec_command] on the session's client,
    the secret if there is one, then the wait for the result. *)
Lemma execute_command_connected command use_sudo sudo_password w h :
  client (ssh_conn w) = Some h ->
  Py.truthy (hostname (ssh_conn w)) = true ->
  Server.execute_command net command use_sudo sudo_password w
  = let log1 :=
      calls w ++ [exec_command h (Server.exec_line command use_sudo)
                    use_sudo] in
    match exec_fails net log1 with
    | Some msg =>
        (Raise ("Failed to execute command: " +:+ msg), with_calls w log1)
    | None =>
        let log2 := log1 ++ secret_input h use_sudo sudo_password in
        match
          (if use_sudo && Py.truthy sudo_password
           then stdin_fails net log2 else None)
        with
        | Some msg =>
            (Raise ("Failed to execute command: " +:+ msg),
             with_calls w log2)
        | None =>
            let log3 := log2 ++ [channel_wait h] in
            match channel_result net log3 with
            | inl msg =>
                (Raise ("Failed to execute command: " +:+ msg),
                 with_calls w log3)
            | inr (exit_code, stdout_text, stderr_text) =>
                (Return {| res_hostname := hostname (ssh_conn w);
                           res_command := command;
                           res_exit_code := exit_code;
                           res_stdout :=
                             Server.strip_prompt use_sudo stdout_text;
                           res_stderr := stderr_text;
                           res_success := (exit_code =? 0)%Z;
                           res_used_sudo := use_sudo |},
                 with_calls w log3)
            end
        end
    end.
Proof.
  intros Hc Hh. unfold Server.execute_command, secret_input. unfold_M.
  rewrite Hc, Hh. cbn [calls ssh_conn].
  destruct (exec_fails net _) as [msg|]; [reflexivity|].
  destruct (use_sudo && Py.truthy sudo_password); cbn [calls ssh_conn].
  - destruct (stdin_fails net _) as [msg|]; [reflexivity|].
    destruct (channel_result net _) as [msg|[[ec out] err]]; reflexivity.
  - rewrite app_nil_r.
    destruct (channel_result net _) as [msg|[[ec out] err]]; reflexivity.
Qed.

(** The session object is never changed by [execute_command], and the
    log only grows. *)
Lemma execute_command_session command use_sudo sudo_password w :
  ssh_conn (Server.execute_command net command use_sudo sudo_password w).2
  = ssh_conn w.
Proof.
  destruct (client (ssh_conn w)) as [h|] eqn:Hc.
  - destruct (Py.truthy (hostname (ssh_conn w))) eqn:Hh.
    + rewrite (execute_command_connected _ _ _ _ h Hc Hh). cbv zeta.
      destruct (exec_fails net _); [reflexivity|].
      destruct (use_sudo && Py.truthy sudo_password);
        [destruct (stdin_fails net _); [reflexivity|]|];
        destruct (channel_result net _) as [msg|[[ec out] err]];
        reflexivity.
    + now rewrite execute_command_not_connected by auto.
  - now rewrite execute_command_not_connected by auto.
Qed.

(** What a returned result records. *)
Lemma execute_command_result command use_sudo sudo_password w result w' :
  Server.execute_command net command use_sudo sudo_password w
  = (Return result, w') ->
  res_used_sudo result = use_sudo
  /\ res_command result = command
  /\ res_hostname result = hostname (ssh_conn w)
  /\ res_success result = (res_exit_code result =? 0)%Z.
Proof.
  destruct (client (ssh_conn w)) as [h|] eqn:Hc.
  - destruct (Py.truthy (hostname (ssh_conn w))) eqn:Hh.
    + rewrite (execute_command_connected _ _ _ _ h Hc Hh). cbv zeta.
      destruct (exec_fails net _); [discriminate|].
      destruct (use_sudo && Py.truthy sudo_password);
        [destruct (stdin_fails net _); [discriminate|]|];
        (destruct (channel_result net _) as [msg|[[ec out] err]];
         [discriminate|]);
        intros [= <- _]; auto.
    + rewrite execute_command_not_connected by auto. discriminate.
  - rewrite execute_command_not_connected by auto. discriminate.
Qed.

End ExecuteCommand.


(** ** The confirmation gate *)

Lemma empty_command_not_destructive : is_destructive_command "" = false.
Proof. vm_compute. reflexivity. Qed.

Lemma destructive_command_truthy command :
  is_destructive_command command = true -> Py.truthy (Some command) = true.
Proof.
  destruct command as [|c s]; [|reflexivity].
  rewrite empty_command_not_destructive. discriminate.
Qed.

Section Gate.

Variable SSH_HOSTS : gmap string HostConfig.
Variable net : Transport.

Lemma ssh_execute_refuses command use_sudo w :
  is_destructive_command command = true ->
  Server.ssh_execute SSH_HOSTS net (Some command) false use_sudo w
  = (Return (Server.destructive_warning command), w).
Proof.
  intros Hd. unfold Server.ssh_execute.
  rewrite (destructive_command_truthy _ Hd). cbn [negb from_option id].
  rewrite Hd. reflexivity.
Qed.

Lemma http_execute_refuses command use_sudo w :
  is_destructive_command command = true ->
  Http.execute_body SSH_HOSTS net (Some command) false use_sudo w
  = (Return (JsonRefusal "Destructive command requires confirmation"
               (Http.destructive_warning command)), w).
Proof.
  intros Hd. unfold Http.execute_body.
  rewrite (destructive_command_truthy _ Hd). cbn [negb from_option id].
  rewrite Hd. reflexivity.
Qed.

End Gate.

(** C1.  A command classified destructive and submitted with
    [confirmed=false] is answered by the refusal, by the tool handler and
    by the HTTP route alike: the warning repeats the command text and
    tells the caller to resubmit with [confirmed: true], and the world is
    returned as it was, so the call log has no new entry (no channel was
    opened) and the session object is untouched. *)
Theorem C1_unconfirmed_destructive_refused
    (SSH_HOSTS : gmap string HostConfig) (net : Transport)
    (command : string) (use_sudo : bool) (w : World) :
  is_destructive_command command = true ->
  Server.call_tool_ssh_execute SSH_HOSTS net (Some command) false use_sudo w
    = (Server.destructive_warning command, w)
  /\ Http.execute SSH_HOSTS net (Some command) false use_sudo w
    = (JsonRefusal "Destructive command requires confirmation"
         (Http.destructive_warning command), w)
  /\ (exists pre post,
        Server.destructive_warning command
          = pre +:+ "Command: " +:+ command +:+ post
        /\ Py.contains post "Setting 'confirmed: true'" = true)
  /\ (exists pre post,
        Http.destructive_warning command
          = pre +:+ "Command: " +:+ command +:+ post
        /\ Py.contains post "Set 'confirmed: true'" = true).
Proof.
  intros Hd. repeat split.
  - unfold Server.call_tool_ssh_execute.
    now rewrite ssh_execute_refuses.
  - unfold Http.execute. now rewrite http_execute_refuses.
  - exists ("⚠️  WARNING: DESTRUCTIVE COMMAND DETECTED" +:+ Py.nl +:+ Py.nl).
    eexists. split; [reflexivity|]. vm_compute. reflexivity.
  - exists ("⚠️  WARNING: DESTRUCTIVE COMMAND DETECTED" +:+ Py.nl +:+ Py.nl).
    eexists. split; [reflexivity|]. vm_compute. reflexivity.
Qed.

(** ** Past the gate *)

Section Handlers.

Variable SSH_HOSTS : gmap string HostConfig.
Variable net : Transport.

Lemma sudo_prefix_truthy command :
  Py.startswith (Py.strip command) "sudo" = true ->
  Py.truthy (Some command) = true.
Proof. destruct command; [discriminate|reflexivity]. Qed.

(** A command that is not held back is handed to [execute_command]
    with the detected escalation flag and the secret resolved from the
    session. *)
Lemma ssh_execute_passes command confirmed use_sudo w :
  Py.truthy (Some command) = true ->
  is_destructive_command command && negb confirmed = false ->
  Server.ssh_execute SSH_HOSTS net (Some command) confirmed use_sudo w
  = let use_sudo' := Server.detect_sudo command use_sudo in
    match Server.execute_command net command use_sudo'
            (Server.resolve_sudo_password SSH_HOSTS (ssh_conn w) use_sudo') w
    with
    | (Return result, w') => (Return (Server.format_result result), w')
    | (Raise e, w') => (Raise e, w')
    end.
Proof.
  intros Ht Hg. unfold Server.ssh_execute.
  rewrite Ht. cbn [negb from_option id]. rewrite Hg.
  unfold bind, get_conn, ret. reflexivity.
Qed.

Lemma http_execute_passes command confirmed use_sudo w :
  Py.truthy (Some command) = true ->
  is_destructive_command command && negb confirmed = false ->
  Http.execute_body SSH_HOSTS net (Some command) confirmed use_sudo w
  = let use_sudo' := Server.detect_sudo command use_sudo in
    match Server.execute_command net command use_sudo'
            (Server.resolve_sudo_password SSH_HOSTS (ssh_conn w) use_sudo') w
    with
    | (Return result, w') =>
        (Return (JsonResult (res_success result) (res_command result)
                   (res_hostname result) (res_exit_code result)
                   (res_stdout result) (res_stderr result)
                   (res_used_sudo result)), w')
    | (Raise e, w') => (Raise e, w')
    end.
Proof.
  intros Ht Hg. unfold Http.execute_body.
  rewrite Ht. cbn [negb from_option id]. rewrite Hg.
  unfold bind, get_conn, ret. reflexivity.
Qed.

(** The two handlers have the same effect on the world; they differ in
    how the answer is rendered. *)
Lemma http_execute_same_world command confirmed use_sudo w :
  (Http.execute SSH_HOSTS net command confirmed use_sudo w).2
  = (Server.call_tool_ssh_execute SSH_HOSTS net command confirmed
       use_sudo w).2.
Proof.
  unfold Http.execute, Server.call_tool_ssh_execute.
  destruct (Py.truthy command) eqn:Ht.
  - destruct command as [command|]; [|discriminate].
    destruct (is_destructive_command command && negb confirmed) eqn:Hg.
    + unfold Http.execute_body, Server.ssh_execute.
      rewrite Ht. cbn [negb from_option id]. now rewrite Hg.
    + rewrite http_execute_passes, ssh_execute_passes by assumption.
      cbv zeta.
      now destruct (Server.execute_command _ _ _ _ _) as [[r|e] w'].
  - unfold Http.execute_body, Server.ssh_execute. now rewrite Ht.
Qed.

(** The world left by the tool handler. *)
Lemma call_tool_world command confirmed use_sudo w :
  (Server.call_tool_ssh_execute SSH_HOSTS net (Some command) confirmed
     use_sudo w).2
  = if negb (Py.truthy (Some command))
       || (is_destructive_command command && negb confirmed)
    then w
    else
      let use_sudo' := Server.detect_sudo command use_sudo in
      (Server.execute_command net command use_sudo'
         (Server.resolve_sudo_password SSH_HOSTS (ssh_conn w) use_sudo')
         w).2.
Proof.
  unfold Server.call_tool_ssh_execute.
  destruct (Py.truthy (Some command)) eqn:Ht; cbn [negb orb].
  - destruct (is_destructive_command command && negb confirmed) eqn:Hg.
    + unfold Server.ssh_execute.
      rewrite Ht. cbn [negb from_option id]. now rewrite Hg.
    + rewrite ssh_execute_passes by assumption. cbv zeta.
      now destruct (Server.execute_command _ _ _ _ _) as [[r|e] w'].
  - unfold Server.ssh_execute. now rewrite Ht.
Qed.

(** Neither handler changes the session object. *)
Lemma call_tool_session command confirmed use_sudo w :
  ssh_conn (Server.call_tool_ssh_execute SSH_HOSTS net command confirmed
              use_sudo w).2 = ssh_conn w.
Proof.
  destruct command as [command|].
  - rewrite call_tool_world.
    destruct (_ || _); [reflexivity|]. apply execute_command_session.
  - reflexivity.
Qed.

(** A resolved secret is the password stored under the session's
    alias. *)
Lemma resolve_sudo_password_stored self use_sudo pw :
  Server.resolve_sudo_password SSH_HOSTS self use_sudo = Some pw ->
  use_sudo = true
  /\ exists alias config,
       host_alias self = Some alias
       /\ SSH_HOSTS !! alias = Some config
       /\ cfg_password config = Some pw.
Proof.
  unfold Server.resolve_sudo_password.
  destruct use_sudo; [|discriminate]. cbn [andb].
  destruct (host_alias self) as [alias|]; [|discriminate].
  destruct (Py.truthy (Some alias)); [|discriminate]. cbn.
  destruct (SSH_HOSTS !! alias) as [config|] eqn:Hl; [|discriminate].
  cbn. intros Hpw. split; [reflexivity|]. now exists alias, config.
Qed.

End Handlers.

Lemma C1_unconfirmed_destructive_refused_witness :
  is_destructive_command "rm -rf /var/x" = true
  /\ Server.call_tool_ssh_execute example_hosts quiet_net
       (Some "rm -rf /var/x") false true world_vm1
     = (Server.destructive_warning "rm -rf /var/x", world_vm1)
  /\ Http.execute example_hosts quiet_net (Some "rm -rf /var/x") false true
       world_vm1
     = (JsonRefusal "Destructive command requires confirmation"
          (Http.destructive_warning "rm -rf /var/x"), world_vm1).
Proof.
  assert (Hd : is_destructive_command "rm -rf /var/x" = true)
    by (vm_compute; reflexivity).
  exact (conj Hd
           (conj (proj1 (C1_unconfirmed_destructive_refused example_hosts
                           quiet_net "rm -rf /var/x" true world_vm1 Hd))
                 (proj1 (proj2 (C1_unconfirmed_destructive_refused
                                  example_hosts quiet_net "rm -rf /var/x"
                                  true world_vm1 Hd))))).
Defined.

(** The same command, confirmed, on the same session: one channel is
    opened and the result is returned. *)
Example confirmed_destructive_runs :
  Http.execute example_hosts quiet_net (Some "systemctl restart nginx") true
    false world_vm1
  = (JsonResult true "systemctl restart nginx" (Some "10.0.0.5") 0 "" ""
       false,
     with_calls world_vm1
       (calls world_vm1
        ++ [ exec_command 0 "systemctl restart nginx" false;
             channel_wait 0 ])).
Proof. vm_compute. reflexivity. Qed.

(** ** Escalation *)

Section Escalation.

Variable SSH_HOSTS : gmap string HostConfig.
Variable net : Transport.

Lemma detect_sudo_prefix command use_sudo :
  Py.startswith (Py.strip command) "sudo" = true ->
  Server.detect_sudo command use_sudo = true.
Proof. unfold Server.detect_sudo. now intros ->. Qed.

Lemma exec_line_prefix command :
  Py.startswith (Py.strip command) "sudo" = true ->
  Server.exec_line command true = command.
Proof. unfold Server.exec_line. now intros ->. Qed.

Lemma secret_input_origin h use_sudo sudo_password h' data :
  In (stdin_write h' data) (secret_input h use_sudo sudo_password) ->
  use_sudo = true /\ Py.truthy sudo_password = true
  /\ data = default "" sudo_password +:+ Py.nl.
Proof.
  unfold secret_input.
  destruct use_sudo; [|intros []]. cbn [andb].
  destruct (Py.truthy sudo_password); [|intros []].
  intros [[= _ <-]|[]]. auto.
Qed.

(** The calls [execute_command] adds, and where a written secret comes
    from. *)
Lemma execute_command_calls command use_sudo sudo_password w :
  exists new,
    calls (Server.execute_command net command use_sudo sudo_password w).2
    = calls w ++ new
    /\ forall h data, In (stdin_write h data) new ->
         use_sudo = true /\ Py.truthy sudo_password = true
         /\ data = default "" sudo_password +:+ Py.nl.
Proof.
  set (origin := fun new : list Call =>
         forall h data, In (stdin_write h data) new ->
           use_sudo = true /\ Py.truthy sudo_password = true
           /\ data = default "" sudo_password +:+ Py.nl).
  change (exists new,
            calls (Server.execute_command net command use_sudo
                     sudo_password w).2 = calls w ++ new
            /\ origin new).
  assert (Hnone : exists new, calls w = calls w ++ new /\ origin new).
  { exists []. rewrite app_nil_r. split; [reflexivity|]. intros ? ? []. }
  destruct (client (ssh_conn w)) as [h|] eqn:Hc;
    [destruct (Py.truthy (hostname (ssh_conn w))) eqn:Hh|];
    try (rewrite execute_command_not_connected by auto; exact Hnone).
  rewrite (execute_command_connected _ _ _ _ _ h Hc Hh). cbv zeta.
  set (sent := exec_command h (Server.exec_line command use_sudo) use_sudo).
  assert (Hsent : forall tail,
            (tail = [] \/ tail = [channel_wait h]) ->
            origin (sent :: secret_input h use_sudo sudo_password ++ tail)).
  { intros tail Htail h' data [Heq|Hin]; [discriminate|].
    apply in_app_or in Hin as [Hin|Hin].
    - now apply secret_input_origin in Hin.
    - destruct Htail as [->| ->]; [destruct Hin|].
      destruct Hin as [Heq|[]]. discriminate. }
  destruct (exec_fails net _).
  - exists [sent]. split; [reflexivity|].
    intros h' data [Heq|[]]. discriminate.
  - destruct (if use_sudo && Py.truthy sudo_password
              then stdin_fails net _ else None).
    + exists (sent :: secret_input h use_sudo sudo_password ++ []).
      split; [|now apply Hsent; left].
      cbn [snd calls with_calls]. now rewrite app_nil_r, <- app_assoc.
    + exists (sent :: secret_input h use_sudo sudo_password
                ++ [channel_wait h]).
      split; [|now apply Hsent; right].
      destruct (channel_result net _) as [msg|[[ec out] err]];
        cbn [snd calls with_calls]; rewrite <- !app_assoc; reflexivity.
Qed.

(** No alias, no profile for the alias, or no password in the profile:
    no secret. *)
Lemma resolve_sudo_password_missing self :
  host_alias self = None
  \/ (exists alias, host_alias self = Some alias
                    /\ SSH_HOSTS !! alias = None)
  \/ (exists alias config,
        host_alias self = Some alias
        /\ SSH_HOSTS !! alias = Some config
        /\ Py.truthy (cfg_password config) = false) ->
  Py.truthy (Server.resolve_sudo_password SSH_HOSTS self true) = false.
Proof.
  unfold Server.resolve_sudo_password. cbn [andb].
  intros [Ha|[(alias & Ha & Hl)|(alias & config & Ha & Hl & Hp)]];
    rewrite Ha.
  - reflexivity.
  - destruct alias; cbn; [reflexivity|]. now rewrite Hl.
  - destruct alias; cbn; [reflexivity|]. rewrite Hl. exact Hp.
Qed.

Lemma truthy_default o : Py.truthy o = true -> o = Some (default "" o).
Proof. destruct o as [[|c s]|]; try discriminate. reflexivity. Qed.

End Escalation.

(** What a result obtained with escalation shows. *)
Lemma format_result_shows_sudo result :
  res_used_sudo result = true ->
  Py.contains (Server.format_result result) "Executed with: sudo" = true.
Proof.
  intros Hu. unfold Server.format_result. cbv zeta. rewrite Hu.
  assert (H3 : Py.contains
                 ((("Command: " +:+ res_command result +:+ Py.nl)
                   +:+ "Host: " +:+ Py.format (res_hostname result)
                   +:+ Py.nl)
                  +:+ "Executed with: sudo" +:+ Py.nl)
                 "Executed with: sudo" = true)
    by (apply contains_app_r, contains_app_l; reflexivity).
  destruct (res_success result), (Py.truthy (Some (res_stdout result))),
    (Py.truthy (Some (res_stderr result)));
    repeat first [exact H3 | apply contains_app_l].
Qed.

(** C5.  When the trimmed command text starts with [sudo], the flag is
    true whatever the caller passed, also an explicit false.  Both
    handlers are then the refusal, or [execute_command] called with
    [use_sudo=True] and the secret resolved for an escalated command; a
    result obtained reports [used_sudo = true] (the route in its object,
    the tool in its text), and on a connected session the channel is
    opened with a pseudo-terminal. *)
Theorem C5_sudo_prefix_forces_escalation
    (SSH_HOSTS : gmap string HostConfig) (net : Transport)
    (command : string) (confirmed use_sudo : bool) (w : World) :
  Py.startswith (Py.strip command) "sudo" = true ->
  let held := is_destructive_command command && negb confirmed in
  let secret := Server.resolve_sudo_password SSH_HOSTS (ssh_conn w) true in
  let run := Server.execute_command net command true secret w in
  Server.detect_sudo command use_sudo = true
  /\ Server.call_tool_ssh_execute SSH_HOSTS net (Some command) confirmed
       use_sudo w
     = (if held then (Server.destructive_warning command, w)
        else match run with
             | (Return result, w') => (Server.format_result result, w')
             | (Raise e, w') => ("Error: " +:+ e, w')
             end)
  /\ Http.execute SSH_HOSTS net (Some command) confirmed use_sudo w
     = (if held
        then (JsonRefusal "Destructive command requires confirmation"
                (Http.destructive_warning command), w)
        else match run with
             | (Return result, w') =>
                 (JsonResult (res_success result) (res_command result)
                    (res_hostname result) (res_exit_code result)
                    (res_stdout result) (res_stderr result) true, w')
             | (Raise e, w') => (JsonError e, w')
             end)
  /\ (forall result w',
        run = (Return result, w') ->
        res_used_sudo result = true
        /\ Py.contains (Server.format_result result) "Executed with: sudo"
           = true)
  /\ (forall h,
        held = false ->
        client (ssh_conn w) = Some h ->
        Py.truthy (hostname (ssh_conn w)) = true ->
        exists rest,
          calls (Server.call_tool_ssh_execute SSH_HOSTS net (Some command)
                   confirmed use_sudo w).2
          = calls w ++ exec_command h command true :: rest
          /\ calls (Http.execute SSH_HOSTS net (Some command) confirmed
                      use_sudo w).2
             = calls w ++ exec_command h command true :: rest).
Proof.
  intros Hp held secret run.
  pose proof (sudo_prefix_truthy _ Hp) as Ht.
  pose proof (detect_sudo_prefix command use_sudo Hp) as Hd.
  assert (Hused : forall result w',
            run = (Return result, w') -> res_used_sudo result = true).
  { intros result w' Hr. now apply execute_command_result in Hr as (Hu & _). }
  assert (Htool :
    Server.call_tool_ssh_execute SSH_HOSTS net (Some command) confirmed
      use_sudo w
    = (if held then (Server.destructive_warning command, w)
       else match run with
            | (Return result, w') => (Server.format_result result, w')
            | (Raise e, w') => ("Error: " +:+ e, w')
            end)).
  { unfold Server.call_tool_ssh_execute. subst held.
    destruct (is_destructive_command command && negb confirmed) eqn:Hg.
    - unfold Server.ssh_execute. rewrite Ht. cbn [negb from_option id].
      now rewrite Hg.
    - rewrite ssh_execute_passes by assumption. cbv zeta. rewrite Hd.
      fold secret. fold run. now destruct run as [[result|e] w']. }
  assert (Hhttp :
    Http.execute SSH_HOSTS net (Some command) confirmed use_sudo w
    = (if held
       then (JsonRefusal "Destructive command requires confirmation"
               (Http.destructive_warning command), w)
       else match run with
            | (Return result, w') =>
                (JsonResult (res_success result) (res_command result)
                   (res_hostname result) (res_exit_code result)
                   (res_stdout result) (res_stderr result) true, w')
            | (Raise e, w') => (JsonError e, w')
            end)).
  { unfold Http.execute. subst held.
    destruct (is_destructive_command command && negb confirmed) eqn:Hg.
    - unfold Http.execute_body. rewrite Ht. cbn [negb from_option id].
      now rewrite Hp, Hg.
    - rewrite http_execute_passes by assumption. cbv zeta. rewrite Hd.
      fold secret. fold run.
      destruct run as [[result|e] w'] eqn:Hr; [|reflexivity].
      now rewrite (Hused result w' eq_refl). }
  split; [exact Hd|]. split; [exact Htool|]. split; [exact Hhttp|]. split.
  - intros result w' Hr. pose proof (Hused _ _ Hr) as Hu.
    split; [exact Hu|]. now apply format_result_shows_sudo.
  - intros h Hg Hc Hh.
    assert (Hrun : exists rest,
              calls run.2 = calls w ++ exec_command h command true :: rest).
    { subst run. rewrite (execute_command_connected _ _ _ _ _ h Hc Hh).
      cbv zeta. rewrite (exec_line_prefix _ Hp).
      destruct (exec_fails net _).
      - exists []. reflexivity.
      - destruct (if true && Py.truthy secret then _ else _).
        + eexists. cbn [snd calls with_calls].
          rewrite <- app_assoc. reflexivity.
        + destruct (channel_result net _) as [msg|[[ec out] err]];
            eexists; cbn [snd calls with_calls];
            rewrite <- !app_assoc; reflexivity. }
    destruct Hrun as [rest Hrun]. exists rest.
    rewrite Htool, Hhttp, Hg.
    split; destruct run as [[result|e] w']; exact Hrun.
Qed.

Lemma C5_sudo_prefix_forces_escalation_witness :
  Py.startswith (Py.strip "  sudo apt update") "sudo" = true
  /\ Server.detect_sudo "  sudo apt update" false = true
  /\ Http.execute example_hosts quiet_net (Some "  sudo apt update") false
       false world_vm1
     = (JsonResult true "  sudo apt update" (Some "10.0.0.5") 0 "" "" true,
        with_calls world_vm1
          (calls world_vm1
           ++ [ exec_command 0 "  sudo apt update" true;
                stdin_write 0 ("s3cret" +:+ Py.nl);
                channel_wait 0 ])).
Proof.
  assert (Hp : Py.startswith (Py.strip "  sudo apt update") "sudo" = true)
    by reflexivity.
  pose proof (C5_sudo_prefix_forces_escalation example_hosts quiet_net
                "  sudo apt update" false false world_vm1 Hp)
    as (Hd & _ & Hhttp & _).
  split; [exact Hp|]. split; [exact Hd|].
  rewrite Hhttp. vm_compute. reflexivity.
Defined.

(** C10.  The auto-detection is a test on the first four characters of
    the trimmed text, so it also fires for [sudoedit ...] or
    [sudo-helper].  For every such command that is not held back by the
    gate, on a connected session and whatever flag the caller passed:
    the one [exec_command] call carries the command text unmodified and
    asks for a pseudo-terminal; if it does not raise, the secret resolved
    from the session (when there is a non-empty one) is written followed
    by a line feed, nothing else is written, and unless that write raises
    the result is then waited for. *)
Theorem C10_sudo_prefix_is_a_raw_prefix_test
    (SSH_HOSTS : gmap string HostConfig) (net : Transport)
    (command : string) (confirmed use_sudo : bool) (w : World) (h : handle) :
  Py.startswith (Py.strip command) "sudo" = true ->
  is_destructive_command command && negb confirmed = false ->
  client (ssh_conn w) = Some h ->
  Py.truthy (hostname (ssh_conn w)) = true ->
  let secret := Server.resolve_sudo_password SSH_HOSTS (ssh_conn w) true in
  let log1 := calls w ++ [exec_command h command true] in
  let log2 := log1 ++ secret_input h true secret in
  let expected :=
    match exec_fails net log1 with
    | Some _ => log1
    | None =>
        match (if Py.truthy secret then stdin_fails net log2 else None) with
        | Some _ => log2
        | None => log2 ++ [channel_wait h]
        end
    end in
  calls (Server.call_tool_ssh_execute SSH_HOSTS net (Some command) confirmed
           use_sudo w).2 = expected
  /\ calls (Http.execute SSH_HOSTS net (Some command) confirmed use_sudo w).2
     = expected
  /\ (forall alias config pw,
        host_alias (ssh_conn w) = Some alias ->
        SSH_HOSTS !! alias = Some config ->
        cfg_password config = Some pw ->
        Py.truthy (Some alias) = true -> Py.truthy (Some pw) = true ->
        secret_input h true secret = [stdin_write h (pw +:+ Py.nl)]).
Proof.
  intros Hp Hg Hc Hh secret log1 log2 expected.
  assert (Htool :
    calls (Server.call_tool_ssh_execute SSH_HOSTS net (Some command)
             confirmed use_sudo w).2 = expected).
  { rewrite call_tool_world.
    rewrite (sudo_prefix_truthy _ Hp), Hg. cbn [negb orb]. cbv zeta.
    rewrite (detect_sudo_prefix _ _ Hp).
    rewrite (execute_command_connected _ _ _ _ _ h Hc Hh). cbv zeta.
    rewrite (exec_line_prefix _ Hp).
    subst expected log2 log1 secret. cbn [andb].
    destruct (exec_fails net _); [reflexivity|].
    destruct (if Py.truthy _ then _ else _); [reflexivity|].
    destruct (channel_result net _) as [msg|[[ec out] err]]; reflexivity. }
  split; [exact Htool|]. split.
  - now rewrite http_execute_same_world.
  - intros alias config pw Ha Hl Hpw Hta Htp.
    subst secret. unfold secret_input, Server.resolve_sudo_password.
    rewrite Ha, Hta. cbn. rewrite Hl. cbn. rewrite Hpw, Htp. reflexivity.
Qed.

Lemma C10_sudo_prefix_is_a_raw_prefix_test_witness :
  Py.startswith (Py.strip "sudoedit /etc/hosts") "sudo" = true
  /\ is_destructive_command "sudoedit /etc/hosts" && negb false = false
  /\ calls (Http.execute example_hosts quiet_net (Some "sudoedit /etc/hosts")
              false false world_vm1).2
     = calls world_vm1
       ++ [ exec_command 0 "sudoedit /etc/hosts" true;
            stdin_write 0 ("s3cret" +:+ Py.nl);
            channel_wait 0 ].
Proof.
  assert (Hp : Py.startswith (Py.strip "sudoedit /etc/hosts") "sudo" = true)
    by reflexivity.
  assert (Hg : is_destructive_command "sudoedit /etc/hosts" && negb false
               = false) by (vm_compute; reflexivity).
  assert (Hc : client (ssh_conn world_vm1) = Some 0) by reflexivity.
  assert (Hh : Py.truthy (hostname (ssh_conn world_vm1)) = true)
    by reflexivity.
  refine (conj Hp (conj Hg _)).
  refine (eq_trans
            (proj1 (proj2 (C10_sudo_prefix_is_a_raw_prefix_test
                             example_hosts quiet_net "sudoedit /etc/hosts"
                             false false world_vm1 0 Hp Hg Hc Hh))) _).
  vm_compute. reflexivity.
Defined.

(** Another command whose name merely begins with the letters [sudo]. *)
Example sudo_helper_is_escalated :
  is_destructive_command "sudo-helper" = false
  /\ calls (Server.call_tool_ssh_execute example_hosts quiet_net
              (Some "sudo-helper") false false world_vm1).2
     = calls world_vm1
       ++ [ exec_command 0 "sudo-helper" true;
            stdin_write 0 ("s3cret" +:+ Py.nl);
            channel_wait 0 ].
Proof. split; vm_compute; reflexivity. Qed.

(** C6.  The only input either handler ever writes to a channel is the
    password stored in [SSH_HOSTS] under the alias of the active session,
    followed by a line feed: the request has no part in it.  When
    escalation is in effect on a connected session and there is no such
    secret (the session has no alias, the alias has no profile, or the
    profile has no non-empty password), the command is still sent, on a
    pseudo-terminal, nothing is written to its input, and the answer is
    the one the transport produces: the result when the command
    completes, the transport's own failure otherwise. *)
Theorem C6_secret_comes_from_session_profile
    (SSH_HOSTS : gmap string HostConfig) (net : Transport)
    (command : string) (confirmed use_sudo : bool) (w : World) :
  let tool :=
    Server.call_tool_ssh_execute SSH_HOSTS net (Some command) confirmed
      use_sudo w in
  let http :=
    Http.execute SSH_HOSTS net (Some command) confirmed use_sudo w in
  (exists new,
      calls tool.2 = calls w ++ new
      /\ calls http.2 = calls w ++ new
      /\ forall h data, In (stdin_write h data) new ->
           exists alias config pw,
             host_alias (ssh_conn w) = Some alias
             /\ SSH_HOSTS !! alias = Some config
             /\ cfg_password config = Some pw
             /\ data = pw +:+ Py.nl)
  /\ (forall h,
        Py.truthy (Some command) = true ->
        Server.detect_sudo command use_sudo = true ->
        is_destructive_command command && negb confirmed = false ->
        client (ssh_conn w) = Some h ->
        Py.truthy (hostname (ssh_conn w)) = true ->
        (host_alias (ssh_conn w) = None
         \/ (exists alias, host_alias (ssh_conn w) = Some alias
                           /\ SSH_HOSTS !! alias = None)
         \/ (exists alias config,
               host_alias (ssh_conn w) = Some alias
               /\ SSH_HOSTS !! alias = Some config
               /\ Py.truthy (cfg_password config) = false)) ->
        let log1 :=
          calls w ++ [exec_command h (Server.exec_line command true) true] in
        let log2 := log1 ++ [channel_wait h] in
        http
        = match exec_fails net log1 with
          | Some msg =>
              (JsonError ("Failed to execute command: " +:+ msg),
               with_calls w log1)
          | None =>
              match channel_result net log2 with
              | inl msg =>
                  (JsonError ("Failed to execute command: " +:+ msg),
                   with_calls w log2)
              | inr (exit_code, out, err) =>
                  (JsonResult (exit_code =? 0)%Z command
                     (hostname (ssh_conn w)) exit_code
                     (Server.strip_prompt true out) err true,
                   with_calls w log2)
              end
          end
        /\ tool.2 = http.2
        /\ tool.1
          = match exec_fails net log1 with
            | Some msg => "Error: " +:+ "Failed to execute command: " +:+ msg
            | None =>
                match channel_result net log2 with
                | inl msg =>
                    "Error: " +:+ "Failed to execute command: " +:+ msg
                | inr (exit_code, out, err) =>
                    Server.format_result
                      {| res_hostname := hostname (ssh_conn w);
                         res_command := command;
                         res_exit_code := exit_code;
                         res_stdout := Server.strip_prompt true out;
                         res_stderr := err;
                         res_success := (exit_code =? 0)%Z;
                         res_used_sudo := true |}
                end
            end).
Proof.
  intros tool http. split.
  - destruct (execute_command_calls net command
                (Server.detect_sudo command use_sudo)
                (Server.resolve_sudo_password SSH_HOSTS (ssh_conn w)
                   (Server.detect_sudo command use_sudo)) w)
      as (new & Hcalls & Hnew).
    assert (Hprov : forall h data, In (stdin_write h data) new ->
              exists alias config pw,
                host_alias (ssh_conn w) = Some alias
                /\ SSH_HOSTS !! alias = Some config
                /\ cfg_password config = Some pw
                /\ data = pw +:+ Py.nl).
    { intros h data Hin. destruct (Hnew h data Hin) as (_ & Ht & ->).
      apply truthy_default in Ht.
      apply resolve_sudo_password_stored in Ht as (_ & alias & config & ?).
      exists alias, config. eexists. intuition eauto. }
    assert (Htool : exists new',
               calls tool.2 = calls w ++ new'
               /\ forall h data, In (stdin_write h data) new' ->
                    exists alias config pw,
                      host_alias (ssh_conn w) = Some alias
                      /\ SSH_HOSTS !! alias = Some config
                      /\ cfg_password config = Some pw
                      /\ data = pw +:+ Py.nl).
    { subst tool. rewrite call_tool_world.
      destruct (_ || _).
      - exists []. rewrite app_nil_r. split; [reflexivity|]. intros ? ? [].
      - exists new. split; assumption. }
    destruct Htool as (new' & Ht & Hp). exists new'.
    split; [exact Ht|]. split; [|exact Hp].
    subst http. now rewrite http_execute_same_world.
  - intros h Ht Hs Hg Hc Hh Hnone log1 log2.
    assert (Hsecret :
      secret_input h true
        (Server.resolve_sudo_password SSH_HOSTS (ssh_conn w) true) = []).
    { unfold secret_input. cbn [andb].
      now rewrite (resolve_sudo_password_missing _ _ Hnone). }
    split.
    + subst http. unfold Http.execute.
      rewrite http_execute_passes by assumption. cbv zeta.
      rewrite Hs.
      rewrite (execute_command_connected _ _ _ _ _ h Hc Hh). cbv zeta.
      rewrite Hsecret, app_nil_r. cbn [andb].
      rewrite (resolve_sudo_password_missing _ _ Hnone). subst log1 log2.
      destruct (exec_fails net _); [reflexivity|].
      destruct (channel_result net _) as [msg|[[ec out] err]]; reflexivity.
    + split; [subst tool http; now rewrite http_execute_same_world|].
      subst tool. unfold Server.call_tool_ssh_execute.
      rewrite ssh_execute_passes by assumption. cbv zeta.
      rewrite Hs.
      rewrite (execute_command_connected _ _ _ _ _ h Hc Hh). cbv zeta.
      rewrite Hsecret, app_nil_r. cbn [andb].
      rewrite (resolve_sudo_password_missing _ _ Hnone). subst log1 log2.
      destruct (exec_fails net _); [reflexivity|].
      destruct (channel_result net _) as [msg|[[ec out] err]]; reflexivity.
Qed.

Lemma C6_secret_comes_from_session_profile_witness :
  Py.truthy (Some "sudo id") = true
  /\ Server.detect_sudo "sudo id" false = true
  /\ is_destructive_command "sudo id" && negb false = false
  /\ client (ssh_conn world_vm3_failed) = Some 1
  /\ Py.truthy (hostname (ssh_conn world_vm3_failed)) = true
  /\ host_alias (ssh_conn world_vm3_failed) = Some "vm3"
  /\ example_hosts !! "vm3" = Some vm3
  /\ Py.truthy (cfg_password vm3) = false
  /\ Http.execute example_hosts quiet_net (Some "sudo id") false false
       world_vm3_failed
     = (JsonResult true "sudo id" (Some "10.0.0.5") 0 "" "" true,
        with_calls world_vm3_failed
          (calls world_vm3_failed
           ++ [exec_command 1 "sudo id" true; channel_wait 1])).
Proof.
  assert (Ht : Py.truthy (Some "sudo id") = true) by reflexivity.
  assert (Hs : Server.detect_sudo "sudo id" false = true) by reflexivity.
  assert (Hg : is_destructive_command "sudo id" && negb false = false)
    by (vm_compute; reflexivity).
  assert (Hc : client (ssh_conn world_vm3_failed) = Some 1) by reflexivity.
  assert (Hh : Py.truthy (hostname (ssh_conn world_vm3_failed)) = true)
    by reflexivity.
  assert (Ha : host_alias (ssh_conn world_vm3_failed) = Some "vm3")
    by reflexivity.
  assert (Hl : example_hosts !! "vm3" = Some vm3) by reflexivity.
  assert (Hp : Py.truthy (cfg_password vm3) = false) by reflexivity.
  refine (conj Ht (conj Hs (conj Hg (conj Hc (conj Hh (conj Ha (conj Hl
            (conj Hp _)))))))).
  exact (proj1 (proj2 (C6_secret_comes_from_session_profile example_hosts
                         quiet_net "sudo id" false false world_vm3_failed)
                  1 Ht Hs Hg Hc Hh
                  (or_intror (or_intror
                     (ex_intro _ "vm3" (ex_intro _ vm3
                        (conj Ha (conj Hl Hp)))))))).
Defined.

(** ** The session manager *)

Section Session.

Variable SSH_HOSTS : gmap string HostConfig.
Variable net : Transport.

(** [connect], step by step: a fresh client replaces the one of the
    session, and the password is looked at only afterwards. *)
Lemma connect_eq host w :
  Server.connect SSH_HOSTS net host w
  = let h := next_handle w in
    let target := target_of SSH_HOSTS host in
    let log1 :=
      (calls w ++ [SSHClient_new h]) ++ [set_missing_host_key_policy h] in
    let log2 :=
      log1 ++ [client_connect h (t_hostname target) (t_port target)
                 (t_username target) (default "" (t_password target))] in
    let session hn :=
      {| client := Some h; hostname := hn;
         host_alias := alias_of SSH_HOSTS host |} in
    if Py.truthy (t_password target) then
      match connect_fails net log2 with
      | Some msg =>
          (Raise ("SSH connection failed: " +:+ msg),
           {| ssh_conn := session (hostname (ssh_conn w)); calls := log2;
              next_handle := S h; established := established w |})
      | None =>
          (Return
             (if Py.truthy (Some (t_description target))
              then "Successfully connected to " +:+ host +:+ " ("
                   +:+ t_description target +:+ ")"
              else "Successfully connected to " +:+ host),
           {| ssh_conn := session (Some (t_hostname target));
              calls := log2; next_handle := S h;
              established := {[h]} ∪ established w |})
      end
    else
      (Raise ("SSH connection failed: " +:+ "No password found for host '"
              +:+ host +:+ "' in config"),
       {| ssh_conn := session (hostname (ssh_conn w)); calls := log1;
          next_handle := S h; established := established w |}).
Proof.
  unfold Server.connect, target_of, alias_of. cbv zeta.
  destruct (SSH_HOSTS !! host) as [config|]; unfold_M;
    cbn [t_hostname t_port t_username t_password t_description
         ssh_conn calls next_handle established client hostname host_alias].
  - destruct (Py.truthy (cfg_password config)); [|reflexivity].
    destruct (connect_fails net _); reflexivity.
  - reflexivity.
Qed.

(** [connect] never closes anything: the log gains no [client_close]
    and every transport that was established stays so. *)
Lemma connect_never_closes host w :
  let w' := (Server.connect SSH_HOSTS net host w).2 in
  List.filter is_client_close (calls w')
    = List.filter is_client_close (calls w)
  /\ established w ⊆ established w'.
Proof.
  cbv zeta. rewrite connect_eq. cbv zeta.
  destruct (Py.truthy _); [destruct (connect_fails net _)|];
    cbn [snd calls established]; rewrite !List.filter_app;
    cbn [List.filter is_client_close]; rewrite !app_nil_r;
    (split; [reflexivity|set_solver]).
Qed.

(** A successful [connect] leaves client and hostname both set. *)
Lemma connect_success_consistent host w msg w' :
  Server.connect SSH_HOSTS net host w = (Return msg, w') ->
  session_consistent (ssh_conn w') = true
  /\ Server.is_connected (ssh_conn w') = true.
Proof.
  rewrite connect_eq. cbv zeta.
  destruct (Py.truthy _); [destruct (connect_fails net _)|];
    try discriminate.
  intros [= _ <-]. split; reflexivity.
Qed.

(** A failed [connect] has already replaced the client, and has left
    the hostname as it was. *)
Lemma connect_failure_session host w e w' :
  Server.connect SSH_HOSTS net host w = (Raise e, w') ->
  client (ssh_conn w') = Some (next_handle w)
  /\ hostname (ssh_conn w') = hostname (ssh_conn w)
  /\ host_alias (ssh_conn w') = alias_of SSH_HOSTS host
  /\ established w' = established w.
Proof.
  rewrite connect_eq. cbv zeta.
  destruct (Py.truthy _); [destruct (connect_fails net _)|];
    try discriminate; intros [= _ <-]; repeat split; reflexivity.
Qed.

(** [disconnect] on a session with a client. *)
Lemma disconnect_with_client w h :
  client (ssh_conn w) = Some h ->
  Server.disconnect w
  = (Return ("Disconnected from "
             +:+ Py.format (Py.or_else (host_alias (ssh_conn w))
                              (hostname (ssh_conn w)))),
     {| ssh_conn := SSHConnection_init;
        calls := calls w ++ [client_close h];
        next_handle := next_handle w;
        established := established w ∖ {[h]} |}).
Proof.
  intros Hc. unfold Server.disconnect. unfold_M. rewrite Hc.
  reflexivity.
Qed.

(** [disconnect] on a session without a client. *)
Lemma disconnect_without_client w :
  client (ssh_conn w) = None ->
  Server.disconnect w = (Return "No active connection", w).
Proof.
  intros Hc. unfold Server.disconnect. unfold_M. now rewrite Hc.
Qed.

Lemma disconnect_returns w :
  exists msg w', Server.disconnect w = (Return msg, w').
Proof.
  destruct (client (ssh_conn w)) as [h|] eqn:Hc.
  - rewrite (disconnect_with_client _ h Hc). eauto.
  - rewrite (disconnect_without_client _ Hc). eauto.
Qed.

Lemma disconnect_consistent w :
  session_consistent (ssh_conn w) = true ->
  session_consistent (ssh_conn (Server.disconnect w).2) = true.
Proof.
  intros Hs. destruct (client (ssh_conn w)) as [h|] eqn:Hc.
  - now rewrite (disconnect_with_client _ h Hc).
  - now rewrite (disconnect_without_client _ Hc).
Qed.

Lemma disconnect_idempotent w :
  (Server.disconnect (Server.disconnect w).2).2 = (Server.disconnect w).2.
Proof.
  destruct (client (ssh_conn w)) as [h|] eqn:Hc.
  - rewrite (disconnect_with_client _ h Hc). reflexivity.
  - rewrite (disconnect_without_client _ Hc). cbn [snd].
    now rewrite (disconnect_without_client _ Hc).
Qed.

End Session.

(** C7, as amended.  When [host] resolves to no non-empty password (a
    profile without one, or an argument that is not an alias and so falls
    back to a literal hostname), [connect] raises the one kind of
    exception the code has, with the message
    [SSH connection failed: No password found for host '<host>' in config];
    the transport is never asked to connect and the set of established
    transports is unchanged. *)
Theorem C7_connect_without_password_fails
    (SSH_HOSTS : gmap string HostConfig) (net : Transport)
    (host : string) (w : World) :
  Py.truthy (SSH_HOSTS !! host ≫= cfg_password) = false ->
  exists w',
    Server.connect SSH_HOSTS net host w
    = (Raise ("SSH connection failed: No password found for host '"
              +:+ host +:+ "' in config"), w')
    /\ calls w'
       = calls w ++ [ SSHClient_new (next_handle w);
                      set_missing_host_key_policy (next_handle w) ]
    /\ List.filter is_client_connect (calls w')
       = List.filter is_client_connect (calls w)
    /\ established w' = established w.
Proof.
  intros Hp. rewrite connect_eq. cbv zeta.
  assert (Ht : Py.truthy (t_password (target_of SSH_HOSTS host)) = false).
  { unfold target_of. now destruct (SSH_HOSTS !! host). }
  rewrite Ht. eexists. split; [reflexivity|]. cbn [calls established].
  rewrite <- app_assoc. split; [reflexivity|]. split; [|reflexivity].
  rewrite List.filter_app. cbn. now rewrite app_nil_r.
Qed.

Lemma C7_connect_without_password_fails_witness :
  Py.truthy (example_hosts !! "10.0.0.9" ≫= cfg_password) = false
  /\ exists w',
       Server.connect example_hosts quiet_net "10.0.0.9" World_init
       = (Raise ("SSH connection failed: No password found for host '"
                 +:+ "10.0.0.9" +:+ "' in config"), w')
       /\ calls w'
          = calls World_init
            ++ [ SSHClient_new (next_handle World_init);
                 set_missing_host_key_policy (next_handle World_init) ]
       /\ List.filter is_client_connect (calls w')
          = List.filter is_client_connect (calls World_init)
       /\ established w' = established World_init.
Proof.
  assert (Hp : Py.truthy (example_hosts !! "10.0.0.9" ≫= cfg_password)
               = false) by reflexivity.
  exact (conj Hp
           (C7_connect_without_password_fails example_hosts quiet_net
              "10.0.0.9" World_init Hp)).
Defined.

(** C7 as the specification states it does not hold: for the profile
    [vm3], which has no password, the failure is not an error
    [no credential for host] of a kind of its own.  It is raised inside
    the [try] of [connect], so it reaches the caller as the same
    exception, under the same [SSH connection failed: ] prefix, as a
    connection the remote side refuses. *)
Lemma C7_no_config_error :
  (Server.connect example_hosts quiet_net "vm3" World_init).1
  = Raise "SSH connection failed: No password found for host 'vm3' in config"
  /\ (Server.connect example_hosts quiet_net "vm3" World_init).1
     <> Raise "no credential for host"
  /\ (Server.connect example_hosts refusing_net "vm1" World_init).1
     = Raise "SSH connection failed: Authentication failed.".
Proof.
  split; [vm_compute; reflexivity|]. split; [|vm_compute; reflexivity].
  vm_compute. discriminate.
Qed.

(** An argument that is not a known alias always takes this path. *)
Lemma connect_unknown_alias_fails
    (SSH_HOSTS : gmap string HostConfig) (net : Transport)
    (host : string) (w : World) :
  SSH_HOSTS !! host = None ->
  (Server.connect SSH_HOSTS net host w).1
  = Raise ("SSH connection failed: No password found for host '"
           +:+ host +:+ "' in config").
Proof.
  intros Hl. rewrite connect_eq. cbv zeta.
  unfold target_of. now rewrite Hl.
Qed.

(** C8.  [disconnect] always returns a message and never raises.  On a
    connected session it closes the session's client, resets the three
    attributes, and the message names the alias of the session, or its
    hostname when there is no alias; a second call changes nothing and
    answers that there is no active connection. *)
Theorem C8_disconnect_idempotent
    (w : World) (h : handle) (hn : string) :
  client (ssh_conn w) = Some h ->
  hostname (ssh_conn w) = Some hn ->
  let first := Server.disconnect w in
  let second := Server.disconnect first.2 in
  (exists name,
      first.1 = Return ("Disconnected from " +:+ name)
      /\ (host_alias (ssh_conn w) = Some name \/ name = hn))
  /\ calls first.2 = calls w ++ [client_close h]
  /\ (h ∉ established (first.2))
  /\ ssh_conn first.2 = SSHConnection_init
  /\ Server.is_connected (ssh_conn first.2) = false
  /\ second = (Return "No active connection", first.2)
  /\ (forall w0, exists msg w0', Server.disconnect w0 = (Return msg, w0')).
Proof.
  intros Hc Hh first second. subst second first.
  rewrite (disconnect_with_client _ h Hc). cbn [fst snd].
  split; [|split; [reflexivity|split; [|split; [reflexivity|split;
    [reflexivity|split; [reflexivity|]]]]]].
  - rewrite Hh. unfold Py.or_else.
    destruct (host_alias (ssh_conn w)) as [[|c a]|]; cbn; eauto.
  - cbn [established]. intros [_ Hn]%elem_of_difference.
    apply Hn. now apply elem_of_singleton.
  - intros w0. apply disconnect_returns.
Qed.

Lemma C8_disconnect_idempotent_witness :
  client (ssh_conn world_vm1) = Some 0
  /\ hostname (ssh_conn world_vm1) = Some "10.0.0.5"
  /\ Server.disconnect world_vm1
     = (Return "Disconnected from vm1", (Server.disconnect world_vm1).2)
  /\ Server.disconnect (Server.disconnect world_vm1).2
     = (Return "No active connection", (Server.disconnect world_vm1).2).
Proof.
  assert (Hc : client (ssh_conn world_vm1) = Some 0) by reflexivity.
  assert (Hh : hostname (ssh_conn world_vm1) = Some "10.0.0.5")
    by reflexivity.
  refine (conj Hc (conj Hh (conj _ _))).
  - reflexivity.
  - exact (proj1 (proj2 (proj2 (proj2 (proj2 (proj2
             (C8_disconnect_idempotent world_vm1 0 "10.0.0.5" Hc Hh))))))).
Defined.

(** C3.  Connecting while connected does not close the prior
    connection.  After [connect("vm1")] and then [connect("vm2")], both
    successful, the session holds the second client, the first is still
    established, and the log has no [client_close] at all. *)
Theorem C3_reconnect_leaves_prior_transport_open :
  let before := world_vm1 in
  let reconnect := Server.connect example_hosts quiet_net "vm2" before in
  Server.is_connected (ssh_conn before) = true
  /\ client (ssh_conn before) = Some 0
  /\ reconnect.1 = Return "Successfully connected to vm2 (staging)"
  /\ client (ssh_conn reconnect.2) = Some 1
  /\ (0 ∈ established (reconnect.2))
  /\ List.filter is_client_close (calls reconnect.2) = [].
Proof.
  cbv zeta. repeat split; vm_compute; reflexivity.
Qed.

(** C4.  A failed [connect] leaves the session with a client and no
    hostname.  From the initial state, [connect("ghost")] for an unknown
    host raises, and the session then has [client] set and [hostname]
    absent. *)
Theorem C4_failed_connect_breaks_session_invariant :
  let failed := Server.connect example_hosts quiet_net "ghost" World_init in
  session_consistent (ssh_conn World_init) = true
  /\ failed.1
     = Raise "SSH connection failed: No password found for host 'ghost' in config"
  /\ client (ssh_conn failed.2) = Some 0
  /\ hostname (ssh_conn failed.2) = None
  /\ session_consistent (ssh_conn failed.2) = false.
Proof. cbv zeta. repeat split; vm_compute; reflexivity. Qed.

(** The same happens whatever the reason of the failure, from every
    state without a hostname. *)
Lemma failed_connect_inconsistent
    (SSH_HOSTS : gmap string HostConfig) (net : Transport)
    (host : string) (w : World) (e : string) (w' : World) :
  hostname (ssh_conn w) = None ->
  Server.connect SSH_HOSTS net host w = (Raise e, w') ->
  session_consistent (ssh_conn w') = false.
Proof.
  intros Hn Hf. apply connect_failure_session in Hf as (Hc & Hh & _).
  unfold session_consistent. now rewrite Hc, Hh, Hn.
Qed.

(** After a connection that succeeded, a failed [connect] leaves a
    session that reports itself connected, with the new alias, the old
    hostname, and a client that never connected. *)
Example failed_reconnect_leaves_stale_session :
  let failed := Server.connect example_hosts refusing_net "vm2" world_vm1 in
  failed.1 = Raise "SSH connection failed: Authentication failed."
  /\ Server.is_connected (ssh_conn failed.2) = true
  /\ ssh_conn failed.2
     = {| client := Some 1; hostname := Some "10.0.0.5";
          host_alias := Some "vm2" |}
  /\ elements (established failed.2) = [0].
Proof. cbv zeta. repeat split; vm_compute; reflexivity. Qed.

(** The operations other than a failing [connect] keep the invariant. *)
Lemma other_operations_keep_session_consistent
    (SSH_HOSTS : gmap string HostConfig) (net : Transport) (w : World) :
  session_consistent (ssh_conn w) = true ->
  session_consistent (ssh_conn (Server.disconnect w).2) = true
  /\ (forall command confirmed use_sudo,
        session_consistent
          (ssh_conn (Server.call_tool_ssh_execute SSH_HOSTS net command
                       confirmed use_sudo w).2) = true
        /\ session_consistent
             (ssh_conn (Http.execute SSH_HOSTS net command confirmed
                          use_sudo w).2) = true)
  /\ (forall host msg w',
        Server.connect SSH_HOSTS net host w = (Return msg, w') ->
        session_consistent (ssh_conn w') = true).
Proof.
  intros Hs. split; [now apply disconnect_consistent|]. split.
  - intros command confirmed use_sudo.
    rewrite http_execute_same_world, call_tool_session. auto.
  - intros host msg w' Hc.
    now apply connect_success_consistent in Hc.
Qed.

(** [disconnect] looks at the client alone: after the failed
    [connect("ghost")] it closes a client that never connected and
    reports a host named [None]. *)
Example disconnect_after_failed_connect :
  let failed := Server.connect example_hosts quiet_net "ghost" World_init in
  Server.is_connected (ssh_conn failed.2) = false
  /\ (Server.disconnect failed.2).1 = Return "Disconnected from None"
  /\ calls (Server.disconnect failed.2).2
     = [ SSHClient_new 0; set_missing_host_key_policy 0; client_close 0 ].
Proof. cbv zeta. repeat split; vm_compute; reflexivity. Qed.

(** ** More on the classifier *)

(** The three signatures that spell a capital letter never fire, whatever
    the command. *)
Theorem capital_letter_signatures_never_fire command :
  let text := Py.strip (Py.lower command) in
  Re.search "\bcryptsetup\b.*luksFormat" text = false
  /\ Re.search "\bpacman\b.*-R" text = false
  /\ Re.search "\biptables\b.*-F" text = false.
Proof.
  cbv zeta. repeat split;
    (apply upper_case_pattern_never_matches; vm_compute; reflexivity).
Qed.

(** *** Trimming *)

Lemma lower_app a b : Py.lower (a +:+ b) = Py.lower a +:+ Py.lower b.
Proof.
  induction a as [|c a IH]; [reflexivity|].
  rewrite append_cons.
  change (Py.lower (String c (a +:+ b)))
    with (String (Py.lower_char c) (Py.lower (a +:+ b))).
  change (Py.lower (String c a))
    with (String (Py.lower_char c) (Py.lower a)).
  now rewrite IH, append_cons.
Qed.

Lemma isspace_lower_char c : Py.isspace (Py.lower_char c) = Py.isspace c.
Proof. by_cases_on_char c. Qed.

Lemma is_word_lower_char c : Re.is_word (Py.lower_char c) = Re.is_word c.
Proof. by_cases_on_char c. Qed.

Lemma blank_lower s : blank (Py.lower s) = blank s.
Proof.
  induction s as [|c s IH]; simpl; [reflexivity|].
  now rewrite isspace_lower_char, IH.
Qed.

Lemma lstrip_blank s : blank s = true -> Py.lstrip s = "".
Proof.
  induction s as [|c s IH]; simpl; [reflexivity|].
  intros [Hc Hs]%andb_prop. rewrite Hc. auto.
Qed.

Lemma rstrip_blank s : blank s = true -> Py.rstrip s = "".
Proof.
  induction s as [|c s IH]; simpl; [reflexivity|].
  intros [Hc Hs]%andb_prop. now rewrite (IH Hs), Hc.
Qed.

Lemma lstrip_app_blank_l l s : blank l = true -> Py.lstrip (l +:+ s) = Py.lstrip s.
Proof.
  induction l as [|c l IH]; [reflexivity|].
  intros [Hc Hl]%andb_prop. rewrite append_cons. simpl.
  rewrite Hc. auto.
Qed.

(** A character that is not whitespace stops [rstrip]. *)
Lemma rstrip_cons_solid c s :
  Py.isspace c = false -> Py.rstrip (String c s) = String c (Py.rstrip s).
Proof.
  intros Hc. simpl. rewrite Hc. now destruct (Py.rstrip s).
Qed.

Lemma rstrip_cons_keep c s :
  Py.rstrip s <> "" -> Py.rstrip (String c s) = String c (Py.rstrip s).
Proof.
  intros Hs. simpl. now destruct (Py.rstrip s).
Qed.

Lemma rstrip_app_keep p s :
  Py.rstrip s <> "" -> Py.rstrip (p +:+ s) = p +:+ Py.rstrip s.
Proof.
  intros Hs. induction p as [|c p IH]; [reflexivity|].
  rewrite !append_cons. rewrite rstrip_cons_keep; [now rewrite IH|].
  rewrite IH. now destruct p.
Qed.

Lemma rstrip_app_blank_r s r : blank r = true -> Py.rstrip (s +:+ r) = Py.rstrip s.
Proof.
  intros Hr. induction s as [|c s IH].
  - rewrite append_empty_l. now apply rstrip_blank.
  - rewrite append_cons. simpl. now rewrite IH.
Qed.

Lemma lstrip_app s r :
  Py.lstrip (s +:+ r)
  = if String.eqb (Py.lstrip s) "" then Py.lstrip r else Py.lstrip s +:+ r.
Proof.
  induction s as [|c s IH]; [reflexivity|].
  rewrite append_cons. simpl. destruct (Py.isspace c); [exact IH|].
  reflexivity.
Qed.

Lemma strip_app_blank_r s r : blank r = true -> Py.strip (s +:+ r) = Py.strip s.
Proof.
  intros Hr. unfold Py.strip. rewrite lstrip_app.
  destruct (String.eqb_spec (Py.lstrip s) "") as [->|_].
  - now rewrite (lstrip_blank _ Hr).
  - now apply rstrip_app_blank_r.
Qed.

Lemma strip_app_blank_l l s : blank l = true -> Py.strip (l +:+ s) = Py.strip s.
Proof. intros Hl. unfold Py.strip. now rewrite lstrip_app_blank_l. Qed.

Lemma append_empty_r s : s +:+ "" = s.
Proof.
  induction s as [|c s IH]; [reflexivity|]. now rewrite append_cons, IH.
Qed.

(** The text the classifier looks at does not depend on padding. *)
Lemma classified_text_padding left command right :
  blank left = true -> blank right = true ->
  Py.strip (Py.lower (left +:+ command +:+ right))
  = Py.strip (Py.lower command).
Proof.
  intros Hl Hr. rewrite !lower_app.
  rewrite strip_app_blank_l by now rewrite blank_lower.
  now rewrite strip_app_blank_r by now rewrite blank_lower.
Qed.

(** Whitespace around a command and the case of its letters do not change
    the verdict. *)
Theorem classify_ignores_padding_and_case left command command' right :
  blank left = true -> blank right = true ->
  Py.lower command = Py.lower command' ->
  is_destructive_command (left +:+ command +:+ right)
  = is_destructive_command command'.
Proof.
  intros Hl Hr Hc. unfold is_destructive_command. cbv zeta.
  now rewrite classified_text_padding, Hc.
Qed.

Lemma classify_ignores_padding_and_case_witness :
  blank "  " = true /\ blank (" " +:+ Py.nl) = true
  /\ Py.lower "RM -rf /Var/X" = Py.lower "rm -rf /var/x"
  /\ is_destructive_command ("  " +:+ "RM -rf /Var/X" +:+ " " +:+ Py.nl)
     = is_destructive_command "rm -rf /var/x".
Proof.
  assert (Hl : blank "  " = true) by reflexivity.
  assert (Hr : blank (" " +:+ Py.nl) = true) by reflexivity.
  assert (Hc : Py.lower "RM -rf /Var/X" = Py.lower "rm -rf /var/x")
    by reflexivity.
  exact (conj Hl (conj Hr (conj Hc
           (classify_ignores_padding_and_case "  " "RM -rf /Var/X"
              "rm -rf /var/x" (" " +:+ Py.nl) Hl Hr Hc)))).
Defined.

(** A command made of whitespace only is never destructive. *)
Lemma blank_command_not_destructive command :
  blank command = true -> is_destructive_command command = false.
Proof.
  intros Hb.
  assert (H : Py.strip (Py.lower command) = Py.strip (Py.lower "")).
  { rewrite <- (append_empty_r command) at 1.
    exact (classified_text_padding command "" "" Hb eq_refl). }
  unfold is_destructive_command. cbv zeta. rewrite H.
  exact empty_command_not_destructive.
Qed.

(** *** Whole-word signatures *)

Lemma lower_letter_facts c :
  Py.islower c = true ->
  Py.isspace c = false /\ Re.is_word c = true /\ Py.lower_char c = c.
Proof.
  destruct c as [[] [] [] [] [] [] [] []]; vm_compute; intros H;
    try discriminate H; repeat split; reflexivity.
Qed.

Lemma lower_of_lower_letters kw : lower_letters kw = true -> Py.lower kw = kw.
Proof.
  induction kw as [|c kw IH]; simpl; [reflexivity|].
  intros [Hc Hk]%andb_prop.
  destruct (lower_letter_facts c Hc) as (_ & _ & ->). now rewrite IH.
Qed.

(** Text in front of a character that is not whitespace. *)
Lemma lstrip_app_solid a c s :
  Py.isspace c = false ->
  Py.lstrip (a +:+ String c s) = Py.lstrip a +:+ String c s.
Proof.
  intros Hc. induction a as [|b a IH].
  - rewrite !append_empty_l. simpl. now rewrite Hc.
  - rewrite append_cons. simpl. destruct (Py.isspace b); [exact IH|].
    now rewrite append_cons.
Qed.

Lemma rstrip_app_letters kw s :
  lower_letters kw = true -> Py.rstrip (kw +:+ s) = kw +:+ Py.rstrip s.
Proof.
  induction kw as [|c kw IH]; [reflexivity|].
  intros Hk. simpl in Hk. apply andb_prop in Hk as [Hc Hk].
  destruct (lower_letter_facts c Hc) as (Hs & _ & _).
  rewrite !append_cons, rstrip_cons_solid by assumption.
  now rewrite IH.
Qed.

(** Trimming keeps a word of letters and what is between it and the two
    ends. *)
Lemma strip_around_word a kw b :
  solid_word kw = true ->
  Py.strip (a +:+ kw +:+ b) = Py.lstrip a +:+ kw +:+ Py.rstrip b.
Proof.
  destruct kw as [|c kw]; [discriminate|]. unfold solid_word.
  intros Hk. unfold Py.strip.
  assert (Hc : Py.isspace c = false).
  { simpl in Hk. apply andb_prop in Hk as [Hc _].
    now destruct (lower_letter_facts c Hc). }
  rewrite append_cons, lstrip_app_solid by assumption.
  rewrite <- append_cons.
  rewrite rstrip_app_keep; rewrite rstrip_app_letters by assumption.
  - reflexivity.
  - now rewrite append_cons.
Qed.

Lemma last_char_app prev a b :
  Re.last_char prev (a +:+ b) = Re.last_char (Re.last_char prev a) b.
Proof.
  revert prev. induction a as [|c a IH]; intros prev; [reflexivity|].
  rewrite append_cons. simpl. apply IH.
Qed.

Lemma word_before_last_char_weaken prev a :
  Re.word_before (Re.last_char prev a) = false ->
  Re.word_before (Re.last_char None a) = false.
Proof. destruct a; [reflexivity|]. simpl. auto. Qed.

Lemma word_before_lstrip a :
  Re.word_before (Re.last_char None a) = false ->
  Re.word_before (Re.last_char None (Py.lstrip a)) = false.
Proof.
  induction a as [|c a IH]; [auto|]. simpl.
  destruct (Py.isspace c); [|auto].
  intros H. apply IH. now apply (word_before_last_char_weaken (Some c)).
Qed.

Lemma word_before_lower prev a :
  Re.word_before (Re.last_char (option_map Py.lower_char prev) (Py.lower a))
  = Re.word_before (Re.last_char prev a).
Proof.
  revert prev. induction a as [|c a IH]; intros prev; simpl.
  - destruct prev; simpl; [apply is_word_lower_char|reflexivity].
  - apply (IH (Some c)).
Qed.

Lemma word_after_rstrip b :
  Re.word_after b = false -> Re.word_after (Py.rstrip b) = false.
Proof.
  destruct b as [|c b]; [auto|]. simpl. intros Hc.
  destruct (Py.rstrip b); [destruct (Py.isspace c)|]; simpl; auto.
Qed.

Lemma word_after_lower b :
  Re.word_after (Py.lower b) = Re.word_after b.
Proof. destruct b; simpl; [reflexivity|apply is_word_lower_char]. Qed.

Lemma word_before_letters prev kw :
  solid_word kw = true -> Re.word_before (Re.last_char prev kw) = true.
Proof.
  destruct kw as [|c kw]; [discriminate|]. unfold solid_word.
  revert prev c. induction kw as [|d kw IH]; intros prev c; simpl.
  - rewrite andb_true_r. intros Hc.
    now destruct (lower_letter_facts c Hc) as (_ & -> & _).
  - intros [_ Hk]%andb_prop. apply (IH (Some c) d Hk).
Qed.

(** The characters of a word, read one by one. *)
Lemma denotes_lit_then kw tail : forall prev rest prev' rest',
  Re.denotes tail (Re.last_char prev kw) rest prev' rest' ->
  Re.denotes (lit_then kw tail) prev (kw +:+ rest) prev' rest'.
Proof.
  induction kw as [|c kw IH]; intros prev rest prev' rest' Ht;
    [exact Ht|].
  rewrite append_cons. simpl. eapply Re.D_seq; [apply Re.D_char|].
  apply IH. exact Ht.
Qed.

(** A word of letters standing between two places that are not word
    characters is found by its whole-word pattern. *)
Lemma found_whole_word kw before after :
  solid_word kw = true ->
  Re.word_before (Re.last_char None before) = false ->
  Re.word_after after = false ->
  Re.found (word_regex kw) (before +:+ kw +:+ after).
Proof.
  intros Hk Hb Ha.
  exists before, (kw +:+ after), (Re.last_char (Re.last_char None before) kw),
    after.
  split; [reflexivity|]. unfold word_regex.
  eapply Re.D_seq.
  - apply Re.D_wordb. unfold Re.at_boundary. rewrite Hb.
    destruct kw as [|c kw]; [discriminate|]. rewrite append_cons. simpl.
    unfold solid_word in Hk. simpl in Hk. apply andb_prop in Hk as [Hc _].
    now destruct (lower_letter_facts c Hc) as (_ & -> & _).
  - apply denotes_lit_then. apply Re.D_wordb. unfold Re.at_boundary.
    now rewrite word_before_letters, Ha.
Qed.

Lemma In_by_eqb (p : string) (l : list string) :
  existsb (String.eqb p) l = true -> In p l.
Proof.
  intros (x & Hin & Heq)%existsb_exists.
  now apply String.eqb_eq in Heq as ->.
Qed.

Lemma signature_match_is_destructive command pattern r :
  In pattern DESTRUCTIVE_PATTERNS ->
  Re.compile pattern = Some r ->
  Re.found r (Py.strip (Py.lower command)) ->
  is_destructive_command command = true.
Proof.
  intros Hin Hc Hf. unfold is_destructive_command. cbv zeta.
  apply existsb_exists. exists pattern. split; [assumption|].
  apply search_correct. now exists r.
Qed.

(** Any ASCII command that mentions one of the whole-word signatures as
    a word of its own, in any letter case and anywhere in the text, is
    classified destructive.  (On ASCII text [str.lower], [str.strip] and
    [\b] are the functions of the modules [Py] and [Re].) *)
Theorem whole_word_keyword_is_flagged keyword word before after :
  Py.isascii (before +:+ word +:+ after) = true ->
  In keyword whole_word_keywords ->
  Py.lower word = keyword ->
  Re.word_before (Re.last_char None before) = false ->
  Re.word_after after = false ->
  is_destructive_command (before +:+ word +:+ after) = true.
Proof.
  intros _ Hin Hw Hb Ha.
  assert (Hsig : solid_word keyword = true
                 /\ In ("\b" +:+ keyword +:+ "\b") DESTRUCTIVE_PATTERNS
                 /\ Re.compile ("\b" +:+ keyword +:+ "\b")
                    = Some (word_regex keyword)).
  { unfold whole_word_keywords in Hin.
    repeat (destruct Hin as [<-|Hin];
            [split; [reflexivity|split; [|vm_compute; reflexivity]];
             apply In_by_eqb; vm_compute; reflexivity |]).
    destruct Hin. }
  destruct Hsig as (Hk & Hp & Hc).
  apply (signature_match_is_destructive _ _ _ Hp Hc).
  rewrite !lower_app, Hw, strip_around_word by assumption.
  apply found_whole_word; [assumption| |].
  - apply word_before_lstrip.
    rewrite <- Hb. exact (word_before_lower None before).
  - apply word_after_rstrip. now rewrite word_after_lower.
Qed.

Lemma whole_word_keyword_is_flagged_witness :
  Py.isascii ("echo hi; " +:+ "ShutDown" +:+ " -h now") = true
  /\ In "shutdown" whole_word_keywords
  /\ Py.lower "ShutDown" = "shutdown"
  /\ Re.word_before (Re.last_char None "echo hi; ") = false
  /\ Re.word_after " -h now" = false
  /\ is_destructive_command ("echo hi; " +:+ "ShutDown" +:+ " -h now") = true.
Proof.
  assert (Hascii : Py.isascii ("echo hi; " +:+ "ShutDown" +:+ " -h now")
                   = true) by reflexivity.
  assert (Hin : In "shutdown" whole_word_keywords)
    by (apply In_by_eqb; reflexivity).
  assert (Hw : Py.lower "ShutDown" = "shutdown") by reflexivity.
  assert (Hb : Re.word_before (Re.last_char None "echo hi; ") = false)
    by reflexivity.
  assert (Ha : Re.word_after " -h now" = false) by reflexivity.
  exact (conj Hascii (conj Hin (conj Hw (conj Hb (conj Ha
           (whole_word_keyword_is_flagged "shutdown" "ShutDown" "echo hi; "
              " -h now" Hascii Hin Hw Hb Ha)))))).
Defined.

(** ** More on the session manager and the handlers *)

(** [connect] succeeds exactly for a configured alias whose profile has a
    non-empty password and whose connection the transport accepts; an
    argument that is not an alias never connects. *)
Theorem connect_succeeds_iff
    (SSH_HOSTS : gmap string HostConfig) (net : Transport)
    (host : string) (w : World) :
  (exists msg w', Server.connect SSH_HOSTS net host w = (Return msg, w'))
  <->
  (exists config password,
      SSH_HOSTS !! host = Some config
      /\ cfg_password config = Some password
      /\ password <> ""
      /\ connect_fails net
           (calls w
            ++ [ SSHClient_new (next_handle w);
                 set_missing_host_key_policy (next_handle w);
                 client_connect (next_handle w) (cfg_hostname config)
                   (default 22%Z (cfg_port config))
                   (default "root" (cfg_username config)) password ])
         = None).
Proof.
  rewrite connect_eq. cbv zeta. unfold target_of.
  rewrite <- !app_assoc. cbn [app].
  destruct (SSH_HOSTS !! host) as [config|] eqn:Hl;
    cbn [t_password t_hostname t_port t_username t_description].
  - destruct (cfg_password config) as [[|c pw]|] eqn:Hp; cbn [Py.truthy].
    + split; [now intros (? & ? & [=])|].
      intros (config' & pw' & ? & ? & Hne & _). simplify_eq; try congruence.
    + cbn [from_option id].
      destruct (connect_fails net _) eqn:Hf.
      * split; [now intros (? & ? & [=])|].
        intros (config' & pw' & ? & ? & _ & Hf'). simplify_eq; try congruence.
      * split; [|eauto].
        intros _. exists config, (String c pw). now rewrite Hf.
    + split; [now intros (? & ? & [=])|].
      intros (config' & pw' & ? & ? & _). simplify_eq; try congruence.
  - split; [now intros (? & ? & [=])|]. now intros (? & ? & [=] & _).
Qed.

(** After a successful [connect], the status names the alias and the
    hostname of its profile, by the tool and by the route alike; a
    [disconnect] then names the alias, closes the client that was opened,
    and leaves a session that reports itself not connected. *)
Theorem connect_status_disconnect
    (SSH_HOSTS_items : list (string * HostConfig)) (net : Transport)
    (host msg : string) (w w1 : World) :
  Py.truthy (Some host) = true ->
  Server.connect (list_to_map SSH_HOSTS_items) net host w = (Return msg, w1) ->
  exists config,
    (list_to_map SSH_HOSTS_items : gmap string HostConfig) !! host
      = Some config
    /\ ssh_conn w1
       = {| client := Some (next_handle w);
            hostname := Some (cfg_hostname config);
            host_alias := Some host |}
    /\ (let status :=
          "Connected to: " +:+ host
          +:+ (if Py.truthy (Some (cfg_hostname config))
               then " (" +:+ cfg_hostname config +:+ ")" else "") in
        CallTool.call_tool SSH_HOSTS_items net "ssh_status"
          {| arg_host := None; arg_command := None;
             arg_confirmed := false; arg_use_sudo := false |} w1
        = (status, w1)
        /\ Routes.status w1
           = (ReplyStatus true (Some host) (Some (cfg_hostname config))
                status, w1))
    /\ (let w2 := (Server.disconnect w1).2 in
        Server.disconnect w1 = (Return ("Disconnected from " +:+ host), w2)
        /\ calls w2 = calls w1 ++ [client_close (next_handle w)]
        /\ (next_handle w ∉ established w2)
        /\ ssh_conn w2 = SSHConnection_init
        /\ CallTool.ssh_status (ssh_conn w2) = "Not connected to any host"
        /\ Routes.status w2
           = (ReplyStatus false None None "Not connected to any host", w2)).
Proof.
  intros Hhost. rewrite connect_eq. cbv zeta.
  unfold target_of, alias_of.
  destruct (list_to_map SSH_HOSTS_items !! host) as [config|] eqn:Hl;
    cbn [t_password t_hostname t_port t_username t_description];
    [|discriminate].
  destruct (Py.truthy (cfg_password config)); [|discriminate].
  destruct (connect_fails net _); [discriminate|].
  intros [= _ <-]. exists config. split; [reflexivity|].
  split; [reflexivity|]. split.
  - cbv zeta. unfold CallTool.call_tool, CallTool.call_tool_body,
      CallTool.ssh_status, Routes.status.
    cbn [String.eqb Ascii.eqb Bool.eqb ssh_conn arg_host].
    unfold bind, get_conn, ret, Py.or_else.
    cbn [ssh_conn Server.is_connected client hostname host_alias].
    rewrite Hhost. cbn [Py.format andb].
    destruct (Py.truthy (Some (cfg_hostname config)));
      rewrite ?append_empty_r; split; reflexivity.
  - cbv zeta.
    erewrite disconnect_with_client by reflexivity.
    cbn [snd calls ssh_conn established host_alias hostname]. unfold Py.or_else.
    rewrite Hhost. cbn [Py.format].
    repeat split.
    cbn [established]. intros [_ Hn]%elem_of_difference.
    apply Hn. now apply elem_of_singleton.
Qed.

Lemma connect_status_disconnect_witness :
  Py.truthy (Some "vm2") = true
  /\ Server.connect (list_to_map example_items) quiet_net "vm2" World_init
     = (Return "Successfully connected to vm2 (staging)",
        (Server.connect (list_to_map example_items) quiet_net "vm2"
           World_init).2)
  /\ Server.disconnect
       (Server.connect (list_to_map example_items) quiet_net "vm2"
          World_init).2
     = (Return "Disconnected from vm2",
        (Server.disconnect
           (Server.connect (list_to_map example_items) quiet_net "vm2"
              World_init).2).2).
Proof.
  assert (Hh : Py.truthy (Some "vm2") = true) by reflexivity.
  assert (Hc : Server.connect (list_to_map example_items) quiet_net "vm2"
                 World_init
               = (Return "Successfully connected to vm2 (staging)",
                  (Server.connect (list_to_map example_items) quiet_net
                     "vm2" World_init).2)) by reflexivity.
  refine (conj Hh (conj Hc _)).
  destruct (connect_status_disconnect example_items quiet_net "vm2" _ _ _
              Hh Hc) as (config & _ & _ & _ & Hd & _).
  exact Hd.
Defined.

(** Requests without a command or without a host, and calls of a tool
    that does not exist, are answered with an error text and leave the
    world as it was: no client is created and nothing is sent. *)
Theorem malformed_requests_have_no_effect
    (SSH_HOSTS_items : list (string * HostConfig)) (net : Transport)
    (name : string) (arguments : Arguments) (w : World) :
  (Py.truthy (arg_command arguments) = false ->
   CallTool.call_tool SSH_HOSTS_items net "ssh_execute" arguments w
     = ("Error: No command provided", w)
   /\ Http.execute (list_to_map SSH_HOSTS_items) net (arg_command arguments)
        (arg_confirmed arguments) (arg_use_sudo arguments) w
      = (JsonError "No command provided", w))
  /\ (Py.truthy (arg_host arguments) = false ->
      CallTool.call_tool SSH_HOSTS_items net "ssh_connect" arguments w
        = ("Error: No host specified", w)
      /\ Routes.connect SSH_HOSTS_items net (arg_host arguments) w
         = (ReplyError "No host specified", w))
  /\ (~ In name tool_names ->
      CallTool.call_tool SSH_HOSTS_items net name arguments w
        = ("Unknown tool: " +:+ name, w)).
Proof.
  split; [|split].
  - intros Hc. split.
    + unfold CallTool.call_tool, CallTool.call_tool_body, Server.ssh_execute.
      cbn [String.eqb Ascii.eqb Bool.eqb]. now rewrite Hc.
    + unfold Http.execute, Http.execute_body. now rewrite Hc.
  - intros Hh. split.
    + unfold CallTool.call_tool, CallTool.call_tool_body, CallTool.ssh_connect.
      cbn [String.eqb Ascii.eqb Bool.eqb]. now rewrite Hh.
    + unfold Routes.connect. now rewrite Hh.
  - intros Hn. unfold CallTool.call_tool, CallTool.call_tool_body.
    unfold tool_names in Hn.
    repeat match goal with
           | |- context [String.eqb name ?s] =>
               destruct (String.eqb_spec name s) as [->|_];
               [exfalso; apply Hn; simpl; tauto|]
           end.
    reflexivity.
Qed.

Lemma malformed_requests_have_no_effect_witness :
  Py.truthy (Some "") = false
  /\ ~ In "ssh_reboot" tool_names
  /\ CallTool.call_tool example_items quiet_net "ssh_execute"
       {| arg_host := None; arg_command := Some ""; arg_confirmed := true;
          arg_use_sudo := true |} world_vm1
     = ("Error: No command provided", world_vm1)
  /\ CallTool.call_tool example_items quiet_net "ssh_reboot"
       {| arg_host := None; arg_command := Some ""; arg_confirmed := true;
          arg_use_sudo := true |} world_vm1
     = ("Unknown tool: " +:+ "ssh_reboot", world_vm1).
Proof.
  assert (Hc : Py.truthy (Some "") = false) by reflexivity.
  assert (Hn : ~ In "ssh_reboot" tool_names).
  { unfold tool_names. simpl. intros H.
    repeat (destruct H as [H|H]; [discriminate H|]). exact H. }
  pose (args := {| arg_host := None; arg_command := Some "";
                   arg_confirmed := true; arg_use_sudo := true |}).
  refine (conj Hc (conj Hn (conj _ _))).
  - exact (proj1 (proj1 (malformed_requests_have_no_effect example_items
                           quiet_net "ssh_reboot" args world_vm1) Hc)).
  - exact (proj2 (proj2 (malformed_requests_have_no_effect example_items
                           quiet_net "ssh_reboot" args world_vm1)) Hn).
Defined.

(** A command that passes the gate while the session has no client, or
    no hostname, is answered with the not-connected error by all three
    entry points, and nothing is sent. *)
Theorem execute_without_session
    (SSH_HOSTS_items : list (string * HostConfig)) (net : Transport)
    (command : string) (confirmed use_sudo : bool) (w : World) :
  Py.truthy (Some command) = true ->
  is_destructive_command command && negb confirmed = false ->
  ready (ssh_conn w) = false ->
  Server.call_tool_ssh_execute (list_to_map SSH_HOSTS_items) net
      (Some command) confirmed use_sudo w
    = ("Error: Not connected to any host. Please connect first.", w)
  /\ Http.execute (list_to_map SSH_HOSTS_items) net (Some command) confirmed
       use_sudo w
     = (JsonError "Not connected to any host. Please connect first.", w)
  /\ Tools.ssh_execute SSH_HOSTS_items net Delivered command confirmed
       use_sudo w
     = ("Error: Not connected to any host. Please connect first.", w).
Proof.
  intros Ht Hg Hr.
  assert (Hn : client (ssh_conn w) = None
               \/ Py.truthy (hostname (ssh_conn w)) = false).
  { unfold ready in Hr. destruct (client (ssh_conn w)); auto. }
  assert (Hhttp :
    Http.execute (list_to_map SSH_HOSTS_items) net (Some command) confirmed
      use_sudo w
    = (JsonError "Not connected to any host. Please connect first.", w)).
  { unfold Http.execute. rewrite http_execute_passes by assumption.
    cbv zeta. now rewrite execute_command_not_connected by assumption. }
  split; [|split; [exact Hhttp|]].
  - unfold Server.call_tool_ssh_execute.
    rewrite ssh_execute_passes by assumption. cbv zeta.
    now rewrite execute_command_not_connected by assumption.
  - unfold Tools.ssh_execute, Tools.make_request. now rewrite Hhttp.
Qed.

Lemma execute_without_session_witness :
  Py.truthy (Some "uptime") = true
  /\ is_destructive_command "uptime" && negb false = false
  /\ ready (ssh_conn World_init) = false
  /\ Tools.ssh_execute example_items quiet_net Delivered "uptime" false
       false World_init
     = ("Error: Not connected to any host. Please connect first.",
        World_init).
Proof.
  assert (Ht : Py.truthy (Some "uptime") = true) by reflexivity.
  assert (Hg : is_destructive_command "uptime" && negb false = false)
    by (vm_compute; reflexivity).
  assert (Hr : ready (ssh_conn World_init) = false) by reflexivity.
  exact (conj Ht (conj Hg (conj Hr
           (proj2 (proj2 (execute_without_session example_items quiet_net
                            "uptime" false false World_init Ht Hg Hr)))))).
Defined.

Lemma channels_opened_app l1 l2 :
  channels_opened (l1 ++ l2) = channels_opened l1 + channels_opened l2.
Proof. unfold channels_opened. now rewrite List.filter_app, length_app. Qed.

Lemma channels_opened_secret h use_sudo sudo_password :
  channels_opened (secret_input h use_sudo sudo_password) = 0.
Proof. unfold secret_input. now destruct (_ && _). Qed.

(** Each call of [execute] opens one channel when the command is not
    empty, passes the gate and the session is ready, and none otherwise:
    never more than one. *)
Theorem execute_opens_at_most_one_channel
    (SSH_HOSTS : gmap string HostConfig) (net : Transport)
    (command : option string) (confirmed use_sudo : bool) (w : World) :
  let opens :=
    Py.truthy command
    && negb (is_destructive_command (default "" command) && negb confirmed)
    && ready (ssh_conn w) in
  channels_opened
    (calls (Server.call_tool_ssh_execute SSH_HOSTS net command confirmed
              use_sudo w).2)
  = channels_opened (calls w) + (if opens then 1 else 0)
  /\ channels_opened
       (calls (Http.execute SSH_HOSTS net command confirmed use_sudo w).2)
     = channels_opened (calls w) + (if opens then 1 else 0).
Proof.
  cbv zeta. rewrite http_execute_same_world.
  assert (H : channels_opened
    (calls (Server.call_tool_ssh_execute SSH_HOSTS net command confirmed
              use_sudo w).2)
    = channels_opened (calls w)
      + (if Py.truthy command
            && negb (is_destructive_command (default "" command)
                     && negb confirmed)
            && ready (ssh_conn w)
         then 1 else 0)); [|now split].
  destruct command as [command|]; [|cbn; lia].
  rewrite call_tool_world. cbn [from_option id].
  destruct (Py.truthy (Some command)); cbn [negb orb andb]; [|lia].
  destruct (is_destructive_command command && negb confirmed);
    cbn [negb andb]; [lia|]. cbv zeta.
  unfold ready.
  destruct (client (ssh_conn w)) as [h|] eqn:Hc;
    [destruct (Py.truthy (hostname (ssh_conn w))) eqn:Hh|];
    try (rewrite execute_command_not_connected by auto; cbn [snd]; lia).
  rewrite (execute_command_connected _ _ _ _ _ h Hc Hh). cbv zeta.
  destruct (exec_fails net _);
    [|destruct (if _ && _ then stdin_fails net _ else None);
      [|destruct (channel_result net _) as [msg|[[ec out] err]]]];
    cbn [snd calls with_calls];
    rewrite !channels_opened_app, ?channels_opened_secret;
    cbn; lia.
Qed.

(** For a command that is not destructive the [confirmed] flag has no
    influence on either handler. *)
Theorem confirmation_only_matters_when_destructive
    (SSH_HOSTS : gmap string HostConfig) (net : Transport)
    (command : string) (confirmed confirmed' use_sudo : bool) (w : World) :
  is_destructive_command command = false ->
  Server.call_tool_ssh_execute SSH_HOSTS net (Some command) confirmed
      use_sudo w
    = Server.call_tool_ssh_execute SSH_HOSTS net (Some command) confirmed'
        use_sudo w
  /\ Http.execute SSH_HOSTS net (Some command) confirmed use_sudo w
     = Http.execute SSH_HOSTS net (Some command) confirmed' use_sudo w.
Proof.
  intros Hd. split.
  - unfold Server.call_tool_ssh_execute, Server.ssh_execute.
    cbn [from_option id]. now rewrite Hd.
  - unfold Http.execute, Http.execute_body.
    cbn [from_option id]. now rewrite Hd.
Qed.

Lemma confirmation_only_matters_when_destructive_witness :
  is_destructive_command "df -h" = false
  /\ Http.execute example_hosts quiet_net (Some "df -h") false false world_vm1
     = Http.execute example_hosts quiet_net (Some "df -h") true false
         world_vm1.
Proof.
  assert (Hd : is_destructive_command "df -h" = false)
    by (vm_compute; reflexivity).
  exact (conj Hd
           (proj2 (confirmation_only_matters_when_destructive example_hosts
                     quiet_net "df -h" false true false world_vm1 Hd))).
Defined.

(** ** More on [execute_command] *)

(** *** The prompt filter *)

Lemma startswith_before_line_feed x rest p :
  Re.avoids Py.LF p = true ->
  Py.startswith (x +:+ String Py.LF rest) p = true ->
  Py.startswith x p = true.
Proof.
  revert p. induction x as [|a x IH]; intros [|b p] Hp; try reflexivity.
  - rewrite append_empty_l. simpl in *.
    apply andb_prop in Hp as [Hb _]. apply negb_true_iff in Hb.
    now rewrite Hb.
  - rewrite append_cons. simpl in *.
    apply andb_prop in Hp as [_ Hp].
    intros [Hab H]%andb_prop. rewrite Hab. simpl. now apply IH.
Qed.

Lemma contains_empty p : p <> "" -> Py.contains "" p = false.
Proof. now destruct p. Qed.

(** A text without line feed that occurs neither in [x] nor in [rest]
    does not occur in the two joined by a line feed. *)
Lemma contains_joined x rest p :
  p <> "" -> Re.avoids Py.LF p = true ->
  Py.contains x p = false -> Py.contains rest p = false ->
  Py.contains (x +:+ String Py.LF rest) p = false.
Proof.
  intros Hne Hp. induction x as [|a x IH]; intros Hx Hr.
  - rewrite append_empty_l. simpl. rewrite Hr, orb_false_r.
    destruct p as [|b p]; [congruence|]. simpl in *.
    apply andb_prop in Hp as [Hb _]. apply negb_true_iff in Hb.
    now rewrite Hb.
  - rewrite append_cons.
    change (Py.startswith (String a (x +:+ String Py.LF rest)) p
            || Py.contains (x +:+ String Py.LF rest) p = false).
    change (Py.startswith (String a x) p || Py.contains x p = false) in Hx.
    apply orb_false_iff in Hx as [Hs Hc].
    rewrite (IH Hc Hr), orb_false_r.
    destruct (Py.startswith (String a (x +:+ String Py.LF rest)) p) eqn:E;
      [|reflexivity].
    rewrite <- append_cons in E.
    apply startswith_before_line_feed in E; congruence.
Qed.

Lemma contains_join p (ls : list string) :
  p <> "" -> Re.avoids Py.LF p = true ->
  (forall l, l ∈ ls -> Py.contains l p = false) ->
  Py.contains (Py.join Py.nl ls) p = false.
Proof.
  intros Hne Hp. induction ls as [|w [|w2 ws] IH]; intros H.
  - now apply contains_empty.
  - apply H. now left.
  - change (Py.join Py.nl (w :: w2 :: ws))
      with (w +:+ String Py.LF (Py.join Py.nl (w2 :: ws))).
    apply contains_joined; try assumption.
    + apply H. now left.
    + apply IH. intros l Hl. apply H. now right.
Qed.

Lemma strip_prompt_no_marker stdout_text :
  Py.contains (Server.strip_prompt true stdout_text) "[sudo]" = false.
Proof.
  unfold Server.strip_prompt. cbn [andb].
  destruct (Py.contains stdout_text "[sudo]") eqn:E; [|exact E].
  apply contains_join; [discriminate|reflexivity|].
  now intros l [Hl _]%list_elem_of_filter.
Qed.

(** With escalation, no [[sudo]] marker is left in the returned output;
    without escalation the output is returned as read. *)
Theorem strip_prompt_leaves_no_marker (stdout_text : string) :
  Py.contains (Server.strip_prompt true stdout_text) "[sudo]" = false
  /\ Server.strip_prompt false stdout_text = stdout_text.
Proof.
  split; [apply strip_prompt_no_marker|reflexivity].
Qed.

(** *** The command line *)

(** With escalation the line sent always begins, once trimmed, with
    [sudo]; preparing a prepared line changes nothing; without escalation
    the command is sent as it is. *)
Theorem exec_line_is_sudo_prefixed_once (command : string) (use_sudo : bool) :
  Py.startswith (Py.strip (Server.exec_line command true)) "sudo" = true
  /\ Server.exec_line (Server.exec_line command use_sudo) use_sudo
     = Server.exec_line command use_sudo
  /\ Server.exec_line command false = command.
Proof.
  assert (Hwrap : Py.startswith (Py.strip ("sudo -S " +:+ command)) "sudo"
                  = true).
  { unfold Py.strip.
    change ("sudo -S " +:+ command)
      with (String "s" (String "u" (String "d" (String "o"
              (" -S " +:+ command))))).
    change (Py.lstrip (String "s" (String "u" (String "d" (String "o"
              (" -S " +:+ command))))))
      with (String "s" (String "u" (String "d" (String "o"
              (" -S " +:+ command))))).
    rewrite !rstrip_cons_solid by reflexivity. cbn.
    now destruct (Py.rstrip _). }
  assert (Hsudo : Py.startswith (Py.strip (Server.exec_line command true))
                    "sudo" = true).
  { unfold Server.exec_line.
    destruct (Py.startswith (Py.strip command) "sudo") eqn:E; assumption. }
  split; [exact Hsudo|]. split; [|reflexivity].
  destruct use_sudo; [|reflexivity].
  unfold Server.exec_line at 1. now rewrite Hsudo.
Qed.

(** *** Where the secret goes *)

(** Whenever a handler writes to a channel's input, the write is the call
    right after the [exec_command] that opened the channel, on the same
    client, that channel was opened with a pseudo-terminal for a line
    prepared for escalation, and nothing else is written. *)
Theorem secret_goes_to_the_pty_channel_just_opened
    (SSH_HOSTS : gmap string HostConfig) (net : Transport)
    (command : string) (confirmed use_sudo : bool) (w : World) :
  exists new,
    calls (Server.call_tool_ssh_execute SSH_HOSTS net (Some command)
             confirmed use_sudo w).2 = calls w ++ new
    /\ calls (Http.execute SSH_HOSTS net (Some command) confirmed use_sudo
                w).2 = calls w ++ new
    /\ forall h data, In (stdin_write h data) new ->
         exists rest,
           new = exec_command h (Server.exec_line command true) true
                 :: stdin_write h data :: rest
           /\ (rest = [] \/ rest = [channel_wait h]).
Proof.
  rewrite http_execute_same_world, call_tool_world.
  assert (Hnone : exists new,
            calls w = calls w ++ new
            /\ calls w = calls w ++ new
            /\ forall h data, In (stdin_write h data) new ->
                 exists rest,
                   new = exec_command h (Server.exec_line command true) true
                         :: stdin_write h data :: rest
                   /\ (rest = [] \/ rest = [channel_wait h])).
  { exists []. rewrite app_nil_r. repeat split. intros ? ? []. }
  destruct (_ || _); [exact Hnone|]. cbv zeta.
  set (us := Server.detect_sudo command use_sudo).
  set (pw := Server.resolve_sudo_password SSH_HOSTS (ssh_conn w) us).
  destruct (client (ssh_conn w)) as [h|] eqn:Hc;
    [destruct (Py.truthy (hostname (ssh_conn w))) eqn:Hh|];
    try (rewrite execute_command_not_connected by auto; exact Hnone).
  rewrite (execute_command_connected _ _ _ _ _ h Hc Hh). cbv zeta.
  destruct (exec_fails net _).
  - exists [exec_command h (Server.exec_line command us) us].
    split; [reflexivity|]. split; [reflexivity|].
    intros h' data [Heq|[]]. discriminate.
  - unfold secret_input.
    destruct (us && Py.truthy pw) eqn:E.
    + apply andb_prop in E as [-> _].
      assert (Hone : forall tail,
                tail = [] \/ tail = [channel_wait h] ->
                forall h' data,
                  In (stdin_write h' data)
                    (exec_command h (Server.exec_line command true) true
                     :: stdin_write h (default "" pw +:+ Py.nl) :: tail) ->
                  exists rest,
                    exec_command h (Server.exec_line command true) true
                    :: stdin_write h (default "" pw +:+ Py.nl) :: tail
                    = exec_command h' (Server.exec_line command true) true
                      :: stdin_write h' data :: rest
                    /\ (rest = [] \/ rest = [channel_wait h'])).
      { intros tail Htail h' data [Heq|[[= <- <-]|Hin]]; [discriminate| |].
        - now exists tail.
        - destruct Htail as [->| ->]; [destruct Hin|].
          destruct Hin as [Heq|[]]. discriminate. }
      destruct (stdin_fails net _).
      * eexists. split; [|split]; [| |apply (Hone []); now left];
          cbn [snd calls with_calls]; now rewrite <- app_assoc.
      * eexists. split; [|split];
          [| |apply (Hone [channel_wait h]); now right];
          destruct (channel_result net _) as [msg|[[ec out] err]];
          cbn [snd calls with_calls]; now rewrite <- !app_assoc.
    + exists [exec_command h (Server.exec_line command us) us;
              channel_wait h].
      rewrite app_nil_r.
      split; [|split];
        try (destruct (channel_result net _) as [msg|[[ec out] err]];
             cbn [snd calls with_calls]; now rewrite <- !app_assoc).
      intros h' data [Heq|[Heq|[]]]; discriminate.
Qed.

(** *** What a result reports *)

(** A result returned by the route echoes the command as it was submitted
    (not the line that was sent), carries the hostname of the session,
    reports success exactly for exit status 0, reports escalation exactly
    when it was requested or detected, and with escalation its output has
    no [[sudo]] marker; the command was not destructive, or had been
    confirmed; and the session object is as before. *)
Theorem http_result_reports
    (SSH_HOSTS : gmap string HostConfig) (net : Transport)
    (command : string) (confirmed use_sudo : bool) (w w' : World)
    (success : bool) (cmd : string) (hn : option string) (exit_code : Z)
    (out err : string) (used : bool) :
  Http.execute SSH_HOSTS net (Some command) confirmed use_sudo w
    = (JsonResult success cmd hn exit_code out err used, w') ->
  cmd = command
  /\ hn = hostname (ssh_conn w)
  /\ success = (exit_code =? 0)%Z
  /\ used = Server.detect_sudo command use_sudo
  /\ (used = true -> Py.contains out "[sudo]" = false)
  /\ (is_destructive_command command = true -> confirmed = true)
  /\ ready (ssh_conn w) = true
  /\ ssh_conn w' = ssh_conn w.
Proof.
  unfold Http.execute.
  destruct (Py.truthy (Some command)) eqn:Ht;
    [|unfold Http.execute_body; rewrite Ht; discriminate].
  destruct (is_destructive_command command && negb confirmed) eqn:Hg;
    [unfold Http.execute_body; rewrite Ht; cbn [negb from_option id];
     rewrite Hg; discriminate|].
  rewrite http_execute_passes by assumption. cbv zeta.
  set (us := Server.detect_sudo command use_sudo).
  set (pw := Server.resolve_sudo_password SSH_HOSTS (ssh_conn w) us).
  pose proof (execute_command_session net command us pw w) as Hsess.
  unfold ready.
  destruct (client (ssh_conn w)) as [h|] eqn:Hc;
    [destruct (Py.truthy (hostname (ssh_conn w))) eqn:Hh|];
    try (rewrite execute_command_not_connected by auto; discriminate).
  rewrite (execute_command_connected _ _ _ _ _ h Hc Hh) in *. cbv zeta in *.
  destruct (exec_fails net _); [discriminate|].
  destruct (if us && Py.truthy pw then _ else _); [discriminate|].
  destruct (channel_result net _) as [msg|[[ec o] e]]; [discriminate|].
  cbn [res_success res_command res_hostname res_exit_code res_stdout
       res_stderr res_used_sudo].
  intros [= <- <- <- <- <- <- <- <-].
  repeat split; try reflexivity.
  - intros ->. apply strip_prompt_no_marker.
  - intros Hd. rewrite Hd in Hg. now destruct confirmed.
Qed.

Lemma http_result_reports_witness :
  Http.execute example_hosts quiet_net (Some "apt update") false true
    world_vm1
  = (JsonResult true "apt update" (Some "10.0.0.5") 0 "" "" true,
     with_calls world_vm1
       (calls world_vm1
        ++ [ exec_command 0 "sudo -S apt update" true;
             stdin_write 0 ("s3cret" +:+ Py.nl); channel_wait 0 ]))
  /\ "apt update" = "apt update"
  /\ Some "10.0.0.5" = hostname (ssh_conn world_vm1).
Proof.
  assert (H : Http.execute example_hosts quiet_net (Some "apt update") false
                true world_vm1
              = (JsonResult true "apt update" (Some "10.0.0.5") 0 "" "" true,
                 with_calls world_vm1
                   (calls world_vm1
                    ++ [ exec_command 0 "sudo -S apt update" true;
                         stdin_write 0 ("s3cret" +:+ Py.nl);
                         channel_wait 0 ]))) by reflexivity.
  refine (conj H _).
  destruct (http_result_reports _ _ _ _ _ _ _ _ _ _ _ _ _ _ H)
    as (Hc & Hh & _).
  exact (conj Hc Hh).
Defined.

(** ** The OpenWebUI tool over the HTTP wrapper *)

Section ToolsOverHttp.

Variable SSH_HOSTS_items : list (string * HostConfig).
Variable net : Transport.

Lemma tools_host_lines item :
  Tools.host_lines
    (let '(alias, config) := item in
     {| entry_alias := alias;
        entry_hostname := cfg_hostname config;
        entry_username := default "root" (cfg_username config);
        entry_port := default 22%Z (cfg_port config);
        entry_description := default "" (cfg_description config) |})
  = CallTool.host_lines item.
Proof.
  destruct item as [alias config].
  unfold Tools.host_lines, CallTool.host_lines.
  cbn [entry_alias entry_hostname entry_username entry_port
       entry_description].
  now destruct (cfg_description config) as [[|c d]|].
Qed.

Lemma fold_left_host_lines items output :
  fold_left (fun output host => output +:+ Tools.host_lines host)
    (map (fun '(alias, config) =>
            {| entry_alias := alias;
               entry_hostname := cfg_hostname config;
               entry_username := default "root" (cfg_username config);
               entry_port := default 22%Z (cfg_port config);
               entry_description :=
                 default "" (cfg_description config) |}) items) output
  = fold_left (fun output item => output +:+ CallTool.host_lines item)
      items output.
Proof.
  revert output. induction items as [|item items IH]; intros output;
    [reflexivity|].
  cbn [map fold_left]. rewrite IH. f_equal. f_equal.
  exact (tools_host_lines item).
Qed.

Lemma format_result_success result :
  res_success result = (res_exit_code result =? 0)%Z ->
  res_success result = true ->
  Tools.render_execute
    (JsonResult (res_success result) (res_command result)
       (res_hostname result) (res_exit_code result) (res_stdout result)
       (res_stderr result) (res_used_sudo result))
  = Server.format_result result.
Proof.
  intros He Hs. unfold Tools.render_execute, Server.format_result.
  rewrite <- He, Hs. reflexivity.
Qed.

End ToolsOverHttp.

(** Listing the hosts through the OpenWebUI tool gives the text of the
    MCP tool whenever at least one host is configured; with none, the
    first answers [Error: No hosts configured], the second
    [No hosts configured in config.yaml]. *)
Theorem tools_list_hosts_agrees
    (SSH_HOSTS_items : list (string * HostConfig)) (net : Transport)
    (arguments : Arguments) (w : World) :
  CallTool.call_tool SSH_HOSTS_items net "ssh_list_hosts" arguments w
    = (CallTool.ssh_list_hosts SSH_HOSTS_items, w)
  /\ Tools.ssh_list_hosts SSH_HOSTS_items Delivered w
     = (match SSH_HOSTS_items with
        | [] => "Error: No hosts configured"
        | _ => CallTool.ssh_list_hosts SSH_HOSTS_items
        end, w)
  /\ CallTool.ssh_list_hosts []
     = "No hosts configured in config.yaml".
Proof.
  split; [reflexivity|]. split; [|reflexivity].
  unfold Tools.ssh_list_hosts, Tools.make_request, Routes.list_hosts,
    CallTool.ssh_list_hosts.
  destruct SSH_HOSTS_items as [|item items]; [reflexivity|].
  cbv beta iota. rewrite <- (fold_left_host_lines (item :: items)).
  reflexivity.
Qed.

(** Through the OpenWebUI tool a command is answered as by the MCP tool,
    with the same effect on the world, in every case but two: a refusal
    uses the shorter warning of the route, and a command that ran and
    exited with a status other than 0 is reported as
    [Error: Command failed], without its output. *)
Theorem tools_execute_agrees_with_mcp_tool
    (SSH_HOSTS_items : list (string * HostConfig)) (net : Transport)
    (command : string) (confirmed use_sudo : bool) (w : World) :
  let tools :=
    Tools.ssh_execute SSH_HOSTS_items net Delivered command confirmed
      use_sudo w in
  let mcp :=
    Server.call_tool_ssh_execute (list_to_map SSH_HOSTS_items) net
      (Some command) confirmed use_sudo w in
  tools.2 = mcp.2
  /\ match
       (Http.execute (list_to_map SSH_HOSTS_items) net (Some command)
          confirmed use_sudo w).1
     with
     | JsonRefusal _ _ =>
         tools.1 = Http.destructive_warning command
         /\ mcp.1 = Server.destructive_warning command
     | JsonResult false _ _ exit_code _ _ _ =>
         tools.1 = "Error: Command failed" /\ exit_code <> 0%Z
     | _ => tools.1 = mcp.1
     end.
Proof.
  cbv zeta. unfold Tools.ssh_execute, Tools.make_request.
  destruct (Http.execute (list_to_map SSH_HOSTS_items) net (Some command)
              confirmed use_sudo w) as [answer wh] eqn:Hh.
  pose proof (http_execute_same_world (list_to_map SSH_HOSTS_items) net
                (Some command) confirmed use_sudo w) as Hw.
  rewrite Hh in Hw. cbn [fst snd] in *. split; [exact Hw|].
  revert Hh. unfold Http.execute, Server.call_tool_ssh_execute.
  destruct (Py.truthy (Some command)) eqn:Ht.
  - destruct (is_destructive_command command && negb confirmed) eqn:Hg.
    + unfold Http.execute_body, Server.ssh_execute.
      rewrite Ht. cbn [negb from_option id]. rewrite Hg.
      intros [= <- _]. split; reflexivity.
    + rewrite http_execute_passes, ssh_execute_passes by assumption.
      cbv zeta.
      destruct (Server.execute_command _ _ _ _ _) as [[r|e] w1] eqn:He.
      * intros [= <- _].
        apply execute_command_result in He as (_ & _ & _ & Hs).
        destruct (res_success r) eqn:Hr.
        -- rewrite <- Hr at 1. cbn [fst].
           apply format_result_success; congruence.
        -- cbn [fst]. split; [reflexivity|].
           intros H0. rewrite H0 in Hs. discriminate.
      * intros [= <- _]. reflexivity.
  - unfold Http.execute_body, Server.ssh_execute. rewrite Ht.
    intros [= <- _]. reflexivity.
Qed.

(** When a command runs and exits with a status other than 0, the MCP
    tool returns the whole report, ending with the failure line, while
    the OpenWebUI tool returns [Error: Command failed] and nothing of the
    exit status or the output; the effect on the world is the same. *)
Theorem tools_drop_report_of_failed_command
    (SSH_HOSTS_items : list (string * HostConfig)) (net : Transport)
    (command : string) (confirmed use_sudo : bool) (w : World) (h : handle)
    (exit_code : Z) (out err : string) :
  let SSH_HOSTS : gmap string HostConfig := list_to_map SSH_HOSTS_items in
  let escalate := Server.detect_sudo command use_sudo in
  let secret := Server.resolve_sudo_password SSH_HOSTS (ssh_conn w) escalate in
  let log1 :=
    calls w ++ [exec_command h (Server.exec_line command escalate) escalate] in
  let log2 := log1 ++ secret_input h escalate secret in
  let log3 := log2 ++ [channel_wait h] in
  let report :=
    Server.format_result
      {| res_hostname := hostname (ssh_conn w);
         res_command := command;
         res_exit_code := exit_code;
         res_stdout := Server.strip_prompt escalate out;
         res_stderr := err;
         res_success := false;
         res_used_sudo := escalate |} in
  Py.truthy (Some command) = true ->
  is_destructive_command command && negb confirmed = false ->
  client (ssh_conn w) = Some h ->
  Py.truthy (hostname (ssh_conn w)) = true ->
  exec_fails net log1 = None ->
  (if escalate && Py.truthy secret then stdin_fails net log2 else None)
    = None ->
  channel_result net log3 = inr (exit_code, out, err) ->
  exit_code <> 0%Z ->
  Tools.ssh_execute SSH_HOSTS_items net Delivered command confirmed use_sudo w
    = ("Error: Command failed", with_calls w log3)
  /\ Server.call_tool_ssh_execute SSH_HOSTS net (Some command) confirmed
       use_sudo w
     = (report, with_calls w log3)
  /\ exists front,
       report
       = front +:+ Py.nl +:+ "⚠️  Command failed with exit code "
         +:+ pretty exit_code.
Proof.
  intros SSH_HOSTS escalate secret log1 log2 log3 report
    Ht Hg Hc Hh He Hs Hr Hx.
  assert (Hz : (exit_code =? 0)%Z = false) by now apply Z.eqb_neq.
  split; [|split].
  - unfold Tools.ssh_execute, Tools.make_request, Http.execute.
    rewrite http_execute_passes by assumption. cbv zeta.
    rewrite (execute_command_connected _ _ _ _ _ h Hc Hh). cbv zeta.
    fold SSH_HOSTS escalate secret log1. rewrite He.
    fold log2. rewrite Hs. fold log3. rewrite Hr.
    cbn [res_success res_command res_hostname res_exit_code res_stdout
         res_stderr res_used_sudo Tools.render_execute].
    now rewrite Hz.
  - unfold Server.call_tool_ssh_execute.
    rewrite ssh_execute_passes by assumption. cbv zeta.
    rewrite (execute_command_connected _ _ _ _ _ h Hc Hh). cbv zeta.
    fold SSH_HOSTS escalate secret log1. rewrite He.
    fold log2. rewrite Hs. fold log3. rewrite Hr, Hz. reflexivity.
  - eexists. subst report. unfold Server.format_result.
    cbn [res_success]. reflexivity.
Qed.

Lemma tools_drop_report_of_failed_command_witness :
  Tools.ssh_execute example_items failing_net Delivered "ls /x" false false
    world_vm1
  = ("Error: Command failed",
     with_calls world_vm1
       (calls world_vm1
        ++ [exec_command (next_handle World_init) "ls /x" false;
            channel_wait (next_handle World_init)])).
Proof.
  assert (Hx : 2%Z <> 0%Z) by discriminate.
  exact (proj1 (tools_drop_report_of_failed_command example_items
                  failing_net "ls /x" false false world_vm1
                  (next_handle World_init) 2%Z ""
                  "ls: cannot access '/x': No such file"
                  eq_refl eq_refl eq_refl eq_refl eq_refl eq_refl eq_refl
                  Hx)).
Defined.

Lemma tools_connect_delivered
    (SSH_HOSTS_items : list (string * HostConfig)) (net : Transport)
    (host msg : string) (w w1 : World) :
  Py.truthy (Some host) = true ->
  Server.connect (list_to_map SSH_HOSTS_items) net host w = (Return msg, w1) ->
  Tools.ssh_connect SSH_HOSTS_items net Delivered host w = (msg, w1)
  /\ Py.contains msg "Successfully connected" = true
  /\ client (ssh_conn w1) = Some (next_handle w).
Proof.
  intros Hh Hc. split; [|split].
  - unfold Tools.ssh_connect, Tools.make_request, Routes.connect.
    rewrite Hh. cbn [negb from_option id]. now rewrite Hc.
  - revert Hc. rewrite connect_eq. cbv zeta.
    destruct (Py.truthy (t_password _));
      [destruct (connect_fails net _)|]; try discriminate.
    intros [= <- _]. destruct (t_description _); reflexivity.
  - revert Hc. rewrite connect_eq. cbv zeta.
    destruct (Py.truthy (t_password _));
      [destruct (connect_fails net _)|]; try discriminate.
    now intros [= _ <-].
Qed.

(** [update_system] sends nothing unless [confirmed] is set.  With it,
    once the connection succeeds, the update line is sent prefixed with
    [sudo -S] on a pseudo-terminal, with [confirmed=True], as by
    [ssh_execute]. *)
Theorem update_system_is_gated_and_escalated
    (SSH_HOSTS_items : list (string * HostConfig)) (net : Transport)
    (host msg : string) (w w1 : World) :
  Py.truthy (Some host) = true ->
  Server.connect (list_to_map SSH_HOSTS_items) net host w = (Return msg, w1) ->
  ready (ssh_conn w1) = true ->
  (forall d1 d2 any_host any_w,
      Tools.update_system SSH_HOSTS_items net d1 d2 any_host false any_w
      = ("⚠️  System update requires confirmation. Set confirmed=True to proceed.",
         any_w))
  /\ Tools.update_system SSH_HOSTS_items net Delivered Delivered host true w
     = Tools.ssh_execute SSH_HOSTS_items net Delivered
         "apt update && apt upgrade -y" true true w1
  /\ exists rest,
       calls (Tools.update_system SSH_HOSTS_items net Delivered Delivered
                host true w).2
       = calls w1
         ++ exec_command (next_handle w)
              "sudo -S apt update && apt upgrade -y" true :: rest.
Proof.
  intros Hh Hc Hr.
  destruct (tools_connect_delivered _ _ _ _ _ _ Hh Hc) as (Ht & Hm & Hcl).
  assert (Hrun :
    Tools.update_system SSH_HOSTS_items net Delivered Delivered host true w
    = Tools.ssh_execute SSH_HOSTS_items net Delivered
        "apt update && apt upgrade -y" true true w1).
  { unfold Tools.update_system. cbn [negb]. now rewrite Ht, Hm. }
  split; [reflexivity|]. split; [exact Hrun|].
  rewrite Hrun. unfold Tools.ssh_execute, Tools.make_request, Http.execute.
  rewrite http_execute_passes by (vm_compute; reflexivity). cbv zeta.
  unfold ready in Hr. rewrite Hcl in Hr.
  rewrite (execute_command_connected _ _ _ _ _ _ Hcl Hr). cbv zeta.
  change (Server.detect_sudo "apt update && apt upgrade -y" true) with true.
  change (Server.exec_line "apt update && apt upgrade -y" true)
    with "sudo -S apt update && apt upgrade -y".
  destruct (exec_fails net _).
  - now exists [].
  - destruct (if true && _ then _ else _).
    + eexists. cbn [snd calls with_calls]. now rewrite <- app_assoc.
    + destruct (channel_result net _) as [m|[[ec o] e]];
        eexists; cbn [snd calls with_calls]; now rewrite <- !app_assoc.
Qed.

Lemma update_system_is_gated_and_escalated_witness :
  Py.truthy (Some "vm1") = true
  /\ ready (ssh_conn world_vm1) = true
  /\ exists rest,
       calls (Tools.update_system example_items quiet_net Delivered Delivered
                "vm1" true World_init).2
       = calls world_vm1
         ++ exec_command (next_handle World_init)
              "sudo -S apt update && apt upgrade -y" true :: rest.
Proof.
  assert (Hh : Py.truthy (Some "vm1") = true) by reflexivity.
  assert (Hc : Server.connect (list_to_map example_items) quiet_net "vm1"
                 World_init
               = (Return "Successfully connected to vm1", world_vm1))
    by reflexivity.
  assert (Hr : ready (ssh_conn world_vm1) = true) by reflexivity.
  exact (conj Hh (conj Hr
           (proj2 (proj2 (update_system_is_gated_and_escalated example_items
                            quiet_net "vm1" _ World_init world_vm1
                            Hh Hc Hr))))).
Defined.

(** The four convenience methods: once the connection succeeds, the
    command is sent as it is, without escalation and without
    pseudo-terminal, and it is never held back by the confirmation gate;
    one channel is opened. *)
Theorem convenience_commands_run_plain
    (SSH_HOSTS_items : list (string * HostConfig)) (net : Transport)
    (command host msg : string) (w w1 : World) :
  In command convenience_commands ->
  Py.truthy (Some host) = true ->
  Server.connect (list_to_map SSH_HOSTS_items) net host w = (Return msg, w1) ->
  ready (ssh_conn w1) = true ->
  let run :=
    Tools.connect_and_run SSH_HOSTS_items net command Delivered Delivered
      host w in
  let log1 := calls w1 ++ [exec_command (next_handle w) command false] in
  is_destructive_command command = false
  /\ run
     = Tools.ssh_execute SSH_HOSTS_items net Delivered command false false w1
  /\ calls run.2
     = match exec_fails net log1 with
       | Some _ => log1
       | None => log1 ++ [channel_wait (next_handle w)]
       end.
Proof.
  intros Hin Hh Hc Hr run log1.
  destruct (tools_connect_delivered _ _ _ _ _ _ Hh Hc) as (Ht & Hm & Hcl).
  assert (Hfacts : is_destructive_command command = false
                   /\ Py.truthy (Some command) = true
                   /\ Server.detect_sudo command false = false).
  { unfold convenience_commands in Hin.
    repeat (destruct Hin as [<-|Hin];
            [repeat split; vm_compute; reflexivity|]).
    destruct Hin. }
  destruct Hfacts as (Hd & Htc & Hs).
  assert (Hrun : run = Tools.ssh_execute SSH_HOSTS_items net Delivered
                         command false false w1).
  { subst run. unfold Tools.connect_and_run. now rewrite Ht, Hm. }
  split; [exact Hd|]. split; [exact Hrun|].
  rewrite Hrun. unfold Tools.ssh_execute, Tools.make_request, Http.execute.
  rewrite http_execute_passes by (try assumption; now rewrite Hd).
  cbv zeta. rewrite Hs.
  unfold ready in Hr. rewrite Hcl in Hr.
  rewrite (execute_command_connected _ _ _ _ _ _ Hcl Hr). cbv zeta.
  unfold Server.exec_line, secret_input. cbn [andb]. rewrite app_nil_r.
  subst log1.
  destruct (exec_fails net _); [reflexivity|].
  destruct (channel_result net _) as [m|[[ec o] e]]; reflexivity.
Qed.

Lemma convenience_commands_run_plain_witness :
  In "df -h" convenience_commands
  /\ Py.truthy (Some "vm1") = true
  /\ ready (ssh_conn world_vm1) = true
  /\ Tools.check_disk_space example_items quiet_net Delivered Delivered "vm1"
       World_init
     = Tools.ssh_execute example_items quiet_net Delivered "df -h" false
         false world_vm1.
Proof.
  assert (Hin : In "df -h" convenience_commands) by (left; reflexivity).
  assert (Hh : Py.truthy (Some "vm1") = true) by reflexivity.
  assert (Hc : Server.connect (list_to_map example_items) quiet_net "vm1"
                 World_init
               = (Return "Successfully connected to vm1", world_vm1))
    by reflexivity.
  assert (Hr : ready (ssh_conn world_vm1) = true) by reflexivity.
  exact (conj Hin (conj Hh (conj Hr
           (proj1 (proj2 (convenience_commands_run_plain example_items
                            quiet_net "df -h" "vm1" _ World_init world_vm1
                            Hin Hh Hc Hr)))))).
Defined.

(** When the server cannot be reached, every method of the tool answers
    with the same error and nothing happens on the server; the compound
    methods stop after the failed connect. *)
Theorem unreachable_server_is_reported
    (SSH_HOSTS_items : list (string * HostConfig)) (net : Transport)
    (d2 : Delivery) (host command : string) (confirmed use_sudo : bool)
    (w : World) :
  let d := NotSent ConnectionError in
  let answer :=
    ("Error: Cannot connect to SSH Control MCP server. Ensure the container is running.",
     w) in
  Tools.ssh_list_hosts SSH_HOSTS_items d w = answer
  /\ Tools.ssh_connect SSH_HOSTS_items net d host w = answer
  /\ Tools.ssh_execute SSH_HOSTS_items net d command confirmed use_sudo w
     = answer
  /\ Tools.ssh_disconnect d w = answer
  /\ Tools.ssh_status d w = answer
  /\ Tools.connect_and_run SSH_HOSTS_items net command d d2 host w = answer
  /\ Tools.update_system SSH_HOSTS_items net d d2 host true w = answer.
Proof. cbv zeta. repeat split; reflexivity. Qed.

(** ** The marker test of the convenience methods *)

(** The convenience methods tell a successful connection by the words
    [Successfully connected] in the text [ssh_connect] returns, and an
    error text quotes the host argument.  So for an argument that holds
    those words and is no alias of the configuration, the connection
    fails (no password, nothing established), and the method goes on to
    [ssh_execute] all the same, instead of returning the error. *)
Theorem marker_in_host_argument_passes_for_success
    (SSH_HOSTS_items : list (string * HostConfig)) (net : Transport)
    (command host : string) (d2 : Delivery) (w : World) :
  (list_to_map SSH_HOSTS_items : gmap string HostConfig) !! host = None ->
  Py.contains host "Successfully connected" = true ->
  let failed := Server.connect (list_to_map SSH_HOSTS_items) net host w in
  failed.1
  = Raise ("SSH connection failed: No password found for host '"
           +:+ host +:+ "' in config")
  /\ established failed.2 = established w
  /\ Tools.ssh_connect SSH_HOSTS_items net Delivered host w
     = ("Error: SSH connection failed: No password found for host '"
        +:+ host +:+ "' in config", failed.2)
  /\ Tools.connect_and_run SSH_HOSTS_items net command Delivered d2 host w
     = Tools.ssh_execute SSH_HOSTS_items net d2 command false false failed.2.
Proof.
  intros Hl Hm failed.
  assert (Hh : Py.truthy (Some host) = true)
    by (destruct host; [discriminate|reflexivity]).
  assert (Hf : failed.1
               = Raise ("SSH connection failed: No password found for host '"
                        +:+ host +:+ "' in config")
               /\ established failed.2 = established w).
  { subst failed. rewrite connect_eq. cbv zeta.
    unfold target_of. rewrite Hl. split; reflexivity. }
  destruct Hf as [Hf He].
  assert (Hc : Tools.ssh_connect SSH_HOSTS_items net Delivered host w
               = ("Error: SSH connection failed: No password found for host '"
                  +:+ host +:+ "' in config", failed.2)).
  { unfold Tools.ssh_connect, Tools.make_request, Routes.connect.
    rewrite Hh. cbn [negb from_option id].
    change (Server.connect (list_to_map SSH_HOSTS_items) net host w)
      with failed.
    destruct failed as [outcome w1]. cbn [fst snd] in *.
    now rewrite Hf. }
  split; [exact Hf|]. split; [exact He|]. split; [exact Hc|].
  unfold Tools.connect_and_run. rewrite Hc.
  change ("Error: SSH connection failed: No password found for host '"
          +:+ host +:+ "' in config")
    with ("Error: SSH connection failed: No password found for host '"
          +:+ (host +:+ "' in config")).
  rewrite (contains_app_r _ _ _ (contains_app_l _ "' in config" _ Hm)).
  reflexivity.
Qed.

Lemma marker_in_host_argument_passes_for_success_witness :
  Tools.check_disk_space example_items quiet_net Delivered Delivered
    "Successfully connected" world_vm1
  = Tools.ssh_execute example_items quiet_net Delivered "df -h" false false
      (Server.connect (list_to_map example_items) quiet_net
         "Successfully connected" world_vm1).2.
Proof.
  exact (proj2 (proj2 (proj2
           (marker_in_host_argument_passes_for_success example_items
              quiet_net "df -h" "Successfully connected" Delivered world_vm1
              eq_refl eq_refl)))).
Defined.

(** ** Commands that mention no keyword of the catalogue *)

Lemma startswith_empty s : Py.startswith s "" = true.
Proof. now destruct s. Qed.

Lemma startswith_contains s p :
  Py.startswith s p = true -> Py.contains s p = true.
Proof. intros H. destruct s; cbn [Py.contains]; now rewrite H. Qed.

(** Every match of a pattern begins with the pattern's leading literal. *)
Lemma denotes_leading_literal r prev s prev' s' :
  Re.denotes r prev s prev' s' ->
  Py.startswith s (Re.leading_literal r) = true.
Proof.
  revert prev s prev' s'.
  induction r as [| c | | | cs | | r1 _ r2 IH2 | r1 _ r2 _ | r _];
    intros prev s prev' s' H; try apply startswith_empty.
  - inversion H; subst. cbn [Re.leading_literal Py.startswith].
    rewrite Ascii.eqb_refl. apply startswith_empty.
  - inversion H as [| | | | | | ? ? ? ? p1 s1 ? ? H1 H2 | | | |]; subst.
    destruct r1; try apply startswith_empty.
    + inversion H1; subst. cbn [Re.leading_literal Py.startswith].
      rewrite Ascii.eqb_refl. exact (IH2 _ _ _ _ H2).
    + inversion H1; subst. cbn [Re.leading_literal].
      exact (IH2 _ _ _ _ H2).
Qed.

Lemma found_leading_literal r text :
  Re.found r text -> Py.contains text (Re.leading_literal r) = true.
Proof.
  intros (pre & rest & prev' & rest' & -> & H).
  apply contains_app_r, startswith_contains.
  exact (denotes_leading_literal _ _ _ _ _ H).
Qed.

(** Trimming only removes text. *)
Lemma contains_lstrip s p :
  Py.contains (Py.lstrip s) p = true -> Py.contains s p = true.
Proof.
  induction s as [|a s IH]; [easy|]. cbn [Py.lstrip].
  destruct (Py.isspace a); [|easy].
  intros H. cbn [Py.contains]. rewrite (IH H). apply orb_true_r.
Qed.

Lemma rstrip_prefix s : exists post, s = Py.rstrip s +:+ post.
Proof.
  induction s as [|a s [post IH]]; [now exists ""|].
  cbn [Py.rstrip]. destruct (Py.rstrip s) as [|b t].
  - destruct (Py.isspace a).
    + now exists (String a s).
    + exists s. reflexivity.
  - exists post. now rewrite IH at 1.
Qed.

Lemma contains_strip s p :
  Py.contains (Py.strip s) p = true -> Py.contains s p = true.
Proof.
  unfold Py.strip. intros H. apply contains_lstrip.
  destruct (rstrip_prefix (Py.lstrip s)) as [post Hs]. rewrite Hs.
  now apply contains_app_l.
Qed.

(** A command classified destructive mentions the leading keyword of
    the signature that matched. *)
Lemma destructive_mentions_keyword command :
  is_destructive_command command = true -> mentions_keyword command = true.
Proof.
  unfold is_destructive_command, mentions_keyword, signature_keywords.
  cbv zeta. rewrite !existsb_exists.
  intros (pattern & Hin & (r & Hc & Hf)%search_correct).
  exists (Re.leading_literal r). split.
  - apply in_map_iff. exists pattern. now rewrite Hc.
  - apply contains_strip. now apply found_leading_literal.
Qed.

Lemma signature_keywords_eq :
  signature_keywords
  = [ "rm"; "rm"; "dd"; "mkfs"; "format"; "fdisk"; "parted"; "cryptsetup";
      ":>"; "shred"; "wipefs"; ">"; "chmod"; "chown"; "kill"; "killall";
      "pkill"; "systemctl"; "service"; "apt-get"; "apt"; "yum"; "dnf";
      "pacman"; "snap"; "docker"; "iptables"; "ufw"; "init"; "shutdown";
      "reboot"; "halt"; "poweroff"; "userdel"; "usermod"; "groupdel"; "mv";
      "truncate"; "crontab" ].
Proof. vm_compute. reflexivity. Qed.

(** C9, as amended.  The classifier goes by the text of the command
    alone.  Every ASCII command whose lower-cased text holds none of the
    keywords the signatures begin with ([rm], [dd], [mkfs], ..., see
    [signature_keywords_eq]) is classified safe; the four commands the
    specification names, [ls -la], [df -h], [uptime] and [echo hi], in
    any spelling of their letters' case, hold none and are classified
    safe. *)
Theorem C9_commands_without_keyword_not_flagged :
  (forall command,
      Py.isascii command = true ->
      mentions_keyword command = false ->
      is_destructive_command command = false)
  /\ (forall example command,
        In example benign_examples ->
        Py.lower command = Py.lower example ->
        mentions_keyword command = false
        /\ is_destructive_command command = false).
Proof.
  split.
  - intros command _ Hm.
    destruct (is_destructive_command command) eqn:Hd; [|reflexivity].
    apply destructive_mentions_keyword in Hd. congruence.
  - intros example command Hin Hcase. split.
    + unfold mentions_keyword. rewrite Hcase.
      unfold benign_examples in Hin.
      repeat (destruct Hin as [<-|Hin]; [vm_compute; reflexivity|]).
      destruct Hin.
    + exact (benign_examples_not_flagged example command Hin Hcase).
Qed.

Lemma C9_commands_without_keyword_not_flagged_witness :
  Py.isascii "DF -h /srv" = true
  /\ mentions_keyword "DF -h /srv" = false
  /\ is_destructive_command "DF -h /srv" = false.
Proof.
  assert (Ha : Py.isascii "DF -h /srv" = true) by reflexivity.
  assert (Hm : mentions_keyword "DF -h /srv" = false)
    by (vm_compute; reflexivity).
  exact (conj Ha (conj Hm
           (proj1 C9_commands_without_keyword_not_flagged "DF -h /srv"
              Ha Hm))).
Defined.

(** C9 as the specification states it does not hold: commands that
    delete, stop or change nothing (reading a manual page, printing a
    word, listing a directory, creating a repository) are classified
    destructive because a keyword occurs in their text. *)
Lemma C9_benign_commands_flagged :
  map is_destructive_command
    [ "man shutdown"; "echo format"; "ls /tmp/dd"; "git init repo10" ]
  = [ true; true; true; true ].
Proof. vm_compute. reflexivity. Qed.

(** ** The session invariant on the running example *)

Lemma other_operations_keep_session_consistent_witness :
  session_consistent (ssh_conn world_vm1) = true
  /\ session_consistent (ssh_conn (Server.disconnect world_vm1).2) = true
  /\ session_consistent
       (ssh_conn (Http.execute example_hosts quiet_net (Some "uptime") false
                    false world_vm1).2) = true.
Proof.
  assert (Hs : session_consistent (ssh_conn world_vm1) = true)
    by reflexivity.
  pose proof (other_operations_keep_session_consistent example_hosts
                quiet_net world_vm1 Hs) as [Hd [Hx _]].
  exact (conj Hs (conj Hd (proj2 (Hx (Some "uptime") false false)))).
Defined.
